(** * Schedule extraction and goal-swing sensitivity: a shallow embedding

    This development embeds the two scripts of the repository,
    [ocr_and_parse.py] and [clean_and_sensitivity.py], and states the
    properties of their specification as theorems over the embedding.

    Modelling conventions.
    - A Python [str] is a list of Unicode code points ([pystr]).  The
      whitespace class is Python's full [str.isspace] table.  Case mapping,
      the digit class and the word class are the ASCII ones: cased letters
      and decimal digits of other scripts are outside the model.
    - A pandas cell is a [cell]: a string, a number, a timestamp or a
      missing value.  Numbers are the values of an integer column (goal
      counts): a sum is kept in 64 bits and wraps around.  Timestamps are
      integers on pandas' time axis, without time zone.  A row is a finite
      map from column labels to cells, a data frame a column list together
      with its rows.
    - The pandas and unicodedata entry points whose result depends on the
      library's parsing tables ([pd.to_datetime], [pd.to_numeric],
      [astype(str)] on non-strings, [pd.Timestamp], NFKC) are taken as an
      interface ([Pandas], [nfkc]): [pd.to_datetime] reads a column as a
      whole, the others one value at a time.  A bound or a date that
      carries a time zone, and a bound that reads as [NaT], are outside
      the interface.  Everything the
      repository itself computes is defined here.  The steps that touch
      files and processes (OCR, PDF text extraction, CSV reading and
      writing, argument parsing) are outside the embedding: [main] of
      [ocr_and_parse.py] starts from the page texts, [clean_filter] from
      the frame read.
    - A raised Python exception, [sys.exit] included, is an [Err] result. *)

From Stdlib Require Import ZArith NArith Lia.
From stdpp Require Import gmap strings list fin_maps sorting.

Open Scope Z_scope.

(** ** Text: Python strings as lists of code points *)

Module Text.

Definition pystr := list N.

(** A literal with ASCII content. *)
Definition py (s : string) : pystr :=
  map Ascii.N_of_ascii (String.list_ascii_of_string s).

Definition in_range (lo hi c : N) : bool := ((lo <=? c) && (c <=? hi))%N.

(** [str.isspace] on one code point, which is also [\s] of [re] on [str]
    patterns. *)
Definition is_space (c : N) : bool :=
  in_range 9 13 c || in_range 28 32 c || (c =? 133)%N || (c =? 160)%N
  || (c =? 5760)%N || in_range 8192 8202 c || (c =? 8232)%N
  || (c =? 8233)%N || (c =? 8239)%N || (c =? 8287)%N || (c =? 12288)%N.

Definition is_digit (c : N) : bool := in_range 48 57 c.
Definition is_upper (c : N) : bool := in_range 65 90 c.
Definition is_lower (c : N) : bool := in_range 97 122 c.
Definition is_alpha (c : N) : bool := is_upper c || is_lower c.
(** [\w]: letters, digits and the underscore. *)
Definition is_word (c : N) : bool := is_alpha c || is_digit c || (c =? 95)%N.

Definition to_upper (c : N) : N := if is_lower c then (c - 32)%N else c.
Definition to_lower (c : N) : N := if is_upper c then (c + 32)%N else c.

Definition upper (s : pystr) : pystr := map to_upper s.
Definition lower (s : pystr) : pystr := map to_lower s.

(** [str.title]: a cased character is upper-cased when it follows an
    uncased one (or starts the string) and lower-cased otherwise. *)
Fixpoint title_from (prev_cased : bool) (s : pystr) : pystr :=
  match s with
  | [] => []
  | c :: s' =>
      if is_alpha c
      then (if prev_cased then to_lower c else to_upper c) :: title_from true s'
      else c :: title_from false s'
  end.
Definition title (s : pystr) : pystr := title_from false s.

Fixpoint drop_while (p : N -> bool) (s : pystr) : pystr :=
  match s with
  | [] => []
  | c :: s' => if p c then drop_while p s' else s
  end.

Fixpoint take_while (p : N -> bool) (s : pystr) : pystr :=
  match s with
  | [] => []
  | c :: s' => if p c then c :: take_while p s' else []
  end.

Definition lstrip_by (p : N -> bool) (s : pystr) : pystr := drop_while p s.
Definition rstrip_by (p : N -> bool) (s : pystr) : pystr :=
  reverse (drop_while p (reverse s)).
Definition strip_by (p : N -> bool) (s : pystr) : pystr :=
  rstrip_by p (lstrip_by p s).

(** [s.strip()] *)
Definition strip (s : pystr) : pystr := strip_by is_space s.

(** Membership of a code point in a set given as a string, as in
    [s.strip(chars)]. *)
Definition one_of (chars : string) (c : N) : bool :=
  bool_decide (c ∈ py chars).

(** [old in s] for a substring [old]. *)
Fixpoint starts_with (p s : pystr) : bool :=
  match p, s with
  | [], _ => true
  | a :: p', b :: s' => (a =? b)%N && starts_with p' s'
  | _ :: _, [] => false
  end.

Fixpoint contains (p s : pystr) : bool :=
  starts_with p s ||
  match s with
  | [] => false
  | _ :: s' => contains p s'
  end.

(** [s.replace(old, new)] for a single code point [old]. *)
Definition replace_char (old : N) (new : pystr) (s : pystr) : pystr :=
  flat_map (fun c => if (c =? old)%N then new else [c]) s.

(** [int(s)] on a run of ASCII digits. *)
Definition int_of_digits (s : pystr) : Z :=
  fold_left (fun acc c => 10 * acc + (Z.of_N c - 48)) s 0.

End Text.

(** ** Re: the fragment of Python's [re] the scripts use

    A pattern is matched by backtracking.  [run r text st] lists the states
    in which [r] can end when started in [st], in the order in which the
    backtracking matcher tries them: the head of the list is the match
    [re] reports.  Quantifiers are greedy, alternation is ordered. *)

Module Re.
Import Text.

Inductive re :=
| Eps
| Chr (c : N)                                  (* a literal code point *)
| Cls (p : N -> bool)                          (* a character class *)
| Seq (r1 r2 : re)
| Alt (r1 r2 : re)
| Opt (r : re)                                 (* r? *)
| Rep (p : N -> bool) (lo : nat) (hi : option nat) (* [class]{lo,hi}, [hi = None] unbounded *)
| Grp (i : nat) (r : re)                       (* capturing group number i *)
| NotAhead (r : re)                            (* (?!r) *)
| NotBehind (p : N -> bool)                    (* (?<!class) *)
| WordB                                        (* \b *)
| Bol                                          (* ^ *)
| Eol.                                         (* $ *)

Record mstate := MState { pos : nat; caps : list (nat * (nat * nat)) }.

Definition at_pos (text : pystr) (i : nat) (p : N -> bool) : bool :=
  match text !! i with Some c => p c | None => false end.

(** The end positions of a greedy bounded repetition, longest first. *)
Fixpoint rep_ends (start : nat) (lo : nat) (n : nat) : list nat :=
  match n with
  | O => if decide (lo = O) then [start] else []
  | S n' => if decide (lo ≤ n)%nat then (start + n)%nat :: rep_ends start lo n' else []
  end.

Definition cap_len (hi : option nat) (n : nat) : nat :=
  match hi with Some h => Nat.min h n | None => n end.

Fixpoint run (r : re) (text : pystr) (st : mstate) : list mstate :=
  match r with
  | Eps => [st]
  | Chr c =>
      if at_pos text (pos st) (N.eqb c) then [MState (S (pos st)) (caps st)] else []
  | Cls p =>
      if at_pos text (pos st) p then [MState (S (pos st)) (caps st)] else []
  | Seq r1 r2 => flat_map (run r2 text) (run r1 text st)
  | Alt r1 r2 => run r1 text st ++ run r2 text st
  | Opt r1 => run r1 text st ++ [st]
  | Rep p lo hi =>
      let n := cap_len hi (length (take_while p (drop (pos st) text))) in
      map (fun e => MState e (caps st)) (rep_ends (pos st) lo n)
  | Grp i r1 =>
      map (fun st' => MState (pos st') ((i, (pos st, pos st')) :: caps st'))
          (run r1 text st)
  | NotAhead r1 =>
      match run r1 text st with [] => [st] | _ :: _ => [] end
  | NotBehind p =>
      match pos st with
      | O => [st]
      | S i => if at_pos text i p then [] else [st]
      end
  | WordB =>
      let before := match pos st with O => false | S i => at_pos text i is_word end in
      let after := at_pos text (pos st) is_word in
      if xorb before after then [st] else []
  | Bol => if decide (pos st = O) then [st] else []
  | Eol =>
      let n := length text in
      if decide (pos st = n) then [st]
      else if bool_decide (S (pos st) = n) && at_pos text (pos st) (N.eqb 10)
           then [st] else []
  end.

(** A reported match: its span and its groups. *)
Record rmatch := RMatch { m_start : nat; m_end : nat; m_caps : list (nat * (nat * nat)) }.

Definition match_at (r : re) (text : pystr) (i : nat) : option rmatch :=
  match run r text (MState i []) with
  | st :: _ => Some (RMatch i (pos st) (caps st))
  | [] => None
  end.

(** [re.match]. *)
Definition rmatch_start (r : re) (text : pystr) : option rmatch := match_at r text O.

(** [re.search]: the first start position, left to right, with a match. *)
Fixpoint search_from (r : re) (text : pystr) (i : nat) (fuel : nat) : option rmatch :=
  match match_at r text i with
  | Some m => Some m
  | None =>
      match fuel with
      | O => None
      | S fuel' => search_from r text (S i) fuel'
      end
  end.
Definition search (r : re) (text : pystr) : option rmatch :=
  search_from r text O (length text).

Definition slice (text : pystr) (a b : nat) : pystr := take (b - a) (drop a text).

(** [m.group(0)] and [m.group(i)]. *)
Definition group0 (text : pystr) (m : rmatch) : pystr := slice text (m_start m) (m_end m).
Definition group (text : pystr) (m : rmatch) (i : nat) : pystr :=
  match list_find (fun c => fst c = i) (m_caps m) with
  | Some (_, (_, (a, b))) => slice text a b
  | None => []
  end.

(** [re.findall] for a pattern without groups and [re.sub] with a constant
    replacement, for patterns that match no empty string: the scan resumes
    at the end of each match. *)
Fixpoint scan (r : re) (text : pystr) (i : nat) (fuel : nat)
    : list (nat + rmatch) :=
  match fuel with
  | O => []
  | S fuel' =>
      if decide (length text ≤ i)%nat then []
      else match match_at r text i with
           | Some m =>
               if decide (i < m_end m)%nat
               then inr m :: scan r text (m_end m) fuel'
               else inl i :: scan r text (S i) fuel'
           | None => inl i :: scan r text (S i) fuel'
           end
  end.

Definition findall (r : re) (text : pystr) : list pystr :=
  omap (fun x => match x with inr m => Some (group0 text m) | inl _ => None end)
       (scan r text O (length text)).

Definition sub (r : re) (repl : pystr) (text : pystr) : pystr :=
  flat_map (fun x => match x with
                     | inr _ => repl
                     | inl i => slice text i (S i)
                     end)
           (scan r text O (length text)).

(** Helpers to write patterns. *)
Definition seqs (rs : list re) : re := foldr Seq Eps rs.
Definition alts (r : re) (rs : list re) : re := fold_left Alt rs r.
Definition lit (s : string) : re := seqs (map Chr (py s)).
(** A literal under [re.IGNORECASE]. *)
Definition lit_i (s : string) : re :=
  seqs (map (fun c => Cls (fun d => (to_lower d =? to_lower c)%N)) (py s)).

(** [.] without [re.DOTALL] *)
Definition cls_dot (c : N) : bool := negb (c =? 10)%N.

End Re.

(** ** Frames: pandas objects as the scripts use them *)

Module Frame.
Import Text.

Inductive cell :=
| VStr (s : pystr)      (* a Python string *)
| VNum (n : Z)          (* a number *)
| VTime (t : Z)         (* a Timestamp *)
| VNaN.                 (* NaN, NaT or None *)

#[export] Instance cell_eq_dec : EqDecision cell.
Proof. solve_decision. Defined.

(** A data frame: its column labels and its rows, each row a map from
    labels to cells (the [Series] that [apply(axis=1)] hands out). *)
Record DataFrame := MkFrame { columns : list string; rows : list (gmap string cell) }.

Inductive error :=
| KeyError (label : string)
| TypeError
| AttributeError
| ValueError
| SystemExit (code : Z).

Inductive res (A : Type) :=
| Ok (a : A)
| Err (e : error).
Arguments Ok {A} a.
Arguments Err {A} e.

Definition bind {A B} (m : res A) (k : A -> res B) : res B :=
  match m with Ok a => k a | Err e => Err e end.

Definition require (b : bool) (e : error) : res unit :=
  if b then Ok tt else Err e.

(** The library entry points the scripts call on data they do not control.
    [pd_datetime] is [pd.to_datetime] with [errors='coerce'] on a column
    that does not hold timestamps yet: it reads the column as a whole (the
    format of one value can decide how the others are read) and gives one
    result for each value ([None]: coerced to missing).  [pd_numeric] is
    [pd.to_numeric] with [errors='coerce'] on a cell that is not a number
    ([None]: coerced to missing); [pd_str] is [str] on a cell that is not a
    string; [pd_Timestamp] is the constructor on a string ([None]: it
    raises [ValueError]); [pd_date_str] is [.dt.date.astype(str)] on a
    timestamp. *)
Class Pandas := {
  pd_datetime : list cell -> list (option Z);
  pd_datetime_length : forall col, length (pd_datetime col) = length col;
  pd_numeric : cell -> option Z;
  pd_str : cell -> pystr;
  pd_Timestamp : pystr -> option Z;
  pd_date_str : Z -> pystr
}.

(** [row[c]], a missing entry reading as NaN. *)
Definition get (c : string) (r : gmap string cell) : cell := default VNaN (r !! c).

Definition has_column (c : string) (df : DataFrame) : bool :=
  bool_decide (c ∈ columns df).

(** [df[c]] fails on a label that is absent, and gives a frame rather than
    a column when the label occurs twice. *)
Definition duplicated (c : string) (df : DataFrame) : bool :=
  bool_decide (1 < length (filter (fun x => x = c) (columns df)))%nat.

(** [df[c] = f(df[c])], cell by cell. *)
Definition map_column (c : string) (f : cell -> cell) (df : DataFrame) : DataFrame :=
  MkFrame (columns df) (map (fun r => <[c := f (get c r)]> r) (rows df)).

(** [df[c]] as the list of its values and [df[c] = values] for a list of
    one value for each row. *)
Definition column (c : string) (df : DataFrame) : list cell :=
  map (get c) (rows df).
Definition set_cells (c : string) (l : list (gmap string cell)) (values : list cell)
    : list (gmap string cell) :=
  zip_with (fun r v => <[c := v]> r) l values.

(** [df[mask]] for a row-wise mask. *)
Definition select (p : gmap string cell -> bool) (df : DataFrame) : DataFrame :=
  MkFrame (columns df) (filter (fun r => p r = true) (rows df)).

(** [len(df)] *)
Definition len (df : DataFrame) : Z := Z.of_nat (length (rows df)).

Section WithPandas.
Context `{Pandas}.

(** [pd.to_datetime(col, errors='coerce')]: a column of timestamps and
    missing values comes back as it is. *)
Definition is_datetime (c : cell) : bool :=
  match c with VTime _ | VNaN => true | _ => false end.
Definition read_datetime (o : option Z) : cell :=
  match o with Some t => VTime t | None => VNaN end.
Definition to_datetime (col : list cell) : list cell :=
  if forallb is_datetime col then col else map read_datetime (pd_datetime col).

Definition to_numeric (c : cell) : cell :=
  match c with
  | VNum n => VNum n
  | VNaN => VNaN
  | _ => match pd_numeric c with Some n => VNum n | None => VNaN end
  end.

(** [astype(str)] and [str(x)] *)
Definition astype_str (c : cell) : pystr :=
  match c with
  | VStr s => s
  | _ => pd_str c
  end.

End WithPandas.

(** [between(lo, hi)], inclusive; a missing value is outside. *)
Definition between (lo hi : Z) (c : cell) : bool :=
  match c with
  | VNum n => (lo <=? n) && (n <=? hi)
  | _ => false
  end.

(** [df['date'] >= ts] and [df['date'] <= ts]; NaT compares false. *)
Definition time_ge (ts : Z) (c : cell) : bool :=
  match c with VTime t => ts <=? t | _ => false end.
Definition time_le (ts : Z) (c : cell) : bool :=
  match c with VTime t => t <=? ts | _ => false end.

(** [isin(labels)] *)
Definition isin (labels : list pystr) (c : cell) : bool :=
  match c with
  | VStr s => bool_decide (s ∈ labels)
  | _ => false
  end.

(** [drop_duplicates(subset=cols)]: the first row of each key stays. *)
Definition key_of (cols : list string) (r : gmap string cell) : list cell :=
  map (fun c => get c r) cols.

Fixpoint dedup_seen (cols : list string) (seen : list (list cell))
    (l : list (gmap string cell)) : list (gmap string cell) :=
  match l with
  | [] => []
  | r :: l' =>
      if decide (key_of cols r ∈ seen) then dedup_seen cols seen l'
      else r :: dedup_seen cols (key_of cols r :: seen) l'
  end.

(** A frame that is empty (no rows or no columns) is returned as it is,
    before [subset] is looked at. *)
Definition empty (df : DataFrame) : bool :=
  bool_decide (rows df = []) || bool_decide (columns df = []).

Definition drop_duplicates (cols : list string) (df : DataFrame) : res DataFrame :=
  if empty df then Ok df
  else match list_find (fun c => c ∉ columns df) cols with
       | Some (_, c) => Err (KeyError c)
       | None => Ok (MkFrame (columns df) (dedup_seen cols [] (rows df)))
       end.

(** [sort_values('date')]: ascending, missing values last.  The sort here
    is stable: rows of equal date keep their order, as they do in pandas
    on a short column; pandas' default sort promises no order among
    them. *)
Definition date_le (a b : gmap string cell) : Prop :=
  match get "date" a, get "date" b with
  | VTime s, VTime t => s <= t
  | VTime _, _ => True
  | _, VTime _ => False
  | _, _ => True
  end.

#[export] Instance date_le_dec a b : Decision (date_le a b).
Proof. unfold date_le. destruct (get "date" a), (get "date" b); apply _. Defined.

Fixpoint insert_by_date (r : gmap string cell) (l : list (gmap string cell))
    : list (gmap string cell) :=
  match l with
  | [] => [r]
  | r' :: l' =>
      if decide (date_le r r') then r :: r' :: l' else r' :: insert_by_date r l'
  end.
Definition sort_by_date (l : list (gmap string cell)) : list (gmap string cell) :=
  foldr insert_by_date [] l.

Definition sort_values_date (df : DataFrame) : res DataFrame :=
  if has_column "date" df
  then Ok (MkFrame (columns df) (sort_by_date (rows df)))
  else Err (KeyError "date").

End Frame.

(** ** clean_and_sensitivity.py *)

Module CleanAndSensitivity.
Import Text Re Frame.
Local Open Scope string_scope.
Local Open Scope Z_scope.

#[export] Instance res_bind : MBind res := fun A B k m => Frame.bind m k.
#[export] Instance res_ret : MRet res := @Ok.
#[export] Instance res_fmap : FMap res :=
  fun A B f m => match m with Ok a => Ok (f a) | Err e => Err e end.

(** [normalize_columns]: [df.rename(columns={...})]. *)
Definition rename_label (c : string) : string :=
  if decide (c = "gf") then "goals_for"
  else if decide (c = "ga") then "goals_against"
  else if decide (c = "wl") then "result"
  else if decide (c = "team") then "opponent"
  else c.

Definition normalize_columns (df : DataFrame) : DataFrame :=
  MkFrame (map rename_label (columns df)) (map (kmap rename_label) (rows df)).

(** [\s+] *)
Definition RX_SPACES : re := Rep is_space 1 None.
(** [[A-Za-z]] *)
Definition RX_LETTER : re := Cls is_alpha.
(** [^(at|vs\.?)\s+] followed by a second group that takes the rest of
    the line, and [$]; compiled with [re.I]. *)
Definition RX_PREFIX : re :=
  seqs [Bol;
        Grp 1 (Alt (lit_i "at") (Seq (lit_i "vs") (Opt (Chr 46))));
        Rep is_space 1 None;
        Grp 2 (Rep cls_dot 0 None);
        Eol].

(** [fillna('')] *)
Definition fillna_empty (c : cell) : cell :=
  match c with VNaN => VStr [] | _ => c end.

(** A sum as a 64-bit integer column holds it: reduced modulo 2^64 into
    [-2^63, 2^63). *)
Definition wrap64 (x : Z) : Z := (x + 2 ^ 63) mod 2 ^ 64 - 2 ^ 63.

(** [(a[c] + k)] for a delta [k] that is itself within the 64 bits,
    [.clip(lower=lo)], [x > y] and [x != s] on cells. *)
Definition num_add (c : cell) (k : Z) : res cell :=
  match c with
  | VNum n => Ok (VNum (wrap64 (n + k)))
  | VNaN => Ok VNaN
  | _ => Err TypeError
  end.
Definition clip_lower (lo : Z) (c : cell) : cell :=
  match c with VNum n => VNum (Z.max lo n) | _ => c end.
Definition gt (a b : cell) : bool :=
  match a, b with VNum x, VNum y => y <? x | _, _ => false end.
Definition ne_str (c : cell) (s : pystr) : bool :=
  match c with VStr t => negb (bool_decide (t = s)) | _ => true end.

(** [a.loc[mask, cols]]: the rows of the mask, cut to [cols]. *)
Fixpoint mask_rows (p : gmap string cell -> res bool) (l : list (gmap string cell))
    : res (list (gmap string cell)) :=
  match l with
  | [] => Ok []
  | r :: l' =>
      b ← p r;
      rest ← mask_rows p l';
      Ok (if b : bool then r :: rest else rest)
  end.

Definition project (cols : list string) (r : gmap string cell) : gmap string cell :=
  list_to_map (map (fun c => (c, get c r)) cols).

Definition add_column (c : string) (cols : list string) : list string :=
  if decide (c ∈ cols) then cols else cols ++ [c].

Section WithPandas.
Context `{Pandas}.

Definition coerce_numeric (c : string) (df : DataFrame) : res DataFrame :=
  if has_column c df
  then if duplicated c df then Err TypeError
       else Ok (map_column c to_numeric df)
  else Ok df.

Definition coerce_string (c : string) (f : pystr -> pystr) (df : DataFrame)
    : res DataFrame :=
  if has_column c df
  then if duplicated c df then Err AttributeError
       else Ok (map_column c (fun x => VStr (f (astype_str x))) df)
  else Ok df.

(** [df['date'] = pd.to_datetime(df['date'], errors='coerce')]; under a
    label that occurs twice [df['date']] is a frame, which
    [pd.to_datetime] refuses with [ValueError]. *)
Definition coerce_datetime (df : DataFrame) : res DataFrame :=
  if has_column "date" df
  then if duplicated "date" df then Err ValueError
       else Ok (MkFrame (columns df)
                  (set_cells "date" (rows df) (to_datetime (column "date" df))))
  else Ok df.

Definition coerce_types (df : DataFrame) : res DataFrame :=
  df ← coerce_datetime df;
  df ← coerce_numeric "goals_for" df;
  df ← coerce_numeric "goals_against" df;
  df ← coerce_string "result" (fun s => strip (upper s)) df;
  df ← coerce_string "opponent" (fun s => strip (sub RX_SPACES (py " ") s)) df;
  Ok (if has_column "venue" df
      then map_column "venue" (fun x => VStr (title (astype_str (fillna_empty x)))) df
      else df).

Definition infer_venue_and_clean_opponent (row : gmap string cell)
    : gmap string cell :=
  let opp := strip (lstrip_by (one_of "= ")
                      (astype_str (default (VStr []) (row !! "opponent")))) in
  let ven := strip (astype_str (default (VStr []) (row !! "venue"))) in
  let '(opp, ven) :=
    match rmatch_start RX_PREFIX opp with
    | Some m =>
        (group opp m 2,
         if decide (ven = [])
         then (if starts_with (py "at") (lower (group opp m 1))
               then py "Away" else py "Home")
         else ven)
    | None => (opp, ven)
    end in
  <["venue" := VStr (if decide (ven = []) then ven else title ven)]>
    (<["opponent" := VStr (title opp)]> row).

(** [df.apply(f, axis=1)] for an [f] that sets [opponent] and [venue] and
    returns the row: a frame without rows comes back as it is. *)
Definition apply_rows (f : gmap string cell -> gmap string cell) (df : DataFrame)
    : DataFrame :=
  match rows df with
  | [] => df
  | _ :: _ =>
      MkFrame (add_column "venue" (add_column "opponent" (columns df)))
              (map f (rows df))
  end.

(** The date window: a bound that is [None] or empty is not applied. *)
Definition window (bound : option pystr) (cmp : Z -> cell -> bool) (df : DataFrame)
    : res DataFrame :=
  match bound with
  | None | Some [] => Ok df
  | Some s =>
      match pd_Timestamp s with
      | Some ts => Ok (select (fun r => cmp ts (get "date" r)) df)
      | None => Err ValueError
      end
  end.

Definition dedup_subset : list string :=
  ["date"; "opponent"; "goals_for"; "goals_against"; "result"].

Definition clean_filter (df : DataFrame) (start end_ : option pystr)
    : res DataFrame :=
  let df := normalize_columns df in
  df ← coerce_types df;
  _ ← require (has_column "date" df) (KeyError "date");
  let df := select (fun r => negb (bool_decide (get "date" r = VNaN))) df in
  df ← window start time_ge df;
  df ← window end_ time_le df;
  let df := if has_column "result" df
            then select (fun r => isin [py "W"; py "L"] (get "result" r)) df
            else df in
  _ ← require (has_column "goals_for" df) (KeyError "goals_for");
  _ ← require (has_column "goals_against" df) (KeyError "goals_against");
  let df := select (fun r => between 1 35 (get "goals_for" r)
                             && between 1 35 (get "goals_against" r)) df in
  _ ← require (has_column "opponent" df) (KeyError "opponent");
  let df := select (fun r => bool_decide
                       (is_Some (search RX_LETTER (astype_str (get "opponent" r))))) df in
  let df := apply_rows infer_venue_and_clean_opponent df in
  df ← drop_duplicates dedup_subset df;
  sort_values_date df.

End WithPandas.

(** [flipped]: the mask of one row. *)
Definition flip_mask (gf_delta ga_delta : Z) (r : gmap string cell) : res bool :=
  gf_adj ← num_add (get "goals_for" r) gf_delta;
  ga_adj ← clip_lower 0 <$> num_add (get "goals_against" r) (- ga_delta);
  Ok (ne_str (get "result" r) (py "W") && gt gf_adj ga_adj).

Definition flipped_columns : list string :=
  ["date"; "opponent"; "goals_for"; "goals_against"].

Definition flipped (df : DataFrame) (gf_delta ga_delta : Z) : res DataFrame :=
  _ ← require (has_column "goals_for" df) (KeyError "goals_for");
  _ ← require (has_column "goals_against" df) (KeyError "goals_against");
  _ ← require (has_column "result" df) (KeyError "result");
  hit ← mask_rows (flip_mask gf_delta ga_delta) (rows df);
  _ ← require (has_column "date" df) (KeyError "date");
  _ ← require (has_column "opponent" df) (KeyError "opponent");
  Ok (MkFrame flipped_columns (map (project flipped_columns) hit)).

(** [best_split]: the loop over [range(d+1)], [best] being the triple
    (flips, gf_delta, ga_delta). *)
Fixpoint best_loop (df : DataFrame) (d : Z) (ks : list Z) (best : Z * Z * Z)
    : res (Z * Z * Z) :=
  match ks with
  | [] => Ok best
  | k :: ks' =>
      out ← flipped df k (d - k);
      let f := len out in
      best_loop df d ks' (if best.1.1 <? f then (f, k, d - k) else best)
  end.

Definition best_split (df : DataFrame) (d : Z) : res (Z * Z * Z) :=
  best_loop df d (seqZ 0 (d + 1)) (0, 0, 0).

(** One line of the sensitivity table of [main]: the offense-only and the
    defense-only counts and the best split of magnitude [d]. *)
Definition sensitivity_row (df : DataFrame) (d : Z) : res (Z * Z * (Z * Z * Z)) :=
  off ← len <$> flipped df d 0;
  dea ← len <$> flipped df 0 d;
  best ← best_split df d;
  Ok (off, dea, best).

End CleanAndSensitivity.

(** ** ocr_and_parse.py *)

Module OcrAndParse.
Import Text Re Frame CleanAndSensitivity.
Local Open Scope string_scope.
Local Open Scope list_scope.
Local Open Scope Z_scope.

(** [unicodedata.normalize("NFKC", s)]; the empty string is its own
    normal form. *)
Class Unicodedata := {
  nfkc : pystr -> pystr;
  nfkc_nil : nfkc [] = []
}.

(** The month alternation of [MONTH], each name with its optional tail,
    followed by an optional period. *)
Definition month_name (head tail : string) : re := Seq (lit_i head) (Opt (lit_i tail)).
Definition MONTH : re :=
  Seq (Grp 1
         (alts (month_name "Jan" "uary")
               [month_name "Feb" "ruary"; month_name "Mar" "ch";
                month_name "Apr" "il"; lit_i "May"; month_name "Jun" "e";
                month_name "Jul" "y"; month_name "Aug" "ust";
                Seq (lit_i "Sep") (Opt (Alt (lit_i "t") (lit_i "tember")));
                month_name "Oct" "ober"; month_name "Nov" "ember";
                month_name "Dec" "ember"]))
      (Opt (Chr 46)).

(** [\b\d{1,2}/\d{1,2}/\d{2,4}\b] *)
Definition RX_DATE_NUM : re :=
  seqs [WordB; Rep is_digit 1 (Some 2%nat); Chr 47; Rep is_digit 1 (Some 2%nat);
        Chr 47; Rep is_digit 2 (Some 4%nat); WordB].

(** [\b MONTH \s+\d{1,2}(?:,\s*\d{4})?\b], ignoring case *)
Definition RX_DATE_NAME : re :=
  seqs [WordB; MONTH; Rep is_space 1 None; Rep is_digit 1 (Some 2%nat);
        Opt (seqs [Chr 44; Rep is_space 0 None; Rep is_digit 4 (Some 4%nat)]);
        WordB].

(** [\b(W|L|T)\b], ignoring case *)
Definition RX_RES : re :=
  seqs [WordB; Grp 1 (alts (lit_i "W") [lit_i "L"; lit_i "T"]); WordB].

(** [(?<!\d)(\d{1,2})\s*-\s*(\d{1,2})(?!\s*[-/]\d)] *)
Definition RX_SCORE_TAIL : re :=
  seqs [Rep is_space 0 None; Cls (one_of "-/"); Cls is_digit].
Definition RX_SCORE : re :=
  seqs [NotBehind is_digit;
        Grp 1 (Rep is_digit 1 (Some 2%nat));
        Rep is_space 0 None; Chr 45; Rep is_space 0 None;
        Grp 2 (Rep is_digit 1 (Some 2%nat));
        NotAhead RX_SCORE_TAIL].

(** [\b(H|A|N)\b] *)
Definition RX_HAN : re :=
  seqs [WordB; Grp 1 (alts (lit "H") [lit "A"; lit "N"]); WordB].

(** [^(at|vs\.?|neutral)\s+], ignoring case *)
Definition RX_VENUE_PREFIX : re :=
  seqs [Bol;
        Grp 1 (alts (lit_i "at") [Seq (lit_i "vs") (Opt (Chr 46)); lit_i "neutral"]);
        Rep is_space 1 None].

(** [[A-Za-z][A-Za-z0-9 .&'()/\-]{2,}] *)
Definition RX_NAME_RUN : re :=
  Seq (Cls is_alpha)
      (Rep (fun c => is_alpha c || is_digit c || one_of " .&'()/-" c) 2 None).

Section WithUnicodedata.
Context `{Unicodedata}.

(** [clean] *)
Definition clean (s : option pystr) : pystr :=
  let s := default [] s in
  let s := replace_char 8201 (py " ") (replace_char 8199 (py " ")
             (replace_char 160 (py " ") s)) in
  let s := replace_char 8212 (py "-") (replace_char 8211 (py "-")
             (replace_char 8212 (py "-") (replace_char 8211 (py "-") s))) in
  let s := nfkc s in
  strip (sub RX_SPACES (py " ") s).

End WithUnicodedata.

(** [str.splitlines] *)
Definition is_linebreak (c : N) : bool :=
  in_range 10 13 c || in_range 28 30 c || (c =? 133)%N || (c =? 8232)%N
  || (c =? 8233)%N.

Fixpoint splitlines_from (cur : pystr) (s : pystr) : list pystr :=
  match s with
  | [] => match cur with [] => [] | _ :: _ => [reverse cur] end
  | c :: s' =>
      if (c =? 13)%N
      then match s' with
           | d :: s'' =>
               if (d =? 10)%N then reverse cur :: splitlines_from [] s''
               else reverse cur :: splitlines_from [] s'
           | [] => [reverse cur]
           end
      else if is_linebreak c then reverse cur :: splitlines_from [] s'
      else splitlines_from (c :: cur) s'
  end.
Definition splitlines (s : pystr) : list pystr := splitlines_from [] s.

(** The two texts tried at each line index: the line, and the line joined
    to the next one (the line again at the last index). *)
Fixpoint candidate_texts (L : list pystr) : list pystr :=
  match L with
  | [] => []
  | x :: rest =>
      x :: match rest with y :: _ => x ++ py " " ++ y | [] => x end
        :: candidate_texts rest
  end.

(** [max(alpha, key=len)]: the first of the longest. *)
Definition longest (l : list pystr) : option pystr :=
  fold_left (fun best x =>
               match best with
               | None => Some x
               | Some b => if (length b <? length x)%nat then Some x else Some b
               end) l None.

Definition venue_of (text : pystr) : pystr :=
  let lo := py " " ++ lower text ++ py " " in
  if contains (py " neutral ") lo then py "Neutral"
  else if contains (py " at ") lo then py "Away"
  else if contains (py " vs ") lo then py "Home"
  else match search RX_HAN text with
       | Some m_han =>
           let g := group text m_han 1 in
           if decide (g = py "H") then py "Home"
           else if decide (g = py "A") then py "Away"
           else if decide (g = py "N") then py "Neutral"
           else []
       | None => []
       end.

Definition opponent_of (text : pystr) (date_end end_pos : nat) : pystr :=
  let opponent := slice text date_end end_pos in
  let opponent := strip_by (one_of " -:|") (sub RX_VENUE_PREFIX [] opponent) in
  if (length opponent <? 2)%nat
  then match longest (findall RX_NAME_RUN text) with
       | Some a => strip a
       | None => []
       end
  else opponent.

(** The body of the scan for one candidate text: the row it appends, if
    any. *)
Definition parse_text (pg_idx : Z) (text : pystr) : option (gmap string cell) :=
  if decide (text = []) then None
  else
    let m_res := search RX_RES text in
    let m_sc := search RX_SCORE text in
    let m_dn := search RX_DATE_NUM text in
    let m_dm := search RX_DATE_NAME text in
    match m_res, m_sc, (match m_dn with Some m => Some m | None => m_dm end) with
    | Some m_res, Some m_sc, Some m_date =>
        let date_str := group0 text m_date in
        let date_end := m_end m_date in
        let res := upper (group text m_res 1) in
        let gf := int_of_digits (group text m_sc 1) in
        let ga := int_of_digits (group text m_sc 2) in
        let venue := venue_of text in
        let end_pos := Nat.min (m_start m_res) (m_start m_sc) in
        let opponent := opponent_of text date_end end_pos in
        Some (list_to_map
                [("page", VNum pg_idx); ("date_raw", VStr date_str);
                 ("opponent", VStr opponent); ("venue", VStr venue);
                 ("result", VStr res); ("goals_for", VNum gf);
                 ("goals_against", VNum ga); ("raw", VStr text)])
    | _, _, _ => None
    end.

Definition candidate_columns : list string :=
  ["page"; "date_raw"; "opponent"; "venue"; "result"; "goals_for";
   "goals_against"; "raw"].

Definition output_columns : list string :=
  ["date"; "opponent"; "venue"; "result"; "goals_for"; "goals_against";
   "page"; "raw"].

Section WithLibraries.
Context `{Unicodedata} `{Pandas}.

Definition parse_page (pg_idx : Z) (pg : pystr) : list (gmap string cell) :=
  let L := map (fun x => clean (Some x)) (splitlines pg) in
  omap (parse_text pg_idx) (candidate_texts L).

Fixpoint parse_pages (pg_idx : Z) (pages : list pystr) : list (gmap string cell) :=
  match pages with
  | [] => []
  | pg :: pages' => parse_page pg_idx pg ++ parse_pages (pg_idx + 1) pages'
  end.

(** [parse_schedule_from_text]: [pd.DataFrame(rows).drop_duplicates()], a
    frame built from no rows having no columns. *)
Definition parse_schedule_from_text (pages : list pystr) : DataFrame :=
  match parse_pages 1 pages with
  | [] => MkFrame [] []
  | r :: l => MkFrame candidate_columns (dedup_seen candidate_columns [] (r :: l))
  end.

(** [main] from the page texts on: the frame written to the output file. *)
Definition main (pages_text : list pystr) (season_start season_end : option pystr)
    : res DataFrame :=
  _ ← require (negb (bool_decide (pages_text = []))) (SystemExit 2);
  let df := parse_schedule_from_text pages_text in
  _ ← require (negb (bool_decide (rows df = []))) (SystemExit 3);
  let df := MkFrame (add_column "date" (columns df))
              (set_cells "date" (rows df) (to_datetime (column "date_raw" df))) in
  let df := select (fun r => negb (bool_decide (get "date" r = VNaN))) df in
  df ← window season_start time_ge df;
  df ← window season_end time_le df;
  let df := select (fun r => between 1 35 (get "goals_for" r)
                             && between 1 35 (get "goals_against" r)) df in
  let df := select (fun r => isin [py "W"; py "L"; py "T"] (get "result" r)) df in
  df ← sort_values_date df;
  let out := MkFrame output_columns (map (project output_columns) (rows df)) in
  Ok (map_column "date"
        (fun c => match c with VTime t => VStr (pd_date_str t) | _ => c end) out).

End WithLibraries.

End OcrAndParse.

(** ** A reference interpretation of the library interfaces

    [iso_pandas] reads calendar dates written [YYYY-MM-DD] or, month first,
    [M/D/YYYY], and plain decimal integers, which is what the tables and
    page texts of the examples below contain; any other string is coerced
    to a missing value.  Timestamps are counted in nanoseconds since
    1970-01-01.  [compat_nfkc] maps the compatibility spaces to U+0020,
    the fullwidth forms of ASCII to ASCII and the small and vertical forms
    of the dashes to the dashes (U+FE58 and U+FE31 to the em-dash, U+FE32
    to the en-dash, U+FE63 to the hyphen), and leaves every other code
    point as it is. *)

Module Sample.
Import Text Frame OcrAndParse.
Local Open Scope Z_scope.

Definition digits_value (s : pystr) : option Z :=
  if forallb is_digit s && negb (bool_decide (s = []))
  then Some (int_of_digits s) else None.

Definition is_leap (y : Z) : bool :=
  ((y mod 4 =? 0) && negb (y mod 100 =? 0)) || (y mod 400 =? 0).

Definition days_in_month (y m : Z) : Z :=
  if m =? 2 then (if is_leap y then 29 else 28)
  else if (m =? 4) || (m =? 6) || (m =? 9) || (m =? 11) then 30 else 31.

(** Days from 1970-01-01 to the civil date [y-m-d]. *)
Definition days_from_civil (y m d : Z) : Z :=
  let y' := if m <=? 2 then y - 1 else y in
  let era := y' / 400 in
  let yoe := y' - era * 400 in
  let doy := (153 * (if 2 <? m then m - 3 else m + 9) + 2) / 5 + d - 1 in
  let doe := yoe * 365 + yoe / 4 - yoe / 100 + doy in
  era * 146097 + doe - 719468.

Definition iso_date (s : pystr) : option Z :=
  match s with
  | [y1; y2; y3; y4; 45%N; m1; m2; 45%N; d1; d2] =>
      match digits_value [y1; y2; y3; y4], digits_value [m1; m2], digits_value [d1; d2] with
      | Some y, Some m, Some d =>
          if (1 <=? m) && (m <=? 12) && (1 <=? d) && (d <=? days_in_month y m)
          then Some (days_from_civil y m d * 86400000000000)
          else None
      | _, _, _ => None
      end
  | _ => None
  end.

(** The civil date of a day count. *)
Definition civil_from_days (days : Z) : Z * Z * Z :=
  let z := days + 719468 in
  let era := z / 146097 in
  let doe := z - era * 146097 in
  let yoe := (doe - doe / 1460 + doe / 36524 - doe / 146096) / 365 in
  let doy := doe - (365 * yoe + yoe / 4 - yoe / 100) in
  let mp := (5 * doy + 2) / 153 in
  let d := doy - (153 * mp + 2) / 5 + 1 in
  let m := if mp <? 10 then mp + 3 else mp - 9 in
  let y := yoe + era * 400 + (if m <=? 2 then 1 else 0) in
  (y, m, d).

(** [M/D/YYYY] with one or two digits for month and day. *)
Definition us_date (s : pystr) : option Z :=
  let m := take_while is_digit s in
  match drop (length m) s with
  | 47%N :: s1 =>
      let d := take_while is_digit s1 in
      match drop (length d) s1 with
      | 47%N :: y =>
          match digits_value y, digits_value m, digits_value d with
          | Some y', Some m', Some d' =>
              if bool_decide (length y = 4%nat) && (length m <=? 2)%nat
                 && (length d <=? 2)%nat
                 && (1 <=? m') && (m' <=? 12) && (1 <=? d')
                 && (d' <=? days_in_month y' m')
              then Some (days_from_civil y' m' d' * 86400000000000)
              else None
          | _, _, _ => None
          end
      | _ => None
      end
  | _ => None
  end.

Definition read_date (s : pystr) : option Z :=
  match iso_date s with Some t => Some t | None => us_date s end.

Fixpoint decimal_of_pos (fuel : nat) (n : Z) (acc : pystr) : pystr :=
  match fuel with
  | O => acc
  | S fuel' =>
      let acc' := Z.to_N (48 + n mod 10) :: acc in
      if n <? 10 then acc' else decimal_of_pos fuel' (n / 10) acc'
  end.

Definition decimal (n : Z) : pystr :=
  if n <? 0 then 45%N :: decimal_of_pos (Z.to_nat (- n)) (- n) []
  else decimal_of_pos (S (Z.to_nat n)) n [].

Definition pad (width : nat) (s : pystr) : pystr :=
  replicate (width - length s) 48%N ++ s.

Definition iso_string (t : Z) : pystr :=
  let '(y, m, d) := civil_from_days (t / 86400000000000) in
  pad 4 (decimal y) ++ [45%N] ++ pad 2 (decimal m) ++ [45%N] ++ pad 2 (decimal d).

(** The format of a column is that of its first string: ISO, or month
    first; when the first string is in neither, each value is read on its
    own. *)
Fixpoint first_string (col : list cell) : option pystr :=
  match col with
  | [] => None
  | VStr s :: _ => Some s
  | _ :: col' => first_string col'
  end.

Definition column_format (col : list cell) : pystr -> option Z :=
  match first_string col with
  | Some s =>
      match iso_date s, us_date s with
      | Some _, _ => iso_date
      | None, Some _ => us_date
      | None, None => read_date
      end
  | None => read_date
  end.

Definition read_column (col : list cell) : list (option Z) :=
  map (fun c => match c with
                | VStr s => column_format col s
                | VTime t => Some t
                | _ => None
                end) col.

#[export] Instance iso_pandas : Pandas := {|
  pd_datetime := read_column;
  pd_datetime_length col := length_map _ col;
  pd_numeric c := match c with VStr s => digits_value s | _ => None end;
  pd_str c := match c with
              | VNum n => decimal n
              | VNaN => py "nan"
              | _ => []
              end;
  pd_Timestamp := read_date;
  pd_date_str := iso_string
|}.

Definition compat_char (c : N) : N :=
  if (c =? 160)%N || in_range 8192 8202 c || (c =? 8239)%N || (c =? 8287)%N
     || (c =? 12288)%N
  then 32%N
  else if in_range 65281 65374 c then (c - 65248)%N
  else if (c =? 65112)%N || (c =? 65073)%N then 8212%N
  else if (c =? 65074)%N then 8211%N
  else if (c =? 65123)%N then 45%N
  else c.

#[export] Instance compat_nfkc : Unicodedata := {|
  nfkc := map compat_char;
  nfkc_nil := eq_refl
|}.

(** A row from its six fields, as [pd.read_csv] delivers it. *)
Definition game (date opponent venue result : string) (gf ga : Z) : gmap string cell :=
  list_to_map [("date"%string, VStr (py date)); ("opponent"%string, VStr (py opponent));
               ("venue"%string, VStr (py venue)); ("result"%string, VStr (py result));
               ("goals_for"%string, VNum gf); ("goals_against"%string, VNum ga)].

Definition game_columns : list string :=
  ["date"; "opponent"; "venue"; "result"; "goals_for"; "goals_against"]%string.

Definition table (l : list (gmap string cell)) : DataFrame := MkFrame game_columns l.

(** A page whose entry is followed by a second line: the scan tries the
    line alone and the line joined to the next one. *)
Definition wrapped_entry : list pystr :=
  [py "10/01/2024 at Hawks L 2-3" ++ [10%N] ++ py "recap"].

(** One game, as read from a file. *)
Definition one_game : DataFrame :=
  table [game "2024-10-01" "at Hawks" "" "L" 2 3].

(** A coerced table whose opponent carries two venue prefixes, and the
    tables the first and the second run of [clean_filter] make of it. *)
Definition typed_row (opponent venue result : string) (gf ga : Z)
    : gmap string cell :=
  list_to_map [("date"%string, VTime 1727740800000000000);
               ("opponent"%string, VStr (py opponent));
               ("venue"%string, VStr (py venue)); ("result"%string, VStr (py result));
               ("goals_for"%string, VNum gf); ("goals_against"%string, VNum ga)].
Definition typed_game (opponent venue : string) : gmap string cell :=
  typed_row opponent venue "L" 2 3.

Definition nested_prefix : DataFrame := table [typed_game "at vs Hawks" ""].
Definition nested_once : DataFrame := table [typed_game "Vs Hawks" "Away"].
Definition nested_twice : DataFrame := table [typed_game "Hawks" "Away"].

(** The same game read twice, once with its venue filled in. *)
Definition twice_read : DataFrame :=
  table [game "2024-10-01" "at Hawks" "" "L" 2 3;
         game "2024-10-01" "at Hawks" "Away" "L" 2 3].

(** A cleaned record set with a win, a 2-3 loss and a loss recorded with
    the score of a win. *)
Definition mislabelled : DataFrame :=
  table [typed_row "Owls" "Home" "W" 7 2; typed_row "Hawks" "Away" "L" 2 3;
         typed_row "Crows" "Home" "L" 5 3].

(** The frame of a successful run. *)
Definition frame_of (r : res DataFrame) : DataFrame :=
  match r with Ok df => df | Err _ => MkFrame [] [] end.

End Sample.
(** ** Record sets the sensitivity engine is run on *)

Module Records.
Import Text Frame CleanAndSensitivity.
Local Open Scope string_scope.
Local Open Scope Z_scope.

(** The number in a numeric cell. *)
Definition num (c : cell) : Z := match c with VNum n => n | _ => 0 end.

Definition is_num_or_nan (c : cell) : bool :=
  match c with VNum _ | VNaN => true | _ => false end.
Definition is_time (c : cell) : bool :=
  match c with VTime _ => true | _ => false end.
Definition is_str (c : cell) : bool :=
  match c with VStr _ => true | _ => false end.

Definition engine_columns : list string :=
  ["date"; "opponent"; "goals_for"; "goals_against"; "result"].

(** A record set: the columns [flipped] reads are there and both goal
    columns are numeric. *)
Definition record_set (df : DataFrame) : bool :=
  forallb (fun c => has_column c df) engine_columns
  && forallb (fun r => is_num_or_nan (get "goals_for" r)
                       && is_num_or_nan (get "goals_against" r)) (rows df).

(** A cleaned record: a timestamp, a string opponent, both goals in
    [1, 35] and a result label W or L. *)
Definition clean_row (r : gmap string cell) : bool :=
  is_time (get "date" r) && is_str (get "opponent" r)
  && between 1 35 (get "goals_for" r) && between 1 35 (get "goals_against" r)
  && isin [py "W"; py "L"] (get "result" r).

Definition cleaned (df : DataFrame) : bool :=
  forallb (fun c => has_column c df) engine_columns
  && forallb clean_row (rows df).

(** [len(flipped(df, gf_delta, ga_delta))] *)
Definition flip_count (df : DataFrame) (gf_delta ga_delta : Z) : res Z :=
  len <$> flipped df gf_delta ga_delta.

(** The flip condition as the specification words it. *)
Definition is_loss (r : gmap string cell) : bool :=
  bool_decide (get "result" r = VStr (py "L")).
Definition flips (gf_delta ga_delta : Z) (r : gmap string cell) : bool :=
  is_loss r
  && (Z.max (num (get "goals_against" r) - ga_delta) 0
      <? num (get "goals_for" r) + gf_delta).

(** A loss whose recorded score already is a win. *)
Definition contradicts_label (r : gmap string cell) : bool :=
  is_loss r && (num (get "goals_against" r) <? num (get "goals_for" r)).
Definition contradicting_losses (df : DataFrame) : Z :=
  Z.of_nat (length (filter (fun r => contradicts_label r = true) (rows df))).

(** The largest swing that keeps every sum on a cleaned record set
    within 64 bits: a goal count is at most 35. *)
Definition max_swing : Z := 2 ^ 63 - 36.

(** The mask of [flipped] on a row whose goals are numeric or missing,
    where no addition can fail ([flip_mask_numeric]). *)
Definition mask_of (k j : Z) (r : gmap string cell) : bool :=
  ne_str (get "result" r) (py "W")
  && gt (match get "goals_for" r with VNum n => VNum (wrap64 (n + k)) | c => c end)
        (clip_lower 0 (match get "goals_against" r with
                       | VNum n => VNum (wrap64 (n + - j))
                       | c => c
                       end)).

(** The number of rows of the mask. *)
Definition count_mask (df : DataFrame) (k j : Z) : Z :=
  Z.of_nat (length (filter (fun r => mask_of k j r = true) (rows df))).

(** The record of Scenario A after cleaning. *)
Definition hawks_loss : gmap string cell :=
  list_to_map [("date", VTime 1727740800000000000); ("opponent", VStr (py "Hawks"));
               ("venue", VStr (py "Away")); ("result", VStr (py "L"));
               ("goals_for", VNum 2); ("goals_against", VNum 3)].

(** The loop of [best_split] over counts that are known:
    [best_loop_record_set] relates it to [best_loop]. *)
Fixpoint best_pure (g : Z → Z) (d : Z) (ks : list Z) (best : Z * Z * Z) : Z * Z * Z :=
  match ks with
  | [] => best
  | k :: ks' => best_pure g d ks' (if best.1.1 <? g k then (g k, k, d - k) else best)
  end.

(** A cleaned record set holding one 2-3 loss. *)
Definition one_loss : DataFrame :=
  MkFrame ["date"; "opponent"; "venue"; "result"; "goals_for"; "goals_against"]
          [hawks_loss].

End Records.

(** ** The validation of [clean_filter], row by row

    The definitions of this module restate what [coerce_types] and
    [clean_filter] compute, one row at a time; [coerce_types_eq] and
    [clean_filter_Ok] below prove that the source functions equal them. *)

Module Validation.
Import Text Re Frame CleanAndSensitivity.
Local Open Scope string_scope.
Local Open Scope Z_scope.

Section WithPandas.
Context `{Pandas}.

(** What [coerce_types] does, after the dates, to one row of a frame with
    columns [cols]. *)
Definition coerce_cell (cols : list string) (c : string) (f : cell -> cell)
    (r : gmap string cell) : gmap string cell :=
  if bool_decide (c ∈ cols) then <[c := f (get c r)]> r else r.

Definition coerce_row (cols : list string) (r : gmap string cell) : gmap string cell :=
  coerce_cell cols "venue" (fun x => VStr (title (astype_str (fillna_empty x))))
    (coerce_cell cols "opponent"
       (fun x => VStr (strip (sub RX_SPACES (py " ") (astype_str x))))
       (coerce_cell cols "result" (fun x => VStr (strip (upper (astype_str x))))
          (coerce_cell cols "goals_against" to_numeric
             (coerce_cell cols "goals_for" to_numeric r)))).

(** The rows of a frame with their dates read. *)
Definition dated_rows (df : DataFrame) : list (gmap string cell) :=
  if has_column "date" df
  then set_cells "date" (rows df) (to_datetime (column "date" df))
  else rows df.

(** The labels [coerce_types] reads as a single column. *)
Definition single_columns (df : DataFrame) : bool :=
  forallb (fun c => negb (duplicated c df))
          ["goals_for"; "goals_against"; "result"; "opponent"].

(** A bound of the date window as [clean_filter] reads it: [None] and the
    empty string switch the bound off, any other string goes through
    [pd.Timestamp]. *)
Definition bound_of (b : option pystr) : res (option Z) :=
  match b with
  | None | Some [] => Ok None
  | Some s =>
      match pd_Timestamp s with
      | Some ts => Ok (Some ts)
      | None => Err ValueError
      end
  end.

Definition after (lo : option Z) (c : cell) : bool :=
  match lo with Some ts => time_ge ts c | None => true end.
Definition before (hi : option Z) (c : cell) : bool :=
  match hi with Some ts => time_le ts c | None => true end.

Definition has_letter (c : cell) : bool :=
  bool_decide (is_Some (search RX_LETTER (astype_str c))).

(** The rows [clean_filter] keeps, in the order of its filters. *)
Definition valid_row (lo hi : option Z) (r : gmap string cell) : bool :=
  negb (bool_decide (get "date" r = VNaN))
  && after lo (get "date" r)
  && before hi (get "date" r)
  && isin [py "W"; py "L"] (get "result" r)
  && (between 1 35 (get "goals_for" r) && between 1 35 (get "goals_against" r))
  && has_letter (get "opponent" r).

(** The rows of the output from the rows of the coerced frame. *)
Definition cleaned_rows_of (lo hi : option Z) (l : list (gmap string cell))
    : list (gmap string cell) :=
  sort_by_date
    (dedup_seen dedup_subset []
       (map infer_venue_and_clean_opponent
            (filter (fun r => valid_row lo hi r = true) l))).

Definition cleaned_columns_of (lo hi : option Z) (df : DataFrame) : list string :=
  match filter (fun r => valid_row lo hi r = true) (rows df) with
  | [] => columns df
  | _ :: _ => add_column "venue" (add_column "opponent" (columns df))
  end.

End WithPandas.

(** The frame a pipeline writes, with the candidate rows it was computed
    from: the coerced table for the cleaning pipeline, the extracted
    candidates for the extraction pipeline. *)
Inductive pipeline_output `{Pandas} `{OcrAndParse.Unicodedata}
    : DataFrame -> list (gmap string cell) -> Prop :=
| cleaning_output df start end_ df1 out :
    coerce_types (normalize_columns df) = Ok df1 →
    clean_filter df start end_ = Ok out →
    pipeline_output out (rows df1)
| extraction_output pages season_start season_end out :
    OcrAndParse.main pages season_start season_end = Ok out →
    pipeline_output out (rows (OcrAndParse.parse_schedule_from_text pages)).

End Validation.

(** ** The normal form of the Text Normalizer, as the specification words it *)

Module Normal.
Import Text.

(** The code points [clean] replaces before normalization: three spaces
    and the two dashes. *)
Definition canonical_char (c : N) : N :=
  if (c =? 160)%N || (c =? 8199)%N || (c =? 8201)%N then 32%N
  else if (c =? 8211)%N || (c =? 8212)%N then 45%N
  else c.

(** Every run of whitespace collapsed to one ordinary space. *)
Fixpoint collapse_from (in_run : bool) (s : pystr) : pystr :=
  match s with
  | [] => []
  | c :: s' =>
      if is_space c
      then (if in_run then collapse_from true s' else 32%N :: collapse_from true s')
      else c :: collapse_from false s'
  end.
Definition collapse_whitespace (s : pystr) : pystr := collapse_from false s.

(** The only whitespace is the ordinary space; no two spaces in a row; no
    space at either end. *)
Definition plain_spaces (s : pystr) : bool :=
  forallb (fun c => negb (is_space c) || (c =? 32)%N) s.

Fixpoint single_spaced (s : pystr) : bool :=
  match s with
  | a :: s' =>
      match s' with
      | b :: _ => negb (is_space a && is_space b) && single_spaced s'
      | [] => true
      end
  | [] => true
  end.

Definition open_end (o : option N) : bool :=
  match o with Some c => negb (is_space c) | None => true end.

Definition normalized (s : pystr) : bool :=
  plain_spaces s && single_spaced s && open_end (head s) && open_end (last s).

End Normal.

(** ** ocr_and_parse.py: page selection *)

Module Pages.
Import Text.
Local Open Scope string_scope.
Local Open Scope list_scope.
Local Open Scope Z_scope.

(** What the functions of this part raise. *)
Inductive exc := ValueError | IndexError.

Inductive outcome (A : Type) :=
| Done (a : A)
| Raised (e : exc).
Arguments Done {A} a.
Arguments Raised {A} e.

#[export] Instance outcome_bind : MBind outcome :=
  fun A B k m => match m with Done a => k a | Raised e => Raised e end.
#[export] Instance outcome_ret : MRet outcome := @Done.
#[export] Instance outcome_fmap : FMap outcome :=
  fun A B f m => match m with Done a => Done (f a) | Raised e => Raised e end.

(** [[f(x) for x in l]] for an [f] that may raise. *)
Fixpoint each {A B} (f : A -> outcome B) (l : list A) : outcome (list B) :=
  match l with
  | [] => Done []
  | x :: l' => y ← f x; ys ← each f l'; Done (y :: ys)
  end.

(** [l[i]]: a negative index counts from the end. *)
Definition index {A} (l : list A) (i : Z) : outcome A :=
  let j := if i <? 0 then i + Z.of_nat (length l) else i in
  if j <? 0 then Raised IndexError
  else match l !! Z.to_nat j with
       | Some x => Done x
       | None => Raised IndexError
       end.

(** [s.split(sep)] for a separator of one code point: the pieces between
    the separators, at least one. *)
Fixpoint split_on (sep : N) (cur : pystr) (s : pystr) : list pystr :=
  match s with
  | [] => [reverse cur]
  | c :: s' =>
      if (c =? sep)%N then reverse cur :: split_on sep [] s'
      else split_on sep (c :: cur) s'
  end.
Definition split (sep : N) (s : pystr) : list pystr := split_on sep [] s.

(** [s.split(sep, 1)] on a string that holds the separator: the text
    before its first occurrence and the text after it. *)
Definition split_first (sep : N) (s : pystr) : pystr * pystr :=
  let a := take_while (fun c => negb (c =? sep)%N) s in
  (a, drop (S (length a)) s).

(** The whitespace [int] skips at both ends of a string: ASCII blanks and
    the whitespace beyond ASCII (the separators U+001C..U+001F are not
    among them). *)
Definition int_space (c : N) : bool :=
  in_range 9 13 c || (c =? 32)%N || ((128 <=? c)%N && is_space c).

(** The digits of [int]: decimal digits (the digit class of [Text]),
    single underscores between them. *)
Fixpoint int_digits (acc : Z) (after_digit : bool) (s : pystr) : option Z :=
  match s with
  | [] => if after_digit then Some acc else None
  | c :: s' =>
      if is_digit c then int_digits (10 * acc + (Z.of_N c - 48)) true s'
      else if (c =? 95)%N && after_digit then int_digits acc false s'
      else None
  end.

(** [int(s)]: [None] where it raises [ValueError]. *)
Definition py_int (s : pystr) : option Z :=
  match strip_by int_space s with
  | 43%N :: d => int_digits 0 false d
  | 45%N :: d => Z.opp <$> int_digits 0 false d
  | d => int_digits 0 false d
  end.

Definition int_or_raise (s : pystr) : outcome Z :=
  match py_int s with Some n => Done n | None => Raised ValueError end.

(** One part of the page list: the page numbers it names, first and
    last. *)
Definition part_range (part : pystr) : outcome (Z * Z) :=
  let part := strip part in
  if contains (py "-") part
  then let '(a, b) := split_first 45 part in
       a ← int_or_raise a;
       b ← int_or_raise b;
       Done (a, b)
  else p ← int_or_raise part; Done (p, p).

(** The loop over the parts: [idxs] gathers [x - 1] for every page [x] a
    part names. *)
Fixpoint gather (parts : list pystr) (idxs : gset Z) : outcome (gset Z) :=
  match parts with
  | [] => Done idxs
  | part :: parts' =>
      r ← part_range part;
      gather parts' (list_to_set ((fun x => x - 1) <$> seqZ r.1 (r.2 + 1 - r.1)) ∪ idxs)
  end.

(** [parse_pages_arg] *)
Definition parse_pages_arg (pages : option pystr) (total_pages : Z)
    : outcome (option (list Z)) :=
  match pages with
  | None | Some [] => Done None
  | Some s =>
      idxs ← gather (split 44 s) ∅;
      Done (Some (merge_sort Z.le
                  (filter (fun i => 0 ≤ i < total_pages) (elements idxs))))
  end.

(** [extract_pages_text] from the text [extract_text] returns ([None]
    when it returns nothing): the non-blank pages, cut to the requested
    ones. *)
Definition extract_pages_text (full_text : option pystr) (pages_arg : option pystr)
    : outcome (list pystr) :=
  let pages := filter (fun p => strip p ≠ []) (split 12 (default [] full_text)) in
  match pages with
  | [] => Done []
  | _ :: _ =>
      match pages_arg with
      | None | Some [] => Done pages
      | Some _ =>
          idxs ← parse_pages_arg pages_arg (Z.of_nat (length pages));
          each (index pages) (default [] idxs)
      end
  end.

End Pages.

(** ** clean_and_sensitivity.py: what [main] computes from the cleaned frame *)

Module Report.
Import Text Frame CleanAndSensitivity.
Local Open Scope string_scope.
Local Open Scope list_scope.
Local Open Scope Z_scope.

(** [int((df['result'] == label).sum())] *)
Definition count_result (label : string) (df : DataFrame) : res Z :=
  _ ← require (has_column "result" df) (KeyError "result");
  Ok (Z.of_nat (length (filter (fun r => get "result" r = VStr (py label)) (rows df)))).

(** The basics [main] prints: games, wins and losses. *)
Definition basics (df : DataFrame) : res (Z * Z * Z) :=
  wins ← count_result "W" df;
  losses ← count_result "L" df;
  Ok (len df, wins, losses).

(** The sensitivity table: for [d] in [range(1, dmax + 1)] the magnitude,
    the offense-only count, the defense-only count and the best split. *)
Fixpoint table_lines (df : DataFrame) (ds : list Z)
    : res (list (Z * (Z * Z * (Z * Z * Z)))) :=
  match ds with
  | [] => Ok []
  | d :: ds' =>
      line ← sensitivity_row df d;
      rest ← table_lines df ds';
      Ok ((d, line) :: rest)
  end.

Definition sensitivity_table (df : DataFrame) (dmax : Z)
    : res (list (Z * (Z * Z * (Z * Z * Z)))) :=
  table_lines df (seqZ 1 dmax).

(** The detail lists, for [d] in [(2, 4)] within [dmax]: the rows flipped
    by offense only and by defense only. *)
Fixpoint detail_lists (df : DataFrame) (dmax : Z) (ds : list Z)
    : res (list (Z * DataFrame * DataFrame)) :=
  match ds with
  | [] => Ok []
  | d :: ds' =>
      if d <=? dmax
      then f_off ← flipped df d 0;
           f_def ← flipped df 0 d;
           rest ← detail_lists df dmax ds';
           Ok ((d, f_off, f_def) :: rest)
      else detail_lists df dmax ds'
  end.

(** [df[cols]] for a list of labels: it fails on a label that is absent. *)
Definition take_columns (cols : list string) (df : DataFrame) : res DataFrame :=
  match list_find (fun c => c ∉ columns df) cols with
  | Some (_, c) => Err (KeyError c)
  | None => Ok (MkFrame cols (map (project cols) (rows df)))
  end.

Definition final_columns : list string :=
  ["date"; "opponent"; "venue"; "result"; "goals_for"; "goals_against"].

Section WithPandas.
Context `{Pandas}.

(** [df_out['date'] = df_out['date'].dt.date.astype(str)] *)
Definition date_strings (df : DataFrame) : DataFrame :=
  map_column "date"
    (fun c => match c with VTime t => VStr (pd_date_str t) | _ => c end) df.

(** [main] from the frame read on: the two tables it writes
    ([games_clean.csv] and [games_final.csv]) and the numbers of the
    summary; the two averages it prints are left out. *)
Definition main (df_raw : DataFrame) (season_start season_end : option pystr)
    (dmax : Z)
    : res (DataFrame * DataFrame * (Z * Z * Z)
           * list (Z * (Z * Z * (Z * Z * Z))) * list (Z * DataFrame * DataFrame)) :=
  df ← clean_filter df_raw season_start season_end;
  let df_out := date_strings df in
  final ← take_columns final_columns df_out;
  b ← basics df;
  lines ← sensitivity_table df dmax;
  details ← detail_lists df dmax [2; 4];
  Ok (df_out, final, b, lines, details).

End WithPandas.

End Report.

(** ** Readings of a frame used to state properties *)

Module Readings.
Import Text Frame.
Local Open Scope string_scope.
Local Open Scope Z_scope.

(** The instant in a timestamp cell. *)
Definition time_of (c : cell) : Z := match c with VTime t => t | _ => 0 end.

(** The dates of a frame, row by row. *)
Definition dates (df : DataFrame) : list Z :=
  map (fun r => time_of (get "date" r)) (rows df).

(** An instant within the bounds that are set. *)
Definition within (lo hi : option Z) (t : Z) : Prop :=
  (∀ a, lo = Some a → a ≤ t) ∧ (∀ b, hi = Some b → t ≤ b).

(** The number of records a swing of magnitude [d] flips, and the line of
    the sensitivity table it gives. *)
Definition magnitude_count (df : DataFrame) (d : Z) : Z :=
  Z.of_nat (length (filter (fun r => Records.flips 0 d r = true) (rows df))).

Definition magnitude_line (df : DataFrame) (d : Z) : Z * (Z * Z * (Z * Z * Z)) :=
  let c := magnitude_count df d in
  (d, (c, c, if 0 <? c then (c, 0, d) else (0, 0, 0))).

(** An end of a string, its first or last code point, that is absent or
    outside the class [p]. *)
Definition clear_of (p : N -> bool) (o : option N) : Prop :=
  match o with Some c => p c = false | None => True end.

End Readings.

(** * Properties *)

Import Text Re Frame CleanAndSensitivity Sample Records Validation Normal.
Local Open Scope string_scope.
Local Open Scope list_scope.
Local Open Scope Z_scope.

(** Membership in a list given in full. *)
Ltac in_list := repeat (first [by left | right]).

(** *** The mask of [flipped], row by row *)

Lemma flip_mask_numeric k j r :
  is_num_or_nan (get "goals_for" r) && is_num_or_nan (get "goals_against" r) = true →
  flip_mask k j r = Ok (mask_of k j r).
Proof.
  intros Hn. apply andb_prop in Hn as [Hf Ha].
  unfold flip_mask, mask_of.
  destruct (get "goals_for" r); try discriminate;
    destruct (get "goals_against" r); try discriminate; reflexivity.
Qed.

Lemma mask_rows_numeric k j l :
  forallb (fun r => is_num_or_nan (get "goals_for" r)
                    && is_num_or_nan (get "goals_against" r)) l = true →
  mask_rows (flip_mask k j) l = Ok (filter (fun r => mask_of k j r = true) l).
Proof.
  induction l as [|r l IH]; simpl; [reflexivity|].
  intros Hl. apply andb_prop in Hl as [Hr Hl].
  rewrite (flip_mask_numeric _ _ _ Hr). simpl.
  rewrite (IH Hl). simpl.
  rewrite filter_cons.
  destruct (decide (mask_of k j r = true)) as [E|E];
    [rewrite E | apply not_true_is_false in E; rewrite E]; reflexivity.
Qed.

Lemma record_set_columns df c :
  record_set df = true → c ∈ engine_columns → has_column c df = true.
Proof.
  intros Hrs Hc. apply andb_prop in Hrs as [Hcols _].
  rewrite forallb_forall in Hcols. apply Hcols. by apply list_elem_of_In.
Qed.

Lemma flipped_record_set df k j :
  record_set df = true →
  flipped df k j =
    Ok (MkFrame flipped_columns
          (map (project flipped_columns)
               (filter (fun r => mask_of k j r = true) (rows df)))).
Proof.
  intros Hrs. unfold flipped.
  rewrite !(record_set_columns df) by (done || (unfold engine_columns; in_list)).
  simpl. apply andb_prop in Hrs as [_ Hrows].
  rewrite (mask_rows_numeric _ _ _ Hrows). reflexivity.
Qed.

Lemma flip_count_record_set df k j :
  record_set df = true → flip_count df k j = Ok (count_mask df k j).
Proof.
  intros Hrs. unfold flip_count. rewrite (flipped_record_set _ _ _ Hrs).
  simpl. unfold len, count_mask. simpl. by rewrite length_map.
Qed.

Lemma cleaned_record_set df : cleaned df = true → record_set df = true.
Proof.
  unfold cleaned, record_set. intros Hc. apply andb_prop in Hc as [Hcols Hrows].
  rewrite Hcols. simpl. rewrite forallb_forall in Hrows. apply forallb_forall.
  intros r Hr. specialize (Hrows r Hr). unfold clean_row in Hrows.
  repeat (apply andb_prop in Hrows as [Hrows ?]).
  unfold between in *.
  destruct (get "goals_for" r); try discriminate.
  destruct (get "goals_against" r); try discriminate. reflexivity.
Qed.

(** *** Counting with a boolean mask *)

Lemma filter_mask_ext {A} (p q : A → bool) (l : list A) :
  (∀ x, x ∈ l → p x = q x) →
  filter (fun x => p x = true) l = filter (fun x => q x = true) l.
Proof.
  induction l as [|x l IH]; intros Hpq; [reflexivity|].
  rewrite !filter_cons, (Hpq x) by (left).
  rewrite IH; [reflexivity|]. intros y Hy. apply Hpq. by right.
Qed.

Lemma filter_mask_mono {A} (p q : A → bool) (l : list A) :
  (∀ x, x ∈ l → p x = true → q x = true) →
  (length (filter (fun x => p x = true) l)
   ≤ length (filter (fun x => q x = true) l))%nat.
Proof.
  induction l as [|x l IH]; intros Hpq; [reflexivity|].
  rewrite !filter_cons.
  assert (IH' := IH (fun y Hy => Hpq y (list_elem_of_further _ _ _ Hy))).
  destruct (decide (p x = true)) as [Hp|Hp].
  - rewrite decide_True by (apply Hpq; [left|done]). simpl. lia.
  - destruct (decide (q x = true)); simpl; lia.
Qed.

Lemma cleaned_rows df r : cleaned df = true → r ∈ rows df → clean_row r = true.
Proof.
  intros Hc Hr. apply andb_prop in Hc as [_ Hrows].
  rewrite forallb_forall in Hrows. apply Hrows. by apply list_elem_of_In.
Qed.

Lemma wrap64_small x : - 2 ^ 63 ≤ x < 2 ^ 63 → wrap64 x = x.
Proof. intros Hx. unfold wrap64. rewrite Z.mod_small; lia. Qed.

Lemma clean_row_goals r :
  clean_row r = true →
  ∃ gf ga, get "goals_for" r = VNum gf ∧ get "goals_against" r = VNum ga
           ∧ 1 ≤ gf ≤ 35 ∧ 1 ≤ ga ≤ 35.
Proof.
  unfold clean_row. intros Hc.
  rewrite !andb_true_iff in Hc. destruct Hc as ((((_ & _) & Hf) & Ha) & _).
  unfold between in *.
  destruct (get "goals_for" r) as [|gf| |]; try discriminate.
  destruct (get "goals_against" r) as [|ga| |]; try discriminate.
  apply andb_prop in Hf as [Hf1 Hf2], Ha as [Ha1 Ha2].
  apply Z.leb_le in Hf1, Hf2, Ha1, Ha2. exists gf, ga.
  repeat split; (reflexivity || lia).
Qed.

(** On a cleaned record and for swings that keep the sums within 64 bits
    the mask of the code is the flip condition. *)
Lemma mask_of_clean_row k j r :
  clean_row r = true → 0 ≤ k ≤ max_swing → 0 ≤ j ≤ max_swing →
  mask_of k j r = flips k j r.
Proof.
  intros Hc Hk Hj. destruct (clean_row_goals r Hc) as (gf & ga & Hgf & Hga & Hf & Ha).
  revert Hc. unfold clean_row, mask_of, flips, is_loss. intros Hc.
  rewrite !andb_true_iff in Hc. destruct Hc as (_ & Hr).
  unfold isin in *. rewrite Hgf, Hga.
  rewrite (wrap64_small (gf + k)), (wrap64_small (ga + - j))
    by (unfold max_swing in *; lia).
  destruct (get "result" r) as [s| | |]; try discriminate.
  simpl. replace (Z.max 0 (ga + - j)) with (Z.max (ga - j) 0) by lia.
  f_equal. apply bool_decide_eq_true in Hr.
  apply elem_of_cons in Hr as [->|Hr]; [reflexivity|].
  apply elem_of_cons in Hr as [->|Hr]; [reflexivity|].
  by apply elem_of_nil in Hr.
Qed.

Lemma flips_spec k j r :
  flips k j r = true ↔
  get "result" r = VStr (py "L")
  ∧ num (get "goals_for" r) + k > Z.max (num (get "goals_against" r) - j) 0.
Proof.
  unfold flips, is_loss. rewrite andb_true_iff, bool_decide_eq_true, Z.ltb_lt.
  split; intros [Hl Hg]; (split; [exact Hl | lia]).
Qed.

(** The sums of [flipped] are kept in 64 bits: at dfor = 2^63 - 1 the
    adjusted goals-for of a 2-3 loss wrap around to a negative number, and
    the record, a loss with [goals_for + dfor > goals_against], is not
    flipped. *)
Lemma flipped_wraps_counterexample :
  cleaned one_loss = true
  ∧ hawks_loss ∈ rows one_loss
  ∧ get "result" hawks_loss = VStr (py "L")
  ∧ num (get "goals_for" hawks_loss) + (2 ^ 63 - 1)
    > Z.max (num (get "goals_against" hawks_loss) - 0) 0
  ∧ flip_mask (2 ^ 63 - 1) 0 hawks_loss = Ok false
  ∧ flip_count one_loss (2 ^ 63 - 1) 0 = Ok 0.
Proof.
  split; [reflexivity|]. split; [left|]. split; [reflexivity|].
  split; [vm_compute; reflexivity|]. split; vm_compute; reflexivity.
Qed.

(** C2 (amended). On a cleaned record set (results W or L) and for every
    pair of non-negative deltas up to 2^63 - 36, [flipped] returns exactly
    the records whose result is Loss and whose adjusted goals-for strictly
    exceed the adjusted goals-against,
    [goals_for + dfor > max (goals_against - dagainst) 0]: a 2-3 loss is
    not flipped at dfor = 1 and is flipped at dfor = 2. *)
Theorem flipped_iff_loss_and_strictly_ahead (df : DataFrame) (k j : Z) :
  cleaned df = true → 0 ≤ k ≤ max_swing → 0 ≤ j ≤ max_swing →
  flipped df k j
    = Ok (MkFrame flipped_columns
            (map (project flipped_columns)
                 (filter (fun r => flips k j r = true) (rows df))))
  ∧ (∀ r, r ∈ rows df →
       flip_mask k j r = Ok (flips k j r)
       ∧ (flips k j r = true ↔
          get "result" r = VStr (py "L")
          ∧ num (get "goals_for" r) + k > Z.max (num (get "goals_against" r) - j) 0))
  ∧ flip_mask 1 0 hawks_loss = Ok false
  ∧ flip_mask 2 0 hawks_loss = Ok true.
Proof.
  intros Hc Hk Hj. split; [|split; [|split; reflexivity]].
  - rewrite (flipped_record_set _ _ _ (cleaned_record_set _ Hc)).
    do 3 f_equal. apply filter_mask_ext.
    intros r Hr. apply mask_of_clean_row; [by apply (cleaned_rows df)|done|done].
  - intros r Hr. split; [|apply flips_spec].
    assert (Hrow := cleaned_rows df r Hc Hr).
    rewrite flip_mask_numeric, (mask_of_clean_row _ _ _ Hrow Hk Hj); [reflexivity|].
    pose proof (cleaned_record_set _ Hc) as Hrs.
    apply andb_prop in Hrs as [_ Hrs]. rewrite forallb_forall in Hrs.
    apply Hrs. by apply list_elem_of_In.
Qed.

(** *** Monotonicity in the magnitude *)

Lemma flips_offense_mono d r : 0 ≤ d → flips d 0 r = true → flips (d + 1) 0 r = true.
Proof.
  intros Hd. unfold flips. rewrite !andb_true_iff, !Z.ltb_lt. intros [Hl Hlt].
  split; [done|]. lia.
Qed.

Lemma flips_defense_mono d r : 0 ≤ d → flips 0 d r = true → flips 0 (d + 1) r = true.
Proof.
  intros Hd. unfold flips. rewrite !andb_true_iff, !Z.ltb_lt. intros [Hl Hlt].
  split; [done|]. lia.
Qed.

Lemma count_mask_cleaned df k j :
  cleaned df = true → 0 ≤ k ≤ max_swing → 0 ≤ j ≤ max_swing →
  count_mask df k j = Z.of_nat (length (filter (fun r => flips k j r = true) (rows df))).
Proof.
  intros Hc Hk Hj. unfold count_mask. do 2 f_equal. apply filter_mask_ext.
  intros r Hr. apply mask_of_clean_row; [by apply (cleaned_rows df)|done|done].
Qed.

(** Where the sum leaves the 64 bits the count falls: the offense-only
    count of a cleaned set holding one 2-3 loss is 1 at magnitude
    2^63 - 3 and 0 at the next magnitude. *)
Lemma flip_count_drops_counterexample :
  cleaned one_loss = true ∧ 1 ≤ 2 ^ 63 - 3
  ∧ flip_count one_loss (2 ^ 63 - 3) 0 = Ok 1
  ∧ flip_count one_loss (2 ^ 63 - 3 + 1) 0 = Ok 0.
Proof.
  split; [reflexivity|]. split; [lia|]. split; vm_compute; reflexivity.
Qed.

(** C3 (amended). For every cleaned record set and every magnitude
    [d >= 1] below 2^63 - 36, the flip count of each single allocation mode
    does not decrease from [d] to [d + 1]:
    [flip_count (d+1) 0 >= flip_count d 0] and
    [flip_count 0 (d+1) >= flip_count 0 d]. *)
Theorem flip_count_monotone (df : DataFrame) (d : Z) :
  cleaned df = true → 1 ≤ d → d < max_swing →
  ∃ off off' dea dea',
    flip_count df d 0 = Ok off ∧ flip_count df (d + 1) 0 = Ok off' ∧ off ≤ off'
    ∧ flip_count df 0 d = Ok dea ∧ flip_count df 0 (d + 1) = Ok dea' ∧ dea ≤ dea'.
Proof.
  intros Hc Hd Hmax. pose proof (cleaned_record_set _ Hc) as Hrs.
  assert (H0 : 0 ≤ 0 ≤ max_swing) by (unfold max_swing; lia).
  exists (count_mask df d 0), (count_mask df (d + 1) 0),
         (count_mask df 0 d), (count_mask df 0 (d + 1)).
  rewrite !flip_count_record_set by done.
  rewrite !count_mask_cleaned by (done || lia).
  repeat split; apply inj_le, filter_mask_mono; intros r _.
  - apply flips_offense_mono. lia.
  - apply flips_defense_mono. lia.
Qed.

(** *** The loop of [best_split] *)

Lemma best_loop_record_set df d ks best :
  record_set df = true →
  best_loop df d ks best
    = Ok (best_pure (fun k => count_mask df k (d - k)) d ks best).
Proof.
  intros Hrs. revert best. induction ks as [|k ks IH]; intros best; [reflexivity|].
  simpl. rewrite (flipped_record_set _ _ _ Hrs). simpl.
  rewrite IH. unfold len, count_mask. simpl. by rewrite length_map.
Qed.

(** The loop over [lo, lo + n): the count never drops, it bounds every
    count met, and a changed triple is the first index that attains it. *)
Lemma best_pure_range (g : Z → Z) (d : Z) (n : nat) :
  ∀ (lo : Z) (best : Z * Z * Z),
    let out := best_pure g d (seqZ lo (Z.of_nat n)) best in
    best.1.1 ≤ out.1.1
    ∧ (∀ k, lo ≤ k < lo + Z.of_nat n → g k ≤ out.1.1)
    ∧ (out = best
       ∨ (lo ≤ out.1.2 < lo + Z.of_nat n ∧ out.2 = d - out.1.2
          ∧ out.1.1 = g out.1.2 ∧ best.1.1 < out.1.1
          ∧ ∀ k, lo ≤ k < out.1.2 → g k < out.1.1)).
Proof.
  induction n as [|n IH]; intros lo best out.
  - subst out. simpl. split; [lia|]. split; [lia|]. by left.
  - subst out. rewrite seqZ_cons by lia. simpl.
    replace (Z.pred (Z.of_nat (S n))) with (Z.of_nat n) by lia.
    set (best1 := if best.1.1 <? g lo then (g lo, lo, d - lo) else best).
    destruct (IH (Z.succ lo) best1) as (Hle & Hall & Hcase).
    assert (Hb1 : best.1.1 ≤ best1.1.1 ∧ g lo ≤ best1.1.1).
    { subst best1. destruct (Z.ltb_spec (best.1.1) (g lo)); simpl; lia. }
    split; [lia|]. split.
    { intros k Hk. destruct (decide (k = lo)) as [->|]; [lia|]. apply Hall. lia. }
    destruct Hcase as [Heq|(Hr & Hsum & Hat & Hlt & Hfirst)].
    + rewrite Heq. subst best1.
      destruct (Z.ltb_spec (best.1.1) (g lo)); [right|by left].
      simpl. repeat split; lia.
    + right. repeat split; try lia.
      intros k Hk. destruct (decide (k = lo)) as [->|]; [lia|]. apply Hfirst. lia.
Qed.

Lemma count_mask_nonneg df k j : 0 ≤ count_mask df k j.
Proof. unfold count_mask. lia. Qed.

(** What [best_split] returns on a record set. *)
Lemma best_split_record_set df d :
  record_set df = true → 0 ≤ d →
  ∃ f a b,
    best_split df d = Ok (f, a, b)
    ∧ (∀ k, 0 ≤ k ≤ d → count_mask df k (d - k) ≤ f)
    ∧ ((f = 0 ∧ a = 0 ∧ b = 0)
       ∨ (0 < f ∧ 0 ≤ a ≤ d ∧ b = d - a ∧ count_mask df a (d - a) = f
          ∧ ∀ k, 0 ≤ k < a → count_mask df k (d - k) < f)).
Proof.
  intros Hrs Hd. unfold best_split. rewrite (best_loop_record_set _ _ _ _ Hrs).
  set (g := fun k => count_mask df k (d - k)).
  pose proof (best_pure_range g d (Z.to_nat (d + 1)) 0 (0, 0, 0)) as Hloop.
  rewrite Z2Nat.id in Hloop by lia. simpl in Hloop.
  destruct (best_pure g d (seqZ 0 (d + 1)) (0, 0, 0)) as [[f a] b].
  simpl in Hloop. destruct Hloop as (Hf & Hall & Hcase).
  exists f, a, b. split; [reflexivity|]. split.
  { intros k Hk. apply (Hall k). lia. }
  destruct Hcase as [Heq|(Hr & Hsum & Hat & Hlt & Hfirst)].
  - left. by inversion Heq.
  - right. subst g. simpl in *. repeat split; try lia. intros k Hk. by apply Hfirst.
Qed.



(** *** Losses the score contradicts *)

Lemma contradicts_label_flips k j r :
  clean_row r = true → 0 ≤ k → 0 ≤ j →
  contradicts_label r = true → flips k j r = true.
Proof.
  unfold clean_row, contradicts_label, flips. intros Hc Hk Hj.
  rewrite !andb_true_iff in Hc. destruct Hc as ((((_ & _) & Hf) & Ha) & _).
  unfold between in *.
  destruct (get "goals_for" r) as [|gf| |]; try discriminate.
  destruct (get "goals_against" r) as [|ga| |]; try discriminate.
  simpl. rewrite !andb_true_iff, !Z.ltb_lt. intros [Hl Hgt]. split; [done|].
  apply andb_prop in Ha as [Ha _]. apply Z.leb_le in Ha. lia.
Qed.

Lemma flips_zero_contradicts r :
  clean_row r = true → flips 0 0 r = contradicts_label r.
Proof.
  unfold clean_row, contradicts_label, flips. intros Hc.
  rewrite !andb_true_iff in Hc. destruct Hc as ((((_ & _) & Hf) & Ha) & _).
  unfold between in *.
  destruct (get "goals_for" r) as [|gf| |]; try discriminate.
  destruct (get "goals_against" r) as [|ga| |]; try discriminate.
  simpl. apply andb_prop in Ha as [Ha _]. apply Z.leb_le in Ha.
  do 2 f_equal; lia.
Qed.

Lemma contradicting_le_count df k j :
  cleaned df = true → 0 ≤ k ≤ max_swing → 0 ≤ j ≤ max_swing →
  contradicting_losses df ≤ count_mask df k j.
Proof.
  intros Hc Hk Hj. rewrite (count_mask_cleaned _ _ _ Hc Hk Hj).
  unfold contradicting_losses. apply inj_le, filter_mask_mono.
  intros r Hr. apply contradicts_label_flips; try lia; try done.
  by apply (cleaned_rows df).
Qed.

(** A swing that leaves the 64 bits flips nothing: on a cleaned set with
    one loss recorded 5-3 the offense-only count at 2^63 - 1 is 0, below
    the number of label-contradicting losses. *)
Lemma contradicting_loss_wraps_counterexample :
  cleaned mislabelled = true
  ∧ contradicting_losses mislabelled = 1
  ∧ flip_count mislabelled (2 ^ 63 - 1) 0 = Ok 0.
Proof. repeat split; vm_compute; reflexivity. Qed.

(** C10 (amended). The result label is not re-derived from the score: on
    a cleaned record set every loss whose recorded goals-for exceed its
    goals-against is flipped under every split of non-negative deltas up
    to 2^63 - 36, the zero split included, so every such flip count, and
    the count [best_split] returns at every magnitude up to 2^63 - 36, is
    at least the number of such losses. *)
Theorem contradicting_losses_always_flip (df : DataFrame) :
  cleaned df = true →
  (∀ r k j, r ∈ rows df → 0 ≤ k ≤ max_swing → 0 ≤ j ≤ max_swing →
     contradicts_label r = true → flip_mask k j r = Ok true)
  ∧ flip_count df 0 0 = Ok (contradicting_losses df)
  ∧ (∀ k j, 0 ≤ k ≤ max_swing → 0 ≤ j ≤ max_swing →
       ∃ n, flip_count df k j = Ok n ∧ contradicting_losses df ≤ n)
  ∧ (∀ d, 0 ≤ d ≤ max_swing →
       ∃ f a b, best_split df d = Ok (f, a, b) ∧ contradicting_losses df ≤ f).
Proof.
  intros Hc. pose proof (cleaned_record_set _ Hc) as Hrs.
  assert (H0 : 0 ≤ 0 ≤ max_swing) by (unfold max_swing; lia).
  split; [|split; [|split]].
  - intros r k j Hr Hk Hj Hcl.
    assert (Hrow := cleaned_rows df r Hc Hr).
    rewrite flip_mask_numeric, (mask_of_clean_row _ _ _ Hrow Hk Hj).
    + rewrite contradicts_label_flips; (done || lia).
    + apply andb_prop in Hrs as [_ Hrs]. rewrite forallb_forall in Hrs.
      apply Hrs. by apply list_elem_of_In.
  - rewrite flip_count_record_set, count_mask_cleaned by done.
    unfold contradicting_losses. do 3 f_equal. apply filter_mask_ext.
    intros r Hr. apply flips_zero_contradicts. by apply (cleaned_rows df).
  - intros k j Hk Hj. eexists. split; [by apply flip_count_record_set|].
    by apply contradicting_le_count.
  - intros d Hd.
    destruct (best_split_record_set df d Hrs ltac:(lia)) as (f & a & b & Hbs & Hall & _).
    exists f, a, b. split; [exact Hbs|].
    pose proof (Hall 0 ltac:(lia)).
    pose proof (contradicting_le_count df 0 (d - 0) Hc ltac:(lia) ltac:(lia)). lia.
Qed.

(** *** Splits of one magnitude *)

Lemma flips_split_independent k d r :
  clean_row r = true → 0 ≤ k → flips k (d - k) r = flips 0 d r.
Proof.
  unfold clean_row, flips. intros Hc Hk.
  rewrite !andb_true_iff in Hc. destruct Hc as ((((_ & _) & Hf) & _) & _).
  unfold between in Hf.
  destruct (get "goals_for" r) as [|gf| |]; try discriminate.
  apply andb_prop in Hf as [Hf _]. apply Z.leb_le in Hf.
  simpl. f_equal.
  destruct (Z.ltb_spec (Z.max (num (get "goals_against" r) - (d - k)) 0) (gf + k)),
    (Z.ltb_spec (Z.max (num (get "goals_against" r) - d) 0) (gf + 0));
    try reflexivity; lia.
Qed.

(** On a cleaned record set, and for a magnitude up to 2^63 - 36 (so that
    no sum leaves the 64 bits), the flip count of a split depends on its
    magnitude only: goals-for are at least 1, so the clip at zero never
    decides a flip, and [flip_count k (d-k)] is [flip_count 0 d] for every
    [k] in [0, d].  [best_split] then returns the defense-only split
    whenever a record flips. *)
Theorem flip_count_split_independent (df : DataFrame) (d k : Z) :
  cleaned df = true → 0 ≤ k ≤ d → d ≤ max_swing →
  flip_count df k (d - k) = flip_count df 0 d
  ∧ ∃ f, flip_count df 0 d = Ok f
         ∧ best_split df d = Ok (if 0 <? f then (f, 0, d) else (0, 0, 0)).
Proof.
  intros Hc Hk Hd. pose proof (cleaned_record_set _ Hc) as Hrs.
  assert (Hall : ∀ k', 0 ≤ k' ≤ d → count_mask df k' (d - k') = count_mask df 0 d).
  { intros k' Hk'. rewrite !count_mask_cleaned by (done || lia). do 2 f_equal.
    apply filter_mask_ext. intros r Hr.
    apply flips_split_independent; [by apply (cleaned_rows df)|lia]. }
  split.
  { rewrite !flip_count_record_set by done. f_equal. apply Hall. lia. }
  exists (count_mask df 0 d). split; [by apply flip_count_record_set|].
  destruct (best_split_record_set df d Hrs) as (f & a & b & Hbs & Hmax & Hcase); [lia|].
  rewrite Hbs. f_equal.
  pose proof (Hmax 0 ltac:(lia)) as H0. rewrite Hall in H0 by lia.
  destruct Hcase as [(-> & -> & ->)|(Hpos & Ha & -> & Hat & Hfirst)].
  - pose proof (count_mask_nonneg df 0 d).
    destruct (Z.ltb_spec 0 (count_mask df 0 d)); [lia|reflexivity].
  - rewrite Hall in Hat by lia. subst f.
    destruct (decide (a = 0)) as [->|Hne].
    + rewrite Z.sub_0_r. by destruct (Z.ltb_spec 0 (count_mask df 0 d)); [|lia].
    + pose proof (Hfirst 0 ltac:(lia)) as Hlt. rewrite Hall in Hlt by lia. lia.
Qed.

(** *** The order of [sort_values] *)

#[local] Instance date_le_total : Total date_le.
Proof.
  intros a b. unfold date_le.
  destruct (get "date" a), (get "date" b); auto. lia.
Qed.

#[local] Instance date_le_trans : Transitive date_le.
Proof.
  intros a b c. unfold date_le.
  destruct (get "date" a), (get "date" b), (get "date" c); auto; try done. lia.
Qed.

Lemma insert_by_date_Permutation r l : insert_by_date r l ≡ₚ r :: l.
Proof.
  induction l as [|r' l IH]; simpl; [reflexivity|].
  destruct (decide (date_le r r')); [reflexivity|].
  rewrite IH. apply Permutation_swap.
Qed.

Lemma sort_by_date_Permutation l : sort_by_date l ≡ₚ l.
Proof.
  induction l as [|r l IH]; simpl; [reflexivity|].
  by rewrite insert_by_date_Permutation, IH.
Qed.

Lemma insert_by_date_sorted r l :
  StronglySorted date_le l → StronglySorted date_le (insert_by_date r l).
Proof.
  induction 1 as [|r' l Hs IH Hall]; simpl; [repeat constructor|].
  destruct (decide (date_le r r')) as [Hle|Hnle].
  - constructor; [by constructor|]. constructor; [done|].
    eapply Forall_impl; [exact Hall|]. intros x Hx. simpl in Hx. by etrans.
  - constructor; [exact IH|]. rewrite insert_by_date_Permutation.
    constructor; [|exact Hall]. by destruct (total date_le r r').
Qed.

Lemma sort_by_date_sorted l : StronglySorted date_le (sort_by_date l).
Proof.
  induction l as [|r l IH]; simpl; [constructor|]. by apply insert_by_date_sorted.
Qed.

Lemma sort_by_date_nil_inv l : sort_by_date l = [] → l = [].
Proof.
  intros Hs. pose proof (sort_by_date_Permutation l) as Hp. rewrite Hs in Hp.
  by apply Permutation_nil_l in Hp.
Qed.

(** A stable sort: among the rows of one date the order is kept. *)
Lemma insert_by_date_filter (d : cell) r l :
  filter (fun x => get "date" x = d) (insert_by_date r l)
  = filter (fun x => get "date" x = d) (r :: l).
Proof.
  induction l as [|r' l IH]; simpl; [reflexivity|].
  destruct (decide (date_le r r')) as [Hle|Hnle]; [reflexivity|].
  rewrite filter_cons, IH, !filter_cons.
  destruct (decide (get "date" r' = d)) as [Hr'|Hr'], (decide (get "date" r = d))
    as [Hr|Hr]; try reflexivity.
  exfalso. apply Hnle. unfold date_le. rewrite Hr, Hr'. destruct d; (done || lia).
Qed.

Lemma sort_by_date_stable (d : cell) l :
  filter (fun x => get "date" x = d) (sort_by_date l)
  = filter (fun x => get "date" x = d) l.
Proof.
  induction l as [|r l IH]; simpl; [reflexivity|].
  by rewrite insert_by_date_filter, !filter_cons, IH.
Qed.

(** *** [clean_filter] as checks followed by a pure pipeline *)

Section CleanFilter.
Context `{Pandas}.

Lemma has_column_false_iff c df : has_column c df = false ↔ c ∉ columns df.
Proof. unfold has_column. apply bool_decide_eq_false. Qed.

Lemma map_column_rows c f df :
  map_column c f df
  = MkFrame (columns df) (map (coerce_cell (columns df) c f) (rows df))
  ∨ has_column c df = false.
Proof.
  destruct (has_column c df) eqn:Hc; [left|by right].
  unfold map_column, coerce_cell. unfold has_column in Hc. by rewrite Hc.
Qed.

Lemma coerce_cell_absent_row cols c f r : c ∉ cols → coerce_cell cols c f r = r.
Proof. intros Hc. unfold coerce_cell. by rewrite bool_decide_eq_false_2. Qed.

Lemma coerce_cell_absent cols c f l :
  c ∉ cols → map (coerce_cell cols c f) l = l.
Proof.
  intros Hc. rewrite <- (map_id l) at 2. apply map_ext. intros r.
  by apply coerce_cell_absent_row.
Qed.

Lemma coerce_step c f (chk : error) df cols l :
  df = MkFrame cols l →
  (if has_column c df
   then if duplicated c df then Err chk else Ok (map_column c f df)
   else Ok df)
  = if has_column c df && duplicated c df then Err chk
    else Ok (MkFrame cols (map (coerce_cell cols c f) l)).
Proof.
  intros ->. destruct (has_column c _) eqn:Hc; simpl.
  - destruct (duplicated c _); [reflexivity|].
    destruct (map_column_rows c f (MkFrame cols l)) as [->|Hn]; [reflexivity|congruence].
  - apply has_column_false_iff in Hc. by rewrite coerce_cell_absent.
Qed.

Lemma coerce_datetime_eq df :
  coerce_datetime df
  = if has_column "date" df && duplicated "date" df then Err ValueError
    else Ok (MkFrame (columns df) (dated_rows df)).
Proof.
  unfold coerce_datetime, dated_rows. destruct (has_column "date" df); simpl.
  - by destruct (duplicated "date" df).
  - by destruct df.
Qed.

(** [coerce_types] fails on a label that names two columns and nowhere
    else; it reads the dates of the column and rewrites each row by
    [coerce_row]. *)
Lemma coerce_types_eq df :
  coerce_types df
  = if has_column "date" df && duplicated "date" df then Err ValueError
    else if has_column "goals_for" df && duplicated "goals_for" df then Err TypeError
    else if has_column "goals_against" df && duplicated "goals_against" df
    then Err TypeError
    else if has_column "result" df && duplicated "result" df then Err AttributeError
    else if has_column "opponent" df && duplicated "opponent" df then Err AttributeError
    else Ok (MkFrame (columns df) (map (coerce_row (columns df)) (dated_rows df))).
Proof.
  unfold coerce_types. rewrite coerce_datetime_eq.
  destruct (has_column "date" df && duplicated "date" df); [reflexivity|].
  cbn [mbind res_bind Frame.bind].
  generalize (dated_rows df). destruct df as [cols l0]. intros l. cbn [columns].
  unfold coerce_numeric, coerce_string.
  rewrite (coerce_step _ _ _ _ _ _ eq_refl).
  change (has_column "goals_for" (MkFrame cols _)) with (has_column "goals_for" (MkFrame cols l0)).
  change (duplicated "goals_for" (MkFrame cols _)) with (duplicated "goals_for" (MkFrame cols l0)).
  destruct (has_column "goals_for" _ && duplicated "goals_for" _); [reflexivity|].
  simpl mbind. unfold mbind, res_bind, Frame.bind.
  rewrite (coerce_step _ _ _ _ _ _ eq_refl).
  change (has_column "goals_against" (MkFrame cols _)) with (has_column "goals_against" (MkFrame cols l0)).
  change (duplicated "goals_against" (MkFrame cols _)) with (duplicated "goals_against" (MkFrame cols l0)).
  destruct (has_column "goals_against" _ && duplicated "goals_against" _); [reflexivity|].
  rewrite (coerce_step _ _ _ _ _ _ eq_refl).
  change (has_column "result" (MkFrame cols _)) with (has_column "result" (MkFrame cols l0)).
  change (duplicated "result" (MkFrame cols _)) with (duplicated "result" (MkFrame cols l0)).
  destruct (has_column "result" _ && duplicated "result" _); [reflexivity|].
  rewrite (coerce_step _ _ _ _ _ _ eq_refl).
  change (has_column "opponent" (MkFrame cols _)) with (has_column "opponent" (MkFrame cols l0)).
  change (duplicated "opponent" (MkFrame cols _)) with (duplicated "opponent" (MkFrame cols l0)).
  destruct (has_column "opponent" _ && duplicated "opponent" _); [reflexivity|].
  f_equal.
  destruct (has_column "venue" _) eqn:Hv.
  - destruct (map_column_rows "venue"
                (fun x => VStr (title (astype_str (fillna_empty x))))
                (MkFrame cols (map (coerce_cell cols "opponent"
                   (fun x => VStr (strip (sub RX_SPACES (py " ") (astype_str x))))) (map (coerce_cell cols "result" (fun x => VStr (strip (upper (astype_str x))))) (map (coerce_cell cols "goals_against" to_numeric) (map (coerce_cell cols "goals_for" to_numeric) l))))))
      as [->|Hn]; [|congruence].
    simpl. f_equal. rewrite !map_map. reflexivity.
  - apply has_column_false_iff in Hv. simpl in Hv. simpl. f_equal.
    rewrite !map_map. apply map_ext. intros r. unfold coerce_row.
    by rewrite (coerce_cell_absent_row cols "venue").
Qed.

Lemma coerce_types_Ok df df1 :
  coerce_types df = Ok df1 →
  columns df1 = columns df
  ∧ rows df1 = map (coerce_row (columns df)) (dated_rows df).
Proof.
  rewrite coerce_types_eq. do 5 (destruct (_ && _); [discriminate|]).
  by intros [= <-].
Qed.

Lemma to_datetime_kind col c : c ∈ to_datetime col → is_datetime c = true.
Proof.
  unfold to_datetime. destruct (forallb is_datetime col) eqn:Hall.
  - rewrite forallb_forall in Hall. intros Hc. by apply Hall, list_elem_of_In.
  - intros Hc. apply list_elem_of_fmap in Hc as (o & -> & _). by destruct o.
Qed.

Lemma to_datetime_length col : length (to_datetime col) = length col.
Proof.
  unfold to_datetime. destruct (forallb is_datetime col); [reflexivity|].
  by rewrite length_map, pd_datetime_length.
Qed.

Lemma filter_filter_mask {A} (p q : A → bool) (l : list A) :
  filter (fun x => p x = true) (filter (fun x => q x = true) l)
  = filter (fun x => q x && p x = true) l.
Proof.
  induction l as [|x l IH]; [reflexivity|].
  rewrite (filter_cons (fun x => q x = true)), (filter_cons (fun x => q x && p x = true)).
  destruct (decide (q x = true)) as [Hq|Hq].
  - rewrite filter_cons, Hq. simpl. destruct (decide (p x = true)); by rewrite IH.
  - apply not_true_is_false in Hq. rewrite Hq. simpl.
    exact IH.
Qed.

Lemma filter_mask_true {A} (l : list A) :
  filter (fun _ : A => true = true) l = l.
Proof.
  induction l as [|x l IH]; [reflexivity|].
  rewrite filter_cons, decide_True by done. by rewrite IH.
Qed.

Lemma window_after b df :
  window b time_ge df
  = (lo ← bound_of b; Ok (select (fun r => after lo (get "date" r)) df)).
Proof.
  unfold window, bound_of. destruct b as [[|c s]|]; simpl;
    try (destruct (pd_Timestamp (c :: s)); reflexivity);
    unfold select; rewrite filter_mask_true; by destruct df.
Qed.

Lemma window_before b df :
  window b time_le df
  = (hi ← bound_of b; Ok (select (fun r => before hi (get "date" r)) df)).
Proof.
  unfold window, bound_of. destruct b as [[|c s]|]; simpl;
    try (destruct (pd_Timestamp (c :: s)); reflexivity);
    unfold select; rewrite filter_mask_true; by destruct df.
Qed.

Lemma elem_of_add_column c x cols :
  c ∈ add_column x cols ↔ c = x ∨ c ∈ cols.
Proof.
  unfold add_column. destruct (decide (x ∈ cols)) as [Hx|Hx].
  - split; [by right|]. by intros [->|].
  - rewrite elem_of_app, list_elem_of_singleton. tauto.
Qed.

Lemma has_column_true c df : has_column c df = true ↔ c ∈ columns df.
Proof. unfold has_column. apply bool_decide_eq_true. Qed.

Lemma dedup_subset_present (cols : list string) c :
  "date" ∈ cols → "opponent" ∈ cols → "goals_for" ∈ cols →
  "goals_against" ∈ cols → "result" ∈ cols → c ∈ dedup_subset → c ∈ cols.
Proof.
  intros Hd Ho Hf Ha Hr Hc. unfold dedup_subset in Hc.
  rewrite !elem_of_cons in Hc.
  destruct Hc as [->|[->|[->|[->|[->|Hc]]]]]; try done. by apply elem_of_nil in Hc.
Qed.

Lemma has_column_select c p df : has_column c (select p df) = has_column c df.
Proof. reflexivity. Qed.

(** [drop_duplicates] on the key of [clean_filter]: a frame without rows
    comes back whatever its columns; one with rows needs all five. *)
Lemma drop_duplicates_key cols l :
  "date" ∈ cols → "opponent" ∈ cols → "goals_for" ∈ cols → "goals_against" ∈ cols →
  drop_duplicates dedup_subset (MkFrame cols l)
  = match l with
    | [] => Ok (MkFrame cols [])
    | _ :: _ =>
        if bool_decide ("result" ∈ cols)
        then Ok (MkFrame cols (dedup_seen dedup_subset [] l))
        else Err (KeyError "result")
    end.
Proof.
  intros Hd Ho Hf Ha. unfold drop_duplicates, empty. cbn [rows columns].
  destruct l as [|r l]; [reflexivity|].
  rewrite (bool_decide_eq_false_2 (r :: l = [])) by discriminate.
  rewrite (bool_decide_eq_false_2 (cols = []))
    by (intros ->; by apply elem_of_nil in Hd).
  cbn [orb]. unfold dedup_subset. cbn [list_find].
  rewrite !decide_False by (intros Hn; by apply Hn).
  destruct (decide ("result" ∉ cols)) as [Hr|Hr].
  - by rewrite bool_decide_eq_false_2.
  - rewrite bool_decide_eq_true_2 by (by apply dec_stable). reflexivity.
Qed.

(** The last three steps of [clean_filter] on the rows that passed the
    filters. *)
Lemma clean_filter_tail cols kept out :
  "date" ∈ cols → "opponent" ∈ cols → "goals_for" ∈ cols → "goals_against" ∈ cols →
  (df ← drop_duplicates dedup_subset
          (apply_rows infer_venue_and_clean_opponent (MkFrame cols kept));
   sort_values_date df) = Ok out →
  ("result" ∈ cols ∨ kept = [])
  ∧ out = MkFrame
            (match kept with
             | [] => cols
             | _ :: _ => add_column "venue" (add_column "opponent" cols)
             end)
            (sort_by_date
               (dedup_seen dedup_subset [] (map infer_venue_and_clean_opponent kept))).
Proof.
  intros Hd Ho Hf Ha. unfold apply_rows. cbn [rows columns].
  destruct kept as [|r l].
  - rewrite drop_duplicates_key by done. cbn [mbind res_bind Frame.bind].
    unfold sort_values_date.
    rewrite (proj2 (has_column_true "date" (MkFrame cols []))) by done.
    intros [= <-]. split; [by right|reflexivity].
  - rewrite drop_duplicates_key by (rewrite !elem_of_add_column; tauto).
    cbn [map]. destruct (bool_decide_reflect
      ("result" ∈ add_column "venue" (add_column "opponent" cols))) as [Hr|Hr];
      [|discriminate].
    cbn [mbind res_bind Frame.bind]. unfold sort_values_date.
    rewrite (proj2 (has_column_true "date" _))
      by (cbn [columns]; rewrite !elem_of_add_column; tauto).
    intros [= <-]. split; [|reflexivity]. left.
    rewrite !elem_of_add_column in Hr. destruct Hr as [?|[?|?]]; done.
Qed.

(** *** Rows and keys through the pipeline *)

Lemma get_insert_eq c v (r : gmap string cell) : get c (<[c := v]> r) = v.
Proof. unfold get. by rewrite lookup_insert_eq. Qed.

Lemma get_insert_ne c c' v (r : gmap string cell) :
  c ≠ c' → get c' (<[c := v]> r) = get c' r.
Proof. intros Hne. unfold get. by rewrite lookup_insert_ne. Qed.

Lemma get_project c cols r : c ∈ cols → get c (project cols r) = get c r.
Proof.
  unfold project, get at 1. induction cols as [|c0 cols IH]; intros Hc.
  - by apply elem_of_nil in Hc.
  - simpl. destruct (decide (c0 = c)) as [->|Hne].
    + by rewrite lookup_insert_eq.
    + rewrite lookup_insert_ne by done. apply IH.
      apply elem_of_cons in Hc as [->|Hc]; done.
Qed.

Lemma elem_of_dedup_seen cols seen l r :
  r ∈ dedup_seen cols seen l → r ∈ l ∧ key_of cols r ∉ seen.
Proof.
  revert seen. induction l as [|x l IH]; intros seen Hr; simpl in Hr.
  - by apply elem_of_nil in Hr.
  - destruct (decide (key_of cols x ∈ seen)) as [Hx|Hx].
    + destruct (IH _ Hr) as [Hin Hk]. split; [by right|done].
    + apply elem_of_cons in Hr as [->|Hr]; [split; [by left|done]|].
      destruct (IH _ Hr) as [Hin Hk]. split; [by right|].
      intros Hs. apply Hk. by right.
Qed.

Lemma dedup_seen_keys_NoDup cols seen l :
  NoDup (key_of cols <$> dedup_seen cols seen l).
Proof.
  revert seen. induction l as [|x l IH]; intros seen; simpl; [constructor|].
  destruct (decide (key_of cols x ∈ seen)) as [Hx|Hx]; [apply IH|].
  rewrite fmap_cons. constructor; [|apply IH].
  intros Hk. apply list_elem_of_fmap in Hk as (y & Hy & Hin).
  apply elem_of_dedup_seen in Hin as [_ Hn]. apply Hn. rewrite <- Hy. by left.
Qed.

Lemma dedup_seen_complete cols seen l r :
  r ∈ l →
  key_of cols r ∈ seen ∨ key_of cols r ∈ (key_of cols <$> dedup_seen cols seen l).
Proof.
  revert seen. induction l as [|x l IH]; intros seen Hr.
  - by apply elem_of_nil in Hr.
  - simpl. destruct (decide (key_of cols x ∈ seen)) as [Hx|Hx].
    + apply elem_of_cons in Hr as [->|Hr]; [by left|by apply IH].
    + rewrite fmap_cons. apply elem_of_cons in Hr as [->|Hr]; [right; by left|].
      destruct (IH (key_of cols x :: seen) Hr) as [Hs|Hd].
      * apply elem_of_cons in Hs as [->|Hs]; [right; by left|by left].
      * right. by right.
Qed.

Lemma dedup_seen_nil_inv cols l : dedup_seen cols [] l = [] → l = [].
Proof.
  destruct l as [|r l]; [done|]. simpl.
  destruct (decide (key_of cols r ∈ [])) as [Hin|_];
    [by apply elem_of_nil in Hin|discriminate].
Qed.

Lemma filter_none {A} (P : A → Prop) `{∀ x, Decision (P x)} (l : list A) :
  (∀ x, x ∈ l → ¬ P x) → filter P l = [].
Proof.
  induction l as [|x l IH]; intros Hno; [reflexivity|].
  rewrite filter_cons, decide_False by (apply Hno; left).
  apply IH. intros y Hy. apply Hno. by right.
Qed.

Lemma count_key_once {A B} `{EqDecision B} (f : A → B) (l : list A) (k : B) :
  NoDup (f <$> l) → k ∈ (f <$> l) →
  length (filter (fun x => f x = k) l) = 1%nat.
Proof.
  induction l as [|x l IH]; intros Hnd Hk.
  - by apply elem_of_nil in Hk.
  - rewrite fmap_cons in Hnd, Hk. apply NoDup_cons in Hnd as [Hx Hnd].
    rewrite filter_cons. destruct (decide (f x = k)) as [Heq|Hne].
    + simpl. f_equal. rewrite filter_none; [reflexivity|].
      intros y Hy Hfy. apply Hx. rewrite Heq, <- Hfy. by apply list_elem_of_fmap_2.
    + apply IH; [done|]. apply elem_of_cons in Hk as [->|Hk]; done.
Qed.

Lemma get_infer_other c r :
  c ≠ "opponent" → c ≠ "venue" →
  get c (infer_venue_and_clean_opponent r) = get c r.
Proof.
  intros Ho Hv. unfold infer_venue_and_clean_opponent.
  destruct (rmatch_start _ _); rewrite !get_insert_ne by done; reflexivity.
Qed.

Lemma get_infer_opponent r :
  is_str (get "opponent" (infer_venue_and_clean_opponent r)) = true.
Proof.
  unfold infer_venue_and_clean_opponent.
  destruct (rmatch_start _ _); rewrite get_insert_ne, get_insert_eq by done;
    reflexivity.
Qed.

(** The opponent [infer_venue_and_clean_opponent] writes depends on the
    opponent it reads only, so rows of equal key have images of equal
    key. *)
Lemma key_of_infer r1 r2 :
  is_Some (r1 !! "opponent") → is_Some (r2 !! "opponent") →
  key_of dedup_subset r1 = key_of dedup_subset r2 →
  key_of dedup_subset (infer_venue_and_clean_opponent r1)
  = key_of dedup_subset (infer_venue_and_clean_opponent r2).
Proof.
  unfold key_of, dedup_subset. simpl. intros [o1 Ho1] [o2 Ho2] Hk.
  injection Hk as Hd Ho Hf Ha Hr.
  rewrite !(get_infer_other "date"), !(get_infer_other "goals_for"),
    !(get_infer_other "goals_against"), !(get_infer_other "result") by done.
  rewrite Hd, Hf, Ha, Hr. do 1 f_equal. f_equal.
  unfold get in Ho. rewrite Ho1, Ho2 in Ho. simpl in Ho. subst o2.
  unfold infer_venue_and_clean_opponent. rewrite Ho1, Ho2. simpl.
  destruct (rmatch_start _ _); rewrite !(get_insert_ne "venue"), !get_insert_eq by done;
    reflexivity.
Qed.

Lemma valid_row_key lo hi r1 r2 :
  key_of dedup_subset r1 = key_of dedup_subset r2 →
  valid_row lo hi r1 = valid_row lo hi r2.
Proof.
  unfold key_of, dedup_subset. simpl. intros Hk.
  injection Hk as Hd Ho Hf Ha Hr. unfold valid_row. by rewrite Hd, Ho, Hf, Ha, Hr.
Qed.

(** Rows of the coerced frame. *)
Lemma get_coerce_cell cols c f c' r :
  get c' (coerce_cell cols c f r)
  = if bool_decide (c ∈ cols) && bool_decide (c = c') then f (get c r) else get c' r.
Proof.
  unfold coerce_cell. destruct (bool_decide (c ∈ cols)); [|reflexivity]. simpl.
  destruct (bool_decide_reflect (c = c')) as [->|Hne].
  - apply get_insert_eq.
  - by apply get_insert_ne.
Qed.

Lemma coerce_cell_lookup cols c f c' r :
  is_Some (r !! c') → is_Some (coerce_cell cols c f r !! c').
Proof.
  intros Hs. unfold coerce_cell. destruct (bool_decide _); [|done].
  rewrite lookup_insert_is_Some. destruct (decide (c = c')); auto.
Qed.

Lemma coerce_row_opponent cols r :
  "opponent" ∈ cols → is_Some (coerce_row cols r !! "opponent").
Proof.
  intros Ho. unfold coerce_row. apply coerce_cell_lookup.
  unfold coerce_cell at 1. rewrite bool_decide_eq_true_2 by done.
  rewrite lookup_insert_eq. eauto.
Qed.

(** *** The rows of the output *)

Lemma elem_of_cleaned_rows lo hi l r :
  r ∈ cleaned_rows_of lo hi l →
  ∃ r1, r1 ∈ l ∧ valid_row lo hi r1 = true ∧ r = infer_venue_and_clean_opponent r1.
Proof.
  unfold cleaned_rows_of. rewrite sort_by_date_Permutation. intros Hr.
  apply elem_of_dedup_seen in Hr as [Hr _].
  apply list_elem_of_fmap in Hr as (r1 & -> & Hr1).
  apply list_elem_of_filter in Hr1 as [Hv Hr1]. eauto.
Qed.

Lemma cleaned_rows_keys_NoDup lo hi l :
  NoDup (key_of dedup_subset <$> cleaned_rows_of lo hi l).
Proof.
  unfold cleaned_rows_of. rewrite sort_by_date_Permutation.
  apply dedup_seen_keys_NoDup.
Qed.

Lemma cleaned_rows_complete lo hi l r1 :
  r1 ∈ l → valid_row lo hi r1 = true →
  key_of dedup_subset (infer_venue_and_clean_opponent r1)
  ∈ (key_of dedup_subset <$> cleaned_rows_of lo hi l).
Proof.
  intros Hr1 Hv. unfold cleaned_rows_of. rewrite sort_by_date_Permutation.
  destruct (dedup_seen_complete dedup_subset []
              (map infer_venue_and_clean_opponent
                   (filter (fun r => valid_row lo hi r = true) l))
              (infer_venue_and_clean_opponent r1)) as [Hs|Hd]; [| |done].
  - apply list_elem_of_fmap_2. by apply list_elem_of_filter.
  - by apply elem_of_nil in Hs.
Qed.

Lemma dated_rows_date df r :
  has_column "date" df = true → r ∈ dated_rows df → is_datetime (get "date" r) = true.
Proof.
  intros Hd Hr. unfold dated_rows in Hr. rewrite Hd in Hr. unfold set_cells in Hr.
  apply elem_of_zip_with in Hr as (r0 & v & -> & _ & Hv).
  rewrite get_insert_eq. by apply to_datetime_kind in Hv.
Qed.

Lemma coerce_row_date cols r : get "date" (coerce_row cols r) = get "date" r.
Proof.
  unfold coerce_row. rewrite !get_coerce_cell.
  rewrite !(bool_decide_eq_false_2 (_ = "date")) by done.
  by rewrite !andb_false_r.
Qed.

(** The dates of a coerced frame are timestamps or missing. *)
Lemma coerce_types_dates df df1 r :
  coerce_types df = Ok df1 → "date" ∈ columns df1 → r ∈ rows df1 →
  is_datetime (get "date" r) = true.
Proof.
  intros Hco Hd Hr. apply coerce_types_Ok in Hco as [Hcols Hrows].
  rewrite Hrows in Hr. apply list_elem_of_fmap in Hr as (r0 & -> & Hr0).
  rewrite coerce_row_date. apply (dated_rows_date df); [|done].
  apply has_column_true. by rewrite <- Hcols.
Qed.

Lemma coerce_types_opponent df df1 r :
  coerce_types df = Ok df1 → "opponent" ∈ columns df1 → r ∈ rows df1 →
  is_Some (r !! "opponent").
Proof.
  intros Hco Ho Hr. apply coerce_types_Ok in Hco as [Hcols Hrows].
  rewrite Hrows in Hr. apply list_elem_of_fmap in Hr as (r0 & -> & Hr0).
  apply coerce_row_opponent. by rewrite <- Hcols.
Qed.

(** What a successful run of [clean_filter] went through. *)
Lemma clean_filter_Ok df start end_ out :
  clean_filter df start end_ = Ok out →
  ∃ df1 lo hi,
    coerce_types (normalize_columns df) = Ok df1
    ∧ bound_of start = Ok lo ∧ bound_of end_ = Ok hi
    ∧ (∀ c, c ∈ ["date"; "opponent"; "goals_for"; "goals_against"] → c ∈ columns df1)
    ∧ ("result" ∈ columns df1
       ∨ filter (fun r => valid_row lo hi r = true) (rows df1) = [])
    ∧ out = MkFrame (cleaned_columns_of lo hi df1) (cleaned_rows_of lo hi (rows df1)).
Proof.
  unfold clean_filter. cbv zeta.
  destruct (coerce_types (normalize_columns df)) as [df1|e]; [|discriminate].
  cbn [mbind res_bind Frame.bind].
  destruct (has_column "date" df1) eqn:Hd; [|discriminate].
  cbn [require mbind res_bind Frame.bind]. rewrite window_after.
  destruct (bound_of start) as [lo|e]; [|discriminate].
  cbn [mbind res_bind Frame.bind]. rewrite window_before.
  destruct (bound_of end_) as [hi|e]; [|discriminate].
  cbn [mbind res_bind Frame.bind]. rewrite !has_column_select.
  intros Hcf. exists df1, lo, hi. split; [reflexivity|]. split; [reflexivity|].
  split; [reflexivity|].
  destruct (has_column "result" df1) eqn:Hr.
  - rewrite !has_column_select in Hcf.
    destruct (has_column "goals_for" df1) eqn:Hf; [|discriminate Hcf].
    destruct (has_column "goals_against" df1) eqn:Ha; [|discriminate Hcf].
    destruct (has_column "opponent" df1) eqn:Ho; [|discriminate Hcf].
    cbn [require mbind res_bind Frame.bind] in Hcf.
    apply has_column_true in Hd, Hr, Hf, Ha, Ho.
    unfold select in Hcf. cbn [rows columns] in Hcf.
    rewrite !filter_filter_mask in Hcf.
    rewrite (filter_mask_ext _ (valid_row lo hi) (rows df1)) in Hcf
      by (intros r _; unfold valid_row, has_letter; by rewrite !andb_assoc).
    apply clean_filter_tail in Hcf as [_ ->]; try done.
    split.
    { intros c Hc. rewrite !elem_of_cons in Hc.
      destruct Hc as [->|[->|[->|[->|Hc]]]]; try done. by apply elem_of_nil in Hc. }
    split; [by left|]. reflexivity.
  - rewrite !has_column_select in Hcf.
    destruct (has_column "goals_for" df1) eqn:Hf; [|discriminate Hcf].
    destruct (has_column "goals_against" df1) eqn:Ha; [|discriminate Hcf].
    destruct (has_column "opponent" df1) eqn:Ho; [|discriminate Hcf].
    cbn [require mbind res_bind Frame.bind] in Hcf.
    apply has_column_true in Hd, Hf, Ha, Ho. apply has_column_false_iff in Hr.
    unfold select in Hcf. cbn [rows columns] in Hcf.
    rewrite !filter_filter_mask in Hcf.
    apply clean_filter_tail in Hcf as [[Hres|Hkept] ->]; try done.
    assert (Hnone : filter (fun r => valid_row lo hi r = true) (rows df1) = []).
    { apply filter_none. intros r Hr1 Hv.
      assert (Hin : r ∈ @nil (gmap string cell)); [|by apply elem_of_nil in Hin].
      rewrite <- Hkept. apply list_elem_of_filter. split; [|done].
      unfold valid_row, has_letter in Hv. rewrite !andb_true_iff in Hv.
      rewrite !andb_true_iff. tauto. }
    split.
    { intros c Hc. rewrite !elem_of_cons in Hc.
      destruct Hc as [->|[->|[->|[->|Hc]]]]; try done. by apply elem_of_nil in Hc. }
    split; [by right|].
    unfold cleaned_columns_of, cleaned_rows_of. rewrite Hnone, Hkept. reflexivity.
Qed.


End CleanFilter.

(** *** The cleaned output *)

Section Pipelines.
Context `{Pandas} `{OcrAndParse.Unicodedata}.

Lemma between_spec lo hi c :
  between lo hi c = true ↔ ∃ n, c = VNum n ∧ lo ≤ n ≤ hi.
Proof.
  unfold between. destruct c as [s|n|t|]; split;
    try discriminate; try (intros (n' & Hn & _); discriminate).
  - rewrite andb_true_iff, !Z.leb_le. intros Hn. exists n. split; [done|lia].
  - intros (n' & [= <-] & Hn). rewrite andb_true_iff, !Z.leb_le. lia.
Qed.

(** Every row of the output of [clean_filter] is the image of a valid row
    of the coerced frame. *)
Lemma clean_filter_rows df start end_ df1 out r :
  coerce_types (normalize_columns df) = Ok df1 →
  clean_filter df start end_ = Ok out → r ∈ rows out →
  ∃ lo hi r1,
    bound_of start = Ok lo ∧ bound_of end_ = Ok hi
    ∧ r1 ∈ rows df1 ∧ valid_row lo hi r1 = true
    ∧ r = infer_venue_and_clean_opponent r1.
Proof.
  intros Hco Hcf Hr.
  destruct (clean_filter_Ok _ _ _ _ Hcf)
    as (df1' & lo & hi & Hco' & Hlo & Hhi & _ & _ & ->).
  rewrite Hco in Hco'. injection Hco' as <-. simpl in Hr.
  apply elem_of_cleaned_rows in Hr as (r1 & Hr1 & Hv & ->).
  exists lo, hi, r1. done.
Qed.

Lemma clean_filter_clean_rows df start end_ out r :
  clean_filter df start end_ = Ok out → r ∈ rows out → clean_row r = true.
Proof.
  intros Hcf Hr.
  destruct (clean_filter_Ok _ _ _ _ Hcf)
    as (df1 & lo & hi & Hco & _ & _ & Hcols & _ & ->).
  simpl in Hr. apply elem_of_cleaned_rows in Hr as (r1 & Hr1 & Hv & ->).
  pose proof (coerce_types_dates _ _ _ Hco (Hcols "date" ltac:(in_list)) Hr1) as Hdate.
  unfold valid_row in Hv. rewrite !andb_true_iff in Hv.
  destruct Hv as (((((Hnan & _) & _) & Hres) & Hgf & Hga) & _).
  unfold clean_row. rewrite get_infer_opponent.
  rewrite !get_infer_other by done. rewrite Hres, Hgf, Hga, !andb_true_r.
  destruct (get "date" r1); try discriminate Hdate; [reflexivity|].
  by rewrite bool_decide_eq_true_2 in Hnan.
Qed.

Lemma clean_filter_columns df start end_ out c :
  clean_filter df start end_ = Ok out →
  c ∈ ["date"; "opponent"; "goals_for"; "goals_against"] → has_column c out = true.
Proof.
  intros Hcf Hc.
  destruct (clean_filter_Ok _ _ _ _ Hcf)
    as (df1 & lo & hi & _ & _ & _ & Hcols & _ & ->).
  apply has_column_true. simpl. apply Hcols in Hc. unfold cleaned_columns_of.
  destruct (filter _ _); simpl; [done|]. rewrite !elem_of_add_column. auto.
Qed.

Lemma cleaned_rows_nil_inv lo hi l :
  cleaned_rows_of lo hi l = [] → filter (fun r => valid_row lo hi r = true) l = [].
Proof.
  unfold cleaned_rows_of. intros Hs. apply sort_by_date_nil_inv in Hs.
  destruct (map _ _) as [|r m] eqn:Hm.
  - by apply fmap_nil_inv in Hm.
  - simpl in Hs. destruct (decide (key_of dedup_subset r ∈ [])) as [Hin|_];
      [by apply elem_of_nil in Hin|discriminate Hs].
Qed.

(** The result column of the output is missing only from an output
    without rows. *)
Lemma clean_filter_result df start end_ out :
  clean_filter df start end_ = Ok out →
  has_column "result" out = false →
  rows out = [] ∧ "result" ∉ columns (normalize_columns df).
Proof.
  intros Hcf Hres.
  destruct (clean_filter_Ok _ _ _ _ Hcf)
    as (df1 & lo & hi & Hco & _ & _ & _ & Hcase & ->).
  apply has_column_false_iff in Hres. cbn [columns rows] in *.
  apply coerce_types_Ok in Hco as [Hcols _].
  unfold cleaned_columns_of, cleaned_rows_of in *.
  destruct Hcase as [Hr|Hnone].
  - exfalso. apply Hres. destruct (filter _ _); [done|].
    rewrite !elem_of_add_column. auto.
  - rewrite Hnone in *. split; [reflexivity|]. by rewrite <- Hcols.
Qed.

Lemma cleaned_after_clean_filter df start end_ out :
  clean_filter df start end_ = Ok out → has_column "result" out = true →
  cleaned out = true.
Proof.
  intros Hcf Hres. unfold cleaned. apply andb_true_intro. split.
  - apply forallb_forall. intros c Hc. apply list_elem_of_In in Hc.
    unfold engine_columns in Hc. rewrite !elem_of_cons in Hc.
    destruct Hc as [->|[->|[->|[->|[->|Hc]]]]].
    1-4: apply (clean_filter_columns df start end_); [done|in_list].
    + exact Hres.
    + by apply elem_of_nil in Hc.
  - apply forallb_forall. intros r Hr. apply list_elem_of_In in Hr.
    by apply (clean_filter_clean_rows df start end_ out).
Qed.

(** Whenever [clean_filter] returns, every row of its output is a cleaned
    record and the date, opponent and goal columns are there.  The result
    column is there too unless the input has none and no row passed the
    filters: the output then has no rows.  With the result column the
    output is a cleaned record set. *)
Lemma clean_filter_cleaned df start end_ out :
  clean_filter df start end_ = Ok out →
  Forall (fun r => clean_row r = true) (rows out)
  ∧ (∀ c, c ∈ ["date"; "opponent"; "goals_for"; "goals_against"] →
       has_column c out = true)
  ∧ (has_column "result" out = false →
       rows out = [] ∧ "result" ∉ columns (normalize_columns df))
  ∧ (has_column "result" out = true → cleaned out = true).
Proof.
  intros Hcf. split; [|split; [|split]].
  - apply Forall_forall. intros r Hr.
    by apply (clean_filter_clean_rows df start end_ out).
  - intros c Hc. by apply (clean_filter_columns df start end_).
  - by apply (clean_filter_result df start end_).
  - by apply (cleaned_after_clean_filter df start end_).
Qed.

(** Every row [main] writes comes from a candidate with the same goals,
    both within range. *)
Lemma main_rows pages season_start season_end out r :
  OcrAndParse.main pages season_start season_end = Ok out → r ∈ rows out →
  ∃ r0, r0 ∈ rows (OcrAndParse.parse_schedule_from_text pages)
    ∧ get "goals_for" r = get "goals_for" r0
    ∧ get "goals_against" r = get "goals_against" r0
    ∧ between 1 35 (get "goals_for" r0) = true
    ∧ between 1 35 (get "goals_against" r0) = true.
Proof.
  unfold OcrAndParse.main. intros Hm Hr.
  destruct (negb (bool_decide (pages = []))); [|discriminate Hm]. simpl in Hm.
  destruct (negb (bool_decide (rows _ = []))); [|discriminate Hm]. simpl in Hm.
  rewrite window_after in Hm.
  destruct (bound_of season_start) as [lo|]; [|discriminate Hm]. simpl in Hm.
  rewrite window_before in Hm.
  destruct (bound_of season_end) as [hi|]; [|discriminate Hm]. simpl in Hm.
  unfold sort_values_date in Hm.
  destruct (has_column "date" _); [|discriminate Hm]. simpl in Hm.
  injection Hm as <-. simpl in Hr.
  apply list_elem_of_fmap in Hr as (r1 & -> & Hr1).
  apply list_elem_of_fmap in Hr1 as (r2 & -> & Hr2).
  rewrite sort_by_date_Permutation in Hr2.
  apply list_elem_of_filter in Hr2 as [_ Hr2].
  apply list_elem_of_filter in Hr2 as [Hrange Hr2].
  apply list_elem_of_filter in Hr2 as [_ Hr2].
  apply list_elem_of_filter in Hr2 as [_ Hr2].
  apply list_elem_of_filter in Hr2 as [_ Hr2].
  apply elem_of_zip_with in Hr2 as (r0 & v & -> & Hr0 & _).
  apply andb_prop in Hrange as [Hgf Hga].
  rewrite !get_insert_ne in Hgf, Hga by done.
  exists r0. split; [done|].
  rewrite !(get_insert_ne "date") by done.
  rewrite !get_project by (unfold OcrAndParse.output_columns; in_list).
  rewrite !get_insert_ne by done. done.
Qed.

(** C7. In the output of either pipeline both goal fields of every record
    lie in [1, 35], and they are the goals of a candidate record: a record
    with a goal outside the range is dropped, none is clamped into it. *)
Theorem goals_within_range (out : DataFrame) (candidates : list (gmap string cell))
    (r : gmap string cell) :
  pipeline_output out candidates → r ∈ rows out →
  ∃ gf ga,
    get "goals_for" r = VNum gf ∧ get "goals_against" r = VNum ga
    ∧ 1 ≤ gf ≤ 35 ∧ 1 ≤ ga ≤ 35
    ∧ ∃ r0, r0 ∈ candidates
        ∧ get "goals_for" r0 = VNum gf ∧ get "goals_against" r0 = VNum ga.
Proof.
  intros Hout Hr. destruct Hout as [df start end_ df1 out Hco Hcf|pages s e out Hm].
  - destruct (clean_filter_rows _ _ _ _ _ _ Hco Hcf Hr)
      as (lo & hi & r1 & _ & _ & Hr1 & Hv & ->).
    unfold valid_row in Hv. rewrite !andb_true_iff in Hv.
    destruct Hv as ((_ & Hgf & Hga) & _).
    apply between_spec in Hgf as (gf & Hgf & Hgfr), Hga as (ga & Hga & Hgar).
    exists gf, ga. rewrite !get_infer_other by done.
    repeat split; try done; try lia. by exists r1.
  - destruct (main_rows _ _ _ _ _ Hm Hr) as (r0 & Hr0 & Hf & Ha & Hgf & Hga).
    apply between_spec in Hgf as (gf & Hgf & Hgfr), Hga as (ga & Hga & Hgar).
    exists gf, ga. rewrite Hf, Ha. repeat split; try done; try lia. by exists r0.
Qed.

End Pipelines.

(** *** Deduplication *)

(** The extraction pipeline on [wrapped_entry]: the line and the line pair
    give two candidates equal on (date, opponent, goals_for,
    goals_against, result); both are written. *)
Lemma extraction_keeps_overlapping_candidates :
  (fun out => key_of dedup_subset <$> rows out)
    <$> OcrAndParse.main wrapped_entry None None
  = Ok [ [VStr (py "2024-10-01"); VStr (py "at Hawks"); VNum 2; VNum 3; VStr (py "L")];
         [VStr (py "2024-10-01"); VStr (py "at Hawks"); VNum 2; VNum 3; VStr (py "L")] ].
Proof. vm_compute. reflexivity. Qed.

Section CleanClaims.
Context `{Pandas} `{OcrAndParse.Unicodedata}.

(** C4 (amended). In the cleaning pipeline no two records of the output
    agree on (date, opponent, goals_for, goals_against, result), and
    candidate records that agree on that tuple and pass validation are
    represented by exactly one record of the output.  The extraction
    pipeline removes only candidates that agree on every field, page and
    raw text included. *)
Theorem clean_filter_one_record_per_key (df df1 out : DataFrame)
    (start end_ : option pystr) (lo hi : option Z) :
  coerce_types (normalize_columns df) = Ok df1 →
  bound_of start = Ok lo → bound_of end_ = Ok hi →
  clean_filter df start end_ = Ok out →
  NoDup (key_of dedup_subset <$> rows out)
  ∧ (∀ r1 r2,
       r1 ∈ rows df1 → r2 ∈ rows df1 →
       key_of dedup_subset r1 = key_of dedup_subset r2 →
       valid_row lo hi r1 = true →
       valid_row lo hi r2 = true
       ∧ key_of dedup_subset (infer_venue_and_clean_opponent r2)
         = key_of dedup_subset (infer_venue_and_clean_opponent r1)
       ∧ length (filter (fun r => key_of dedup_subset r
                                  = key_of dedup_subset (infer_venue_and_clean_opponent r1))
                        (rows out)) = 1%nat)
  ∧ (∀ pages,
       NoDup (key_of OcrAndParse.candidate_columns
                <$> rows (OcrAndParse.parse_schedule_from_text pages))).
Proof.
  intros Hco Hlo Hhi Hcf.
  destruct (clean_filter_Ok _ _ _ _ Hcf)
    as (df1' & lo' & hi' & Hco' & Hlo' & Hhi' & Hcols & _ & ->).
  rewrite Hco in Hco'. injection Hco' as <-.
  rewrite Hlo in Hlo'. injection Hlo' as <-.
  rewrite Hhi in Hhi'. injection Hhi' as <-.
  simpl. split; [apply cleaned_rows_keys_NoDup|]. split.
  - intros r1 r2 Hr1 Hr2 Hkey Hv.
    assert (Hopp : "opponent" ∈ columns df1) by (apply Hcols; in_list).
    split; [by rewrite <- (valid_row_key lo hi r1 r2 Hkey)|]. split.
    + symmetry. apply key_of_infer; try done;
        by apply (coerce_types_opponent (normalize_columns df) df1).
    + apply count_key_once; [apply cleaned_rows_keys_NoDup|].
      by apply cleaned_rows_complete.
  - intros pages. unfold OcrAndParse.parse_schedule_from_text.
    destruct (OcrAndParse.parse_pages 1 pages); simpl; [constructor|].
    apply (dedup_seen_keys_NoDup OcrAndParse.candidate_columns [] (_ :: _)).
Qed.

(** *** Failures *)



(** *** Running [clean_filter] twice *)

(** C5. [clean_filter] is no fixed point on its image: an opponent with
    two venue prefixes loses one prefix in each run, so the second run
    changes the output of the first. *)
Theorem clean_filter_second_run_differs :
  clean_filter nested_prefix None None = Ok nested_once
  ∧ clean_filter nested_once None None = Ok nested_twice
  ∧ nested_once ≠ nested_twice.
Proof.
  split; [vm_compute; reflexivity|]. split; [vm_compute; reflexivity|].
  intros Heq. assert (Hopp : get "opponent" <$> rows nested_once
                             = get "opponent" <$> rows nested_twice) by by rewrite Heq.
  vm_compute in Hopp. discriminate Hopp.
Qed.

End CleanClaims.


(** *** The Text Normalizer *)

Lemma drop_take_while p (t : pystr) :
  drop (length (take_while p t)) t = drop_while p t.
Proof.
  induction t as [|c t IH]; [reflexivity|]. simpl.
  destruct (p c); [exact IH|reflexivity].
Qed.

Lemma collapse_in_run (s : pystr) :
  collapse_from true s = collapse_from false (drop_while is_space s).
Proof.
  induction s as [|c s IH]; [reflexivity|]. simpl.
  destruct (is_space c) eqn:Hc; [exact IH|]. simpl. by rewrite Hc.
Qed.

(** [\s+] at position [i]: the whole run of whitespace that starts there. *)
Lemma match_at_spaces (text : pystr) (i : nat) :
  match_at RX_SPACES text i
  = match length (take_while is_space (drop i text)) with
    | O => None
    | S n => Some (RMatch i (i + S n) [])
    end.
Proof.
  unfold match_at, RX_SPACES. simpl.
  destruct (length (take_while is_space (drop i text))) as [|n]; reflexivity.
Qed.

(** [re.sub(r"\s+", " ", s)] collapses every run of whitespace. *)
Lemma scan_spaces (text : pystr) (fuel : nat) :
  ∀ i, (length text - i ≤ fuel)%nat →
    flat_map (fun x => match x with
                       | inr _ => py " "
                       | inl j => slice text j (S j)
                       end)
             (scan RX_SPACES text i fuel)
    = collapse_from false (drop i text).
Proof.
  induction fuel as [|fuel IH]; intros i Hi.
  - simpl. rewrite drop_ge by lia. reflexivity.
  - simpl. destruct (decide (length text ≤ i)%nat) as [Hlen|Hlen].
    { rewrite drop_ge by lia. reflexivity. }
    rewrite match_at_spaces.
    destruct (text !! i) as [c|] eqn:Hc;
      [|apply lookup_ge_None in Hc; lia].
    rewrite (drop_S _ _ _ Hc). simpl.
    destruct (is_space c) eqn:Hsp; simpl.
    + rewrite decide_True by lia. simpl. rewrite IH by lia.
      f_equal. rewrite collapse_in_run. f_equal.
      replace (i + S (length (take_while is_space (drop (S i) text))))%nat
        with (S i + length (take_while is_space (drop (S i) text)))%nat by lia.
      rewrite <- drop_drop. apply drop_take_while.
    + rewrite IH by lia. unfold slice.
      replace (S i - i)%nat with 1%nat by lia.
      rewrite (drop_S _ _ _ Hc). reflexivity.
Qed.

Lemma sub_spaces (text : pystr) :
  sub RX_SPACES (py " ") text = collapse_whitespace text.
Proof.
  unfold sub, collapse_whitespace. rewrite scan_spaces by lia. reflexivity.
Qed.

Lemma replace_char_map old new (s : pystr) :
  replace_char old [new] s = map (fun c => if (c =? old)%N then new else c) s.
Proof.
  unfold replace_char. induction s as [|c s IH]; [reflexivity|]. simpl.
  rewrite IH. by destruct (c =? old)%N.
Qed.

Lemma clean_replacements (s : pystr) :
  replace_char 8212 (py "-") (replace_char 8211 (py "-")
    (replace_char 8212 (py "-") (replace_char 8211 (py "-")
      (replace_char 8201 (py " ") (replace_char 8199 (py " ")
        (replace_char 160 (py " ") s))))))
  = map canonical_char s.
Proof.
  change (py "-") with [45%N]. change (py " ") with [32%N].
  rewrite !replace_char_map, !map_map. apply map_ext. intros c.
  unfold canonical_char.
  destruct (N.eqb_spec c 160) as [->|H160]; [reflexivity|].
  destruct (N.eqb_spec c 8199) as [->|H8199]; [reflexivity|].
  destruct (N.eqb_spec c 8201) as [->|H8201]; [reflexivity|].
  destruct (N.eqb_spec c 8211) as [->|H8211]; [reflexivity|].
  destruct (N.eqb_spec c 8212) as [->|H8212]; [reflexivity|].
  simpl. rewrite (proj2 (N.eqb_neq c 8211)), (proj2 (N.eqb_neq c 8212)) by done.
  reflexivity.
Qed.

(** Shape of a collapsed and stripped string. *)
Lemma single_spaced_cons a (s : pystr) :
  single_spaced (a :: s)
  = (negb (is_space a) || open_end (head s)) && single_spaced s.
Proof. destruct s as [|b s]; simpl; [by rewrite orb_true_r|]. by rewrite negb_andb. Qed.

Lemma open_end_head_collapse (s : pystr) :
  open_end (head (collapse_from true s)) = true.
Proof.
  induction s as [|c s IH]; [reflexivity|]. simpl.
  destruct (is_space c) eqn:Hc; [exact IH|]. simpl. by rewrite Hc.
Qed.

Lemma plain_spaces_collapse b (s : pystr) : plain_spaces (collapse_from b s) = true.
Proof.
  revert b. induction s as [|c s IH]; intros b; [reflexivity|]. simpl.
  destruct (is_space c) eqn:Hc.
  - destruct b; [apply IH|]. unfold plain_spaces. simpl. apply IH.
  - unfold plain_spaces. simpl. rewrite Hc. simpl. apply IH.
Qed.

Lemma single_spaced_collapse b (s : pystr) : single_spaced (collapse_from b s) = true.
Proof.
  revert b. induction s as [|c s IH]; intros b; [reflexivity|]. simpl.
  destruct (is_space c) eqn:Hc.
  - destruct b; [apply IH|].
    rewrite single_spaced_cons, open_end_head_collapse, IH. by rewrite orb_true_r.
  - by rewrite single_spaced_cons, Hc, IH.
Qed.

Lemma drop_while_split p (s : pystr) : ∃ pre, s = pre ++ drop_while p s.
Proof.
  induction s as [|c s [pre IH]]; [by exists []|]. simpl.
  destruct (p c); [exists (c :: pre); simpl; by rewrite <- IH|by exists []].
Qed.

Lemma rstrip_by_split p (s : pystr) : ∃ suf, s = rstrip_by p s ++ suf.
Proof.
  unfold rstrip_by. destruct (drop_while_split p (reverse s)) as [pre Hpre].
  exists (reverse pre). rewrite <- reverse_app, <- Hpre. by rewrite reverse_involutive.
Qed.

Lemma open_end_head_drop_while (s : pystr) :
  open_end (head (drop_while is_space s)) = true.
Proof.
  induction s as [|c s IH]; [reflexivity|]. simpl.
  destruct (is_space c) eqn:Hc; [exact IH|]. simpl. by rewrite Hc.
Qed.

Lemma open_end_last_rstrip (s : pystr) :
  open_end (last (rstrip_by is_space s)) = true.
Proof.
  unfold rstrip_by. rewrite last_reverse. apply open_end_head_drop_while.
Qed.

Lemma plain_spaces_app (s1 s2 : pystr) :
  plain_spaces (s1 ++ s2) = plain_spaces s1 && plain_spaces s2.
Proof. unfold plain_spaces. apply forallb_app. Qed.

Lemma single_spaced_app (s1 s2 : pystr) :
  single_spaced (s1 ++ s2) = true → single_spaced s1 = true ∧ single_spaced s2 = true.
Proof.
  induction s1 as [|a s1 IH]; [by split|].
  rewrite <- app_comm_cons, !single_spaced_cons, !andb_true_iff.
  intros [Ha Hs]. destruct (IH Hs) as [H1 H2]. repeat split; try done.
  destruct s1; [by rewrite orb_true_r|exact Ha].
Qed.

Lemma normalized_strip (s : pystr) :
  plain_spaces s = true → single_spaced s = true → normalized (strip s) = true.
Proof.
  intros Hp Hs. unfold strip, strip_by, lstrip_by.
  destruct (drop_while_split is_space s) as [pre Hpre].
  set (v := drop_while is_space s) in *.
  destruct (rstrip_by_split is_space v) as [suf Hsuf].
  assert (Hpv : plain_spaces v = true ∧ single_spaced v = true).
  { rewrite Hpre, plain_spaces_app in Hp. rewrite Hpre in Hs.
    apply andb_prop in Hp as [_ Hp]. apply single_spaced_app in Hs as [_ Hs]. done. }
  destruct Hpv as [Hpv Hsv]. rewrite Hsuf, plain_spaces_app in Hpv. rewrite Hsuf in Hsv.
  apply andb_prop in Hpv as [Hpr _]. apply single_spaced_app in Hsv as [Hsr _].
  unfold normalized. rewrite Hpr, Hsr, open_end_last_rstrip, andb_true_r. simpl.
  pose proof (open_end_head_drop_while s) as Hh. fold v in Hh.
  destruct (rstrip_by is_space v) as [|a w] eqn:Hr; [reflexivity|].
  rewrite Hsuf in Hh. exact Hh.
Qed.

Lemma elem_of_strip_by p (s : pystr) c : c ∈ strip_by p s → c ∈ s.
Proof.
  unfold strip_by, lstrip_by. intros Hc.
  destruct (drop_while_split p s) as [pre Hpre].
  destruct (rstrip_by_split p (drop_while p s)) as [suf Hsuf].
  rewrite Hpre, Hsuf, !elem_of_app. auto.
Qed.

Lemma elem_of_collapse_from b (s : pystr) c :
  c ∈ collapse_from b s → c = 32%N ∨ (c ∈ s ∧ is_space c = false).
Proof.
  revert b. induction s as [|a s IH]; intros b; simpl; [by intros ?%elem_of_nil|].
  destruct (is_space a) eqn:Ha.
  - destruct b.
    + intros Hc. destruct (IH _ Hc) as [?|[? ?]]; [by left|right; split; [by right|done]].
    + intros [->|Hc]%elem_of_cons; [by left|].
      destruct (IH _ Hc) as [?|[? ?]]; [by left|right; split; [by right|done]].
  - intros [->|Hc]%elem_of_cons; [right; split; [left|done]|].
    destruct (IH _ Hc) as [?|[? ?]]; [by left|right; split; [by right|done]].
Qed.

Lemma canonical_char_spec c :
  (canonical_char c ∉ [160%N; 8199%N; 8201%N; 8211%N; 8212%N])
  ∧ (canonical_char c ≠ c → c ∈ [160%N; 8199%N; 8201%N; 8211%N; 8212%N]).
Proof.
  assert (Hin : ∀ x : N, x ∈ [160%N; 8199%N; 8201%N; 8211%N; 8212%N]
                  ↔ (x = 160 ∨ x = 8199 ∨ x = 8201 ∨ x = 8211 ∨ x = 8212)%N).
  { intros x. rewrite !elem_of_cons, elem_of_nil. tauto. }
  rewrite !Hin. unfold canonical_char.
  destruct (N.eqb_spec c 160), (N.eqb_spec c 8199), (N.eqb_spec c 8201),
    (N.eqb_spec c 8211), (N.eqb_spec c 8212); simpl; lia.
Qed.

(** Two dashes go through [clean]: the minus sign, which is neither
    replaced nor changed by NFKC, and the small em-dash, whose NFKC form is
    the em-dash, made after the replacements have run. *)
Lemma clean_keeps_dashes_counterexample :
  OcrAndParse.clean (Some [8722%N]) = [8722%N] ∧ [8722%N] ≠ py "-"
  ∧ OcrAndParse.clean (Some [65112%N]) = [8212%N] ∧ [8212%N] ≠ py "-".
Proof.
  split; [vm_compute; reflexivity|]. split; [discriminate|].
  split; [vm_compute; reflexivity|discriminate].
Qed.

Section Clean.
Context `{OcrAndParse.Unicodedata}.

(** C9 (amended). [clean] is a total function of its argument alone.  It
    replaces the no-break, figure and thin space by a space and the en-dash
    and the em-dash by a hyphen, these five code points and no other, so
    that the text handed to NFKC holds none of them; it applies NFKC,
    collapses every run of Unicode whitespace to one ordinary space and
    strips both ends.  The result has no whitespace but single ordinary
    spaces between other code points, and each of its other code points is
    a code point of the NFKC form: a dash in the result is one that NFKC
    left or made.  An empty or null input gives the empty string.  The
    minus sign is not among the replaced code points. *)
Theorem clean_normal_form (s : option pystr) :
  let replaced := map canonical_char (default [] s) in
  OcrAndParse.clean s = strip (collapse_whitespace (OcrAndParse.nfkc replaced))
  ∧ normalized (OcrAndParse.clean s) = true
  ∧ (∀ c, c ∈ replaced → c ∉ [160%N; 8199%N; 8201%N; 8211%N; 8212%N])
  ∧ (∀ c, canonical_char c ≠ c → c ∈ [160%N; 8199%N; 8201%N; 8211%N; 8212%N])
  ∧ canonical_char 8211 = 45%N ∧ canonical_char 8212 = 45%N
  ∧ canonical_char 8722 = 8722%N
  ∧ (∀ c, c ∈ OcrAndParse.clean s →
       c = 32%N ∨ (c ∈ OcrAndParse.nfkc replaced ∧ is_space c = false))
  ∧ OcrAndParse.clean None = []
  ∧ OcrAndParse.clean (Some []) = [].
Proof.
  cbv zeta.
  assert (Heq : ∀ s, OcrAndParse.clean s
                     = strip (collapse_whitespace
                                (OcrAndParse.nfkc (map canonical_char (default [] s))))).
  { intros s'. unfold OcrAndParse.clean. cbv zeta.
    rewrite clean_replacements. by rewrite sub_spaces. }
  split; [apply Heq|]. split.
  { rewrite Heq. apply normalized_strip.
    - apply plain_spaces_collapse.
    - apply single_spaced_collapse. }
  split.
  { intros c Hc. apply list_elem_of_fmap in Hc as (c0 & -> & _).
    apply canonical_char_spec. }
  split; [intros c; apply canonical_char_spec|].
  do 3 (split; [reflexivity|]). split.
  { intros c. rewrite Heq. intros Hc. apply elem_of_strip_by in Hc.
    by apply elem_of_collapse_from in Hc. }
  rewrite !Heq. simpl. rewrite OcrAndParse.nfkc_nil. by split.
Qed.

End Clean.

(** *** The score-pair recognizer *)

Lemma search_from_Some r text i fuel m :
  search_from r text i fuel = Some m → ∃ j, match_at r text j = Some m.
Proof.
  revert i. induction fuel as [|fuel IH]; intros i; simpl.
  - destruct (match_at r text i) eqn:Hm; [|discriminate]. intros [= <-]. eauto.
  - destruct (match_at r text i) eqn:Hm; [intros [= <-]; eauto|]. apply IH.
Qed.

Lemma elem_of_run_Seq r1 r2 text st st' :
  st' ∈ run (Seq r1 r2) text st ↔ ∃ st1, st1 ∈ run r1 text st ∧ st' ∈ run r2 text st1.
Proof.
  simpl. rewrite list_elem_of_In, in_flat_map.
  split; intros (st1 & H1 & H2); exists st1; by rewrite ?list_elem_of_In in *.
Qed.

Lemma elem_of_run_NotBehind p text st st' :
  st' ∈ run (NotBehind p) text st →
  st' = st ∧ match pos st with O => True | S i => at_pos text i p = false end.
Proof.
  simpl. destruct (pos st) as [|i].
  - intros Hs. apply list_elem_of_singleton in Hs. done.
  - destruct (at_pos text i p); intros Hs; [by apply elem_of_nil in Hs|].
    apply list_elem_of_singleton in Hs. done.
Qed.

Lemma elem_of_run_NotAhead r text st st' :
  st' ∈ run (NotAhead r) text st → st' = st ∧ run r text st = [].
Proof.
  simpl. destruct (run r text st); intros Hs; [|by apply elem_of_nil in Hs].
  apply list_elem_of_singleton in Hs. done.
Qed.

(** Every match the recognizer reports starts where no digit precedes and
    ends where the continuation pattern, optional whitespace then a hyphen
    or a slash then a digit, does not match. *)
Lemma score_match_guards text m :
  search OcrAndParse.RX_SCORE text = Some m →
  match m_start m with O => True | S i => at_pos text i is_digit = false end
  ∧ run OcrAndParse.RX_SCORE_TAIL text (MState (m_end m) (m_caps m)) = [].
Proof.
  unfold search. intros Hs. apply search_from_Some in Hs as [j Hm].
  unfold match_at in Hm.
  destruct (run OcrAndParse.RX_SCORE text (MState j [])) as [|st l] eqn:Hrun;
    [discriminate|].
  injection Hm as <-. cbn [m_start m_end m_caps].
  assert (Hst : st ∈ run OcrAndParse.RX_SCORE text (MState j [])) by (rewrite Hrun; left).
  clear Hrun. unfold OcrAndParse.RX_SCORE, seqs in Hst. simpl foldr in Hst.
  apply elem_of_run_Seq in Hst as (s1 & H1 & Hst).
  apply elem_of_run_NotBehind in H1 as [-> Hbehind]. simpl in Hbehind.
  split; [exact Hbehind|].
  do 5 (apply elem_of_run_Seq in Hst as (? & _ & Hst)).
  apply elem_of_run_Seq in Hst as (s7 & H7 & Hst).
  apply elem_of_run_NotAhead in H7 as [-> Hahead].
  simpl in Hst. apply list_elem_of_singleton in Hst as ->.
  match goal with |- run _ _ (MState (pos ?s) (caps ?s)) = [] => by destruct s end.
Qed.

(** C8. The guard of the score pattern does not keep a match out of a
    date-like sequence: on [10-12-2024] the recognizer backtracks to the
    one-digit second number and reports the score 10-1, whose second
    number is cut out of the 12 that a hyphen and a digit follow; on
    [1-2-3] it reports 2-3. *)
Theorem score_match_inside_date_sequence :
  (let text := py "10-12-2024" in
   ∃ m, search OcrAndParse.RX_SCORE text = Some m
        ∧ m_start m = 0%nat ∧ m_end m = 4%nat
        ∧ group text m 1 = py "10" ∧ group text m 2 = py "1")
  ∧ (let text := py "1-2-3" in
     ∃ m, search OcrAndParse.RX_SCORE text = Some m
          ∧ m_start m = 2%nat ∧ m_end m = 5%nat
          ∧ group text m 1 = py "2" ∧ group text m 2 = py "3").
Proof.
  split; cbv zeta; eexists; (split; [vm_compute; reflexivity|]);
    repeat split; vm_compute; reflexivity.
Qed.

(** *** Order and window of the cleaned output *)

Lemma dates_sorted (l : list (gmap string cell)) :
  Forall (fun r => is_time (get "date" r) = true) l →
  StronglySorted date_le l →
  StronglySorted Z.le (map (fun r => Readings.time_of (get "date" r)) l).
Proof.
  intros Hall Hs. induction Hs as [|r l Hs IH Hr]; simpl; [constructor|].
  apply Forall_cons in Hall as [Hrt Hall]. constructor; [by apply IH|].
  apply Forall_fmap, Forall_forall. intros r' Hr'. simpl.
  rewrite Forall_forall in Hr, Hall. specialize (Hr r' Hr'). specialize (Hall r' Hr').
  unfold date_le in Hr.
  destruct (get "date" r); try discriminate. destruct (get "date" r'); try discriminate.
  exact Hr.
Qed.

Section Order.
Context `{Pandas}.

(** The rows [clean_filter] returns are in ascending order of date, ties
    included, and every date lies within the bounds of the window that
    are set, both inclusive. *)
Theorem clean_filter_sorted_in_window (df out : DataFrame)
    (start end_ : option pystr) (lo hi : option Z) :
  bound_of start = Ok lo → bound_of end_ = Ok hi →
  clean_filter df start end_ = Ok out →
  StronglySorted Z.le (Readings.dates out)
  ∧ Forall (Readings.within lo hi) (Readings.dates out)
  ∧ Forall (fun r => get "date" r = VTime (Readings.time_of (get "date" r))) (rows out).
Proof.
  intros Hlo Hhi Hcf.
  destruct (clean_filter_Ok _ _ _ _ Hcf)
    as (df1 & lo' & hi' & _ & Hlo' & Hhi' & _ & _ & Hout).
  rewrite Hlo in Hlo'. injection Hlo' as <-. rewrite Hhi in Hhi'. injection Hhi' as <-.
  assert (Htime : Forall (fun r => is_time (get "date" r) = true) (rows out)).
  { apply Forall_forall. intros r Hr.
    pose proof (clean_filter_clean_rows _ _ _ _ _ Hcf Hr) as Hrow.
    unfold clean_row in Hrow. rewrite !andb_true_iff in Hrow. tauto. }
  split; [|split].
  - apply dates_sorted; [exact Htime|]. rewrite Hout. simpl.
    unfold cleaned_rows_of. apply sort_by_date_sorted.
  - unfold Readings.dates. apply Forall_fmap, Forall_forall. intros r Hr. simpl.
    rewrite Hout in Hr. simpl in Hr.
    apply elem_of_cleaned_rows in Hr as (r1 & _ & Hv & ->).
    rewrite get_infer_other by done.
    unfold valid_row in Hv. rewrite !andb_true_iff in Hv.
    destruct Hv as (((((_ & Hafter) & Hbefore) & _) & _) & _).
    unfold after, before, time_ge, time_le in *.
    destruct (get "date" r1) as [s|n|t|]; simpl.
    + destruct lo, hi; try discriminate; split; intros ? [=].
    + destruct lo, hi; try discriminate; split; intros ? [=].
    + split; intros x ->; [apply Z.leb_le in Hafter|apply Z.leb_le in Hbefore]; done.
    + destruct lo, hi; try discriminate; split; intros ? [=].
  - eapply Forall_impl; [exact Htime|]. intros r Hr. simpl in Hr.
    by destruct (get "date" r).
Qed.

End Order.

(** *** The summary of [main] *)

Lemma count_mask_magnitude df d k :
  cleaned df = true → 0 ≤ k ≤ d → d ≤ max_swing →
  count_mask df k (d - k) = Readings.magnitude_count df d.
Proof.
  intros Hc Hk Hd. rewrite count_mask_cleaned by (done || lia).
  unfold Readings.magnitude_count.
  do 2 f_equal. apply filter_mask_ext. intros r Hr.
  apply flips_split_independent; [by apply (cleaned_rows df)|lia].
Qed.

Lemma best_split_cleaned df d :
  cleaned df = true → 0 ≤ d ≤ max_swing →
  best_split df d
  = Ok (let c := Readings.magnitude_count df d in
        if 0 <? c then (c, 0, d) else (0, 0, 0)).
Proof.
  intros Hc Hd. pose proof (cleaned_record_set _ Hc) as Hrs. cbv zeta.
  destruct (best_split_record_set df d Hrs ltac:(lia)) as (f & a & b & -> & Hmax & Hcase).
  f_equal. pose proof (Hmax 0 ltac:(lia)) as H0.
  rewrite count_mask_magnitude in H0 by (done || lia).
  assert (Hnn : 0 ≤ Readings.magnitude_count df d)
    by (unfold Readings.magnitude_count; lia).
  destruct Hcase as [(-> & -> & ->)|(Hpos & Ha & -> & Hat & Hfirst)].
  - destruct (Z.ltb_spec 0 (Readings.magnitude_count df d)); [lia|reflexivity].
  - rewrite count_mask_magnitude in Hat by (done || lia). subst f.
    destruct (decide (a = 0)) as [->|Hne].
    + rewrite Z.sub_0_r. by destruct (Z.ltb_spec 0 (Readings.magnitude_count df d)); [|lia].
    + pose proof (Hfirst 0 ltac:(lia)) as Hlt.
      rewrite count_mask_magnitude in Hlt by (done || lia). lia.
Qed.

Lemma sensitivity_row_cleaned df d :
  cleaned df = true → 0 ≤ d ≤ max_swing →
  sensitivity_row df d = Ok (Readings.magnitude_line df d).2.
Proof.
  intros Hc Hd. pose proof (cleaned_record_set _ Hc) as Hrs.
  unfold sensitivity_row.
  fold (flip_count df d 0). fold (flip_count df 0 d).
  rewrite !flip_count_record_set by done. simpl.
  rewrite best_split_cleaned by done. simpl.
  replace (count_mask df d 0) with (count_mask df d (d - d)) by (f_equal; lia).
  replace (count_mask df 0 d) with (count_mask df 0 (d - 0)) by (f_equal; lia).
  rewrite !count_mask_magnitude by (done || lia). reflexivity.
Qed.

Lemma table_lines_cleaned df ds :
  cleaned df = true → Forall (fun d => 0 ≤ d ≤ max_swing) ds →
  Report.table_lines df ds = Ok (map (Readings.magnitude_line df) ds).
Proof.
  intros Hc. induction ds as [|d ds IH]; intros Hds; [reflexivity|].
  apply Forall_cons in Hds as [Hd Hds]. simpl.
  rewrite sensitivity_row_cleaned by done. simpl. rewrite IH by done. reflexivity.
Qed.

Lemma magnitude_count_mono df d :
  0 ≤ d → Readings.magnitude_count df d ≤ Readings.magnitude_count df (d + 1).
Proof.
  intros Hd. unfold Readings.magnitude_count. apply inj_le, filter_mask_mono.
  intros r _. unfold flips. rewrite !andb_true_iff, !Z.ltb_lt. intros [Hl Hlt].
  split; [done|]. lia.
Qed.

Lemma results_partition (l : list (gmap string cell)) :
  Forall (fun r => clean_row r = true) l →
  (length (filter (fun r => get "result" r = VStr (py "W")) l)
   + length (filter (fun r => get "result" r = VStr (py "L")) l))%nat = length l.
Proof.
  induction 1 as [|r l Hr Hl IH]; [reflexivity|].
  rewrite !filter_cons. unfold clean_row in Hr. rewrite !andb_true_iff in Hr.
  destruct Hr as (_ & Hres). unfold isin in Hres.
  destruct (get "result" r) as [s| | |]; try discriminate.
  apply bool_decide_eq_true in Hres. rewrite !elem_of_cons in Hres.
  destruct Hres as [->|[->|Hn]]; [| |by apply elem_of_nil in Hn].
  - rewrite decide_True by done. rewrite decide_False by discriminate. simpl. lia.
  - rewrite decide_False by discriminate. rewrite decide_True by done. simpl. lia.
Qed.

Lemma detail_lists_Ok df dmax ds :
  record_set df = true → ∃ details, Report.detail_lists df dmax ds = Ok details.
Proof.
  intros Hrs. induction ds as [|d ds [details IH]]; simpl; [eauto|].
  destruct (d <=? dmax); [|eauto].
  rewrite !flipped_record_set by done. simpl. rewrite IH. simpl. eauto.
Qed.

Section Summary.
Context `{Pandas}.

(** The venue column of the output is missing exactly when the input has
    none and no row passed the filters; so is the result column. *)
Lemma clean_filter_missing df_raw start end_ df c :
  clean_filter df_raw start end_ = Ok df →
  rename_label c = c → (∀ c', rename_label c' = c → c' = c) →
  c = "venue" ∨ c = "result" →
  has_column c df = false ↔ rows df = [] ∧ c ∉ columns (normalize_columns df_raw).
Proof.
  intros Hcf Hfix Honly Hc.
  destruct (clean_filter_Ok _ _ _ _ Hcf)
    as (df1 & lo & hi & Hco & _ & _ & _ & Hcase & ->).
  apply coerce_types_Ok in Hco as [Hcols _].
  rewrite has_column_false_iff. cbn [columns rows].
  unfold cleaned_columns_of. split.
  - intros Hv. destruct (filter _ _) as [|r l] eqn:Hf.
    + split; [|by rewrite <- Hcols]. unfold cleaned_rows_of. by rewrite Hf.
    + exfalso. destruct Hcase as [Hres|Hnone]; [|discriminate Hnone].
      apply Hv. rewrite !elem_of_add_column.
      destruct Hc as [->| ->]; auto.
  - intros [Hrows Hraw]. apply cleaned_rows_nil_inv in Hrows. rewrite Hrows.
    by rewrite Hcols.
Qed.

Lemma normalized_label c df :
  rename_label c = c → (∀ c', rename_label c' = c → c' = c) →
  c ∈ columns (normalize_columns df) ↔ c ∈ columns df.
Proof.
  intros Hfix Honly. cbn [normalize_columns columns]. rewrite list_elem_of_fmap. split.
  - intros (c' & Hc' & Hin). symmetry in Hc'. by rewrite <- (Honly c' Hc').
  - intros Hin. exists c. by rewrite Hfix.
Qed.

Lemma take_final_columns df :
  (∀ c, c ∈ ["date"; "opponent"; "goals_for"; "goals_against"] →
     has_column c df = true) →
  Report.take_columns Report.final_columns df
  = if has_column "venue" df
    then if has_column "result" df
         then Ok (MkFrame Report.final_columns
                    (map (project Report.final_columns) (rows df)))
         else Err (KeyError "result")
    else Err (KeyError "venue").
Proof.
  intros Hcols. unfold Report.take_columns, Report.final_columns.
  assert (Hin : ∀ c, c ∈ ["date"; "opponent"; "goals_for"; "goals_against"] →
                c ∈ columns df).
  { intros c Hc. by apply has_column_true, Hcols. }
  pose proof (Hin "date" ltac:(in_list)).
  pose proof (Hin "opponent" ltac:(in_list)).
  pose proof (Hin "goals_for" ltac:(in_list)).
  pose proof (Hin "goals_against" ltac:(in_list)).
  cbn [list_find]. rewrite !decide_False by auto. cbn [fmap option_fmap option_map].
  unfold has_column. destruct (decide ("venue" ∈ columns df)) as [Hv|Hv].
  - rewrite (bool_decide_eq_true_2 ("venue" ∈ columns df)) by done.
    rewrite (decide_False (P := "venue" ∉ columns df)) by auto.
    cbn [fmap option_fmap option_map].
    destruct (decide ("result" ∈ columns df)) as [Hr|Hr].
    + rewrite (bool_decide_eq_true_2 ("result" ∈ columns df)) by done.
      rewrite (decide_False (P := "result" ∉ columns df)) by auto.
      cbn. rewrite !decide_False by auto. reflexivity.
    + rewrite (bool_decide_eq_false_2 ("result" ∈ columns df)) by done.
      rewrite (decide_True (P := "result" ∉ columns df)) by done. reflexivity.
  - rewrite (bool_decide_eq_false_2 ("venue" ∈ columns df)) by done.
    rewrite (decide_True (P := "venue" ∉ columns df)) by done. reflexivity.
Qed.

(** Once [clean_filter] has returned, [main] fails in one case only: the
    cleaned frame lacks the [venue] or the [result] column, and selecting
    the columns of [games_final.csv] raises [KeyError]; this happens
    exactly when no row passed the filters and the input has no venue
    column or no result column.  Otherwise, for [dmax] up to 2^63 - 36, it
    writes both tables, the wins and the losses it prints add up to the
    games, the table has one line for each magnitude from 1 to [dmax],
    and in each line the offense-only count, the defense-only count and
    the best-split count are one and the same number, which does not
    decrease from a line to the next; the best split shown is the
    defense-only one, or (0, 0) when nothing flips. *)
Theorem main_after_clean_filter (df_raw df : DataFrame)
    (season_start season_end : option pystr) (dmax : Z) :
  clean_filter df_raw season_start season_end = Ok df →
  dmax ≤ max_swing →
  (has_column "venue" df && has_column "result" df = false
   ↔ rows df = []
     ∧ ("venue" ∉ columns df_raw ∨ "result" ∉ columns (normalize_columns df_raw)))
  ∧ if has_column "venue" df && has_column "result" df
    then ∃ wins losses details,
           Report.main df_raw season_start season_end dmax
           = Ok (Report.date_strings df,
                 MkFrame Report.final_columns
                   (map (project Report.final_columns)
                        (rows (Report.date_strings df))),
                 (len df, wins, losses),
                 map (Readings.magnitude_line df) (seqZ 1 dmax), details)
           ∧ wins + losses = len df
           ∧ ∀ d, 0 ≤ d →
               Readings.magnitude_count df d ≤ Readings.magnitude_count df (d + 1)
    else ∃ c, c ∈ ["venue"; "result"]
              ∧ Report.main df_raw season_start season_end dmax = Err (KeyError c).
Proof.
  intros Hcf Hdmax.
  assert (Hvenue := clean_filter_missing df_raw season_start season_end df "venue" Hcf
            eq_refl).
  assert (Hresult := clean_filter_missing df_raw season_start season_end df "result" Hcf
            eq_refl).
  assert (Hv1 : ∀ c', rename_label c' = "venue" → c' = "venue").
  { intros c'. unfold rename_label.
    repeat (destruct (decide _); [discriminate|]). done. }
  assert (Hr1 : ∀ c', rename_label c' = "result" →
              c' = "result" ∨ c' = "wl").
  { intros c'. unfold rename_label.
    repeat (destruct (decide _) as [->|]; [try discriminate; auto|]). auto. }
  specialize (Hvenue Hv1 (or_introl eq_refl)).
  rewrite (normalized_label "venue" df_raw eq_refl Hv1) in Hvenue.
  split.
  { rewrite andb_false_iff, Hvenue. split.
    - intros [[Hrows Hv]|Hres]; [by auto|].
      destruct (clean_filter_result _ _ _ _ Hcf Hres) as [Hrows Hn]. auto.
    - intros [Hrows [Hv|Hr]]; [by left|]. right.
      destruct (has_column "result" df) eqn:Hres; [|reflexivity]. exfalso.
      destruct (clean_filter_Ok _ _ _ _ Hcf)
        as (df1 & lo & hi & Hco & _ & _ & _ & _ & ->).
      apply coerce_types_Ok in Hco as [Hcols _]. cbn [rows columns] in *.
      apply cleaned_rows_nil_inv in Hrows. apply has_column_true in Hres.
      cbn [columns] in Hres. unfold cleaned_columns_of in Hres.
      rewrite Hrows, Hcols in Hres. done. }
  clear Hvenue Hresult.
  assert (Hfinal := take_final_columns (Report.date_strings df)
                      (fun c Hc' => clean_filter_columns _ _ _ _ c Hcf Hc')).
  change (has_column "venue" (Report.date_strings df))
    with (has_column "venue" df) in Hfinal.
  change (has_column "result" (Report.date_strings df))
    with (has_column "result" df) in Hfinal.
  destruct (has_column "venue" df) eqn:Hv; cbn [andb].
  2:{ exists "venue". split; [in_list|].
      unfold Report.main. rewrite Hcf. cbn [mbind res_bind Frame.bind].
      by rewrite Hfinal. }
  destruct (has_column "result" df) eqn:Hres.
  2:{ exists "result". split; [in_list|].
      unfold Report.main. rewrite Hcf. cbn [mbind res_bind Frame.bind].
      by rewrite Hfinal. }
  pose proof (cleaned_after_clean_filter _ _ _ _ Hcf Hres) as Hc.
  pose proof (cleaned_record_set _ Hc) as Hrs.
  destruct (detail_lists_Ok df dmax [2; 4] Hrs) as [details Hdet].
  exists (Z.of_nat (length (filter (fun r => get "result" r = VStr (py "W")) (rows df)))),
         (Z.of_nat (length (filter (fun r => get "result" r = VStr (py "L")) (rows df)))),
         details.
  split; [|split].
  - unfold Report.main. rewrite Hcf. cbn [mbind res_bind Frame.bind].
    rewrite Hfinal. cbn [mbind res_bind Frame.bind].
    unfold Report.basics, Report.count_result.
    rewrite (record_set_columns df "result") by (done || unfold engine_columns; in_list).
    unfold Report.sensitivity_table.
    rewrite table_lines_cleaned; [|done|].
    + cbn [mbind res_bind Frame.bind require]. rewrite Hdet. reflexivity.
    + apply Forall_seqZ. intros d Hd. lia.
  - unfold len. rewrite <- Nat2Z.inj_add. f_equal. apply results_partition.
    apply Forall_forall. intros r Hr. by apply (cleaned_rows df).
  - intros d Hd. by apply magnitude_count_mono.
Qed.

End Summary.

(** *** Page selection *)

#[local] Existing Instance Pages.outcome_bind.

Lemma gather_spec parts :
  ∀ idxs out,
    Pages.gather parts idxs = Pages.Done out →
    ∀ i, i ∈ out ↔
         i ∈ idxs
         ∨ ∃ part a b, part ∈ parts ∧ Pages.part_range part = Pages.Done (a, b)
                       ∧ a ≤ i + 1 ≤ b.
Proof.
  induction parts as [|part parts IH]; intros idxs out Hg i; simpl in Hg.
  - injection Hg as <-. split; [by left|].
    intros [Hi|(part & a & b & Hp & _)]; [done|by apply elem_of_nil in Hp].
  - destruct (Pages.part_range part) as [[a b]|e] eqn:Hpart; [|discriminate Hg].
    simpl in Hg. rewrite (IH _ _ Hg i), elem_of_union, elem_of_list_to_set.
    rewrite list_elem_of_fmap. split.
    + intros [[(x & -> & Hx)|Hi]|(p & a' & b' & Hp & Hr & Hab)].
      * right. exists part, a, b. split; [left|]. split; [done|].
        apply elem_of_seqZ in Hx. lia.
      * by left.
      * right. exists p, a', b'. split; [by right|done].
    + intros [Hi|(p & a' & b' & Hp & Hr & Hab)]; [left; by right|].
      apply elem_of_cons in Hp as [->|Hp].
      * rewrite Hpart in Hr. injection Hr as <- <-. left. left.
        exists (i + 1). split; [lia|]. apply elem_of_seqZ. lia.
      * right. exists p, a', b'. done.
Qed.

Lemma sorted_le_lt (l : list Z) :
  StronglySorted Z.le l → NoDup l → StronglySorted Z.lt l.
Proof.
  induction 1 as [|x l Hs IH Hx]; intros Hnd; [constructor|].
  apply NoDup_cons in Hnd as [Hin Hnd]. constructor; [by apply IH|].
  apply Forall_forall. intros y Hy. rewrite Forall_forall in Hx.
  specialize (Hx y Hy). assert (x ≠ y) by (intros ->; done). lia.
Qed.

Lemma parse_pages_arg_given c s total_pages r :
  Pages.parse_pages_arg (Some (c :: s)) total_pages = Pages.Done r →
  ∃ l, r = Some l
    ∧ StronglySorted Z.lt l
    ∧ ∀ i, i ∈ l ↔
           0 ≤ i < total_pages
           ∧ ∃ part a b, part ∈ Pages.split 44 (c :: s)
                         ∧ Pages.part_range part = Pages.Done (a, b)
                         ∧ a ≤ i + 1 ≤ b.
Proof.
  unfold Pages.parse_pages_arg.
  destruct (Pages.gather _ ∅) as [idxs|e] eqn:Hg; [|discriminate]. simpl.
  intros [= <-]. eexists. split; [reflexivity|]. split.
  - apply sorted_le_lt.
    + apply StronglySorted_merge_sort; [intros x y z; lia|intros x y; lia].
    + rewrite merge_sort_Permutation. apply NoDup_filter, NoDup_elements.
  - intros i. rewrite merge_sort_Permutation, list_elem_of_filter, elem_of_elements.
    rewrite (gather_spec _ _ _ Hg i). split.
    + intros [Hr [Hi|Hp]]; [by apply elem_of_empty in Hi|done].
    + intros [Hr Hp]. split; [done|by right].
Qed.

Lemma gather_raises parts idxs e :
  Pages.gather parts idxs = Pages.Raised e → e = Pages.ValueError.
Proof.
  revert idxs. induction parts as [|part parts IH]; intros idxs; simpl; [discriminate|].
  destruct (Pages.part_range part) as [[a b]|e'] eqn:Hpart; simpl; [apply IH|].
  intros [= <-]. unfold Pages.part_range in Hpart.
  destruct (contains _ _).
  - destruct (Pages.split_first _ _) as [x y]. unfold Pages.int_or_raise in Hpart.
    destruct (Pages.py_int x); simpl in Hpart; [|by injection Hpart].
    destruct (Pages.py_int y); simpl in Hpart; [discriminate|by injection Hpart].
  - unfold Pages.int_or_raise in Hpart.
    destruct (Pages.py_int _); simpl in Hpart; [discriminate|by injection Hpart].
Qed.



Lemma index_lookup {A} (pages : list A) (i : Z) (p : A) :
  0 ≤ i → pages !! Z.to_nat i = Some p → Pages.index pages i = Pages.Done p.
Proof.
  intros Hi Hp. unfold Pages.index.
  destruct (Z.ltb_spec i 0); [lia|]. destruct (Z.ltb_spec i 0); [lia|].
  by rewrite Hp.
Qed.

(** Selecting by strictly ascending indices gives a sublist. *)
Lemma each_index_sublist {A} (pages : list A) (idxs : list Z) :
  StronglySorted Z.lt idxs →
  ∀ k, Forall (fun i => Z.of_nat k ≤ i < Z.of_nat (length pages)) idxs →
    ∃ sel, Pages.each (Pages.index pages) idxs = Pages.Done sel
           ∧ sel `sublist_of` drop k pages.
Proof.
  induction 1 as [|i idxs Hs IH Hi]; intros k Hall.
  - exists []. split; [reflexivity|]. apply sublist_nil_l.
  - apply Forall_cons in Hall as [Hik Hall].
    destruct (IH (S (Z.to_nat i))) as (sel & Hsel & Hsub).
    { apply Forall_forall. intros j Hj. rewrite Forall_forall in Hi, Hall.
      specialize (Hi j Hj). specialize (Hall j Hj). lia. }
    destruct (lookup_lt_is_Some_2 pages (Z.to_nat i)) as [p Hp]; [lia|].
    exists (p :: sel). split.
    + cbn [Pages.each]. rewrite (index_lookup pages i p); [|lia|done].
      cbn [mbind Pages.outcome_bind]. rewrite Hsel. reflexivity.
    + assert (Hdrop : drop (Z.to_nat i) pages `sublist_of` drop k pages).
      { replace (Z.to_nat i) with (k + (Z.to_nat i - k))%nat by lia.
        rewrite <- drop_drop. apply sublist_drop. }
      etrans; [|exact Hdrop]. rewrite (drop_S _ _ _ Hp). by apply sublist_skip.
Qed.

Lemma select_pages (pages : list pystr) c s :
  match idxs ← Pages.parse_pages_arg (Some (c :: s)) (Z.of_nat (length pages));
        Pages.each (Pages.index pages) (default [] idxs) with
  | Pages.Done sel => sel `sublist_of` pages
  | Pages.Raised e => e = Pages.ValueError
  end.
Proof.
  destruct (Pages.parse_pages_arg _ _) as [r|e] eqn:Hparse.
  - destruct (parse_pages_arg_given _ _ _ _ Hparse) as (l & -> & Hsorted & Hmem).
    destruct (each_index_sublist pages l Hsorted 0) as (sel & Hsel & Hsublist);
      [|simpl; by rewrite Hsel].
    apply Forall_forall. intros i Hi. apply Hmem in Hi as [Hi _]. lia.
  - cbn [mbind Pages.outcome_bind].
    unfold Pages.parse_pages_arg in Hparse.
    destruct (Pages.gather _ ∅) as [idxs|e'] eqn:Hg; [discriminate|].
    simpl in Hparse. injection Hparse as <-. by apply (gather_raises _ _ _ Hg).
Qed.

(** [extract_pages_text] returns pages of the text split at form feeds:
    none of them blank, in the order of the text and each at most once.
    Without a page list it returns every non-blank page.  Page numbers
    count the non-blank pages only, and it never indexes outside them: it
    raises nothing but the [ValueError] of a part that is no number. *)
Theorem extract_pages_text_pages (full_text pages_arg : option pystr) :
  let pages := filter (fun p => strip p ≠ []) (Pages.split 12 (default [] full_text)) in
  Pages.extract_pages_text full_text pages_arg ≠ Pages.Raised Pages.IndexError
  ∧ (pages_arg = None ∨ pages_arg = Some [] →
     Pages.extract_pages_text full_text pages_arg = Pages.Done pages)
  ∧ ∀ out, Pages.extract_pages_text full_text pages_arg = Pages.Done out →
      out `sublist_of` pages ∧ Forall (fun p => strip p ≠ []) out.
Proof.
  cbv zeta. unfold Pages.extract_pages_text.
  assert (Hsub : ∀ out,
    out `sublist_of` filter (fun p => strip p ≠ []) (Pages.split 12 (default [] full_text)) →
    Forall (fun p => strip p ≠ []) out).
  { intros out Hout. apply Forall_forall. intros p Hp.
    eapply elem_of_sublist in Hout; [|exact Hp].
    by apply list_elem_of_filter in Hout as [Hout _]. }
  destruct (filter _ _) as [|p0 pages'] eqn:Hpages.
  { split; [done|]. split; [done|]. intros out [= <-]. split; [done|constructor]. }
  destruct pages_arg as [[|c s]|].
  - split; [done|]. split; [done|]. intros out [= <-]. split; [done|by apply Hsub].
  - pose proof (select_pages (p0 :: pages') c s) as Hsel.
    destruct (_ ≫= _) as [sel|e]; split.
    + done.
    + split; [intros [?|?]; discriminate|]. intros out [= <-]. split; [done|by apply Hsub].
    + rewrite Hsel. done.
    + split; [intros [?|?]; discriminate|]. intros out [=].
  - split; [done|]. split; [done|]. intros out [= <-]. split; [done|by apply Hsub].
Qed.

(** *** Two labels for one column *)

Lemma renamed_count (a t : string) (l : list string) :
  a ≠ t → rename_label a = t → rename_label t = t →
  (∀ c, rename_label c = t → c = a ∨ c = t) →
  NoDup l →
  length (filter (fun x => x = t) (map rename_label l))
  = ((if decide (a ∈ l) then 1 else 0) + (if decide (t ∈ l) then 1 else 0))%nat.
Proof.
  intros Hne Ha Ht Honly. induction 1 as [|c l Hc Hl IH]; [reflexivity|].
  cbn [map]. rewrite filter_cons.
  assert (Hin : ∀ x, x ∈ c :: l ↔ x = c ∨ x ∈ l) by (intros x; apply elem_of_cons).
  destruct (decide (rename_label c = t)) as [Hr|Hr].
  - cbn [length]. rewrite IH. destruct (Honly c Hr) as [->| ->].
    + rewrite (decide_True (P := a ∈ a :: l)) by (by left).
      rewrite (decide_False (P := a ∈ l)) by done.
      destruct (decide (t ∈ l)) as [Ht'|Ht'].
      * rewrite decide_True by (by right). reflexivity.
      * rewrite decide_False; [reflexivity|]. rewrite Hin. intros [?|?]; done.
    + rewrite (decide_True (P := t ∈ t :: l)) by (by left).
      rewrite (decide_False (P := t ∈ l)) by done.
      destruct (decide (a ∈ l)) as [Ha'|Ha'].
      * rewrite decide_True by (by right). reflexivity.
      * rewrite decide_False; [reflexivity|]. rewrite Hin. intros [?|?]; done.
  - rewrite IH.
    assert (c ≠ a) by (by intros ->). assert (c ≠ t) by (by intros ->).
    destruct (decide (a ∈ l)) as [Ha'|Ha'], (decide (t ∈ l)) as [Ht'|Ht'].
    + rewrite !decide_True by (by right). reflexivity.
    + rewrite decide_True by (by right).
      rewrite decide_False; [reflexivity|]. rewrite Hin. intros [?|?]; done.
    + rewrite decide_False by (rewrite Hin; intros [?|?]; done).
      rewrite decide_True by (by right). reflexivity.
    + rewrite !decide_False by (rewrite Hin; intros [?|?]; done). reflexivity.
Qed.

Lemma unaliased_count (t : string) (l : list string) :
  (∀ c, rename_label c = t → c = t) → NoDup l →
  (length (filter (fun x => x = t) (map rename_label l)) ≤ 1)%nat.
Proof.
  intros Honly. induction 1 as [|c l Hc Hl IH]; simpl; [lia|].
  rewrite filter_cons. destruct (decide (rename_label c = t)) as [Hr|Hr]; [|exact IH].
  apply Honly in Hr as ->. simpl.
  rewrite filter_none; [simpl; lia|].
  intros x Hx Hxt. apply list_elem_of_fmap in Hx as (c' & -> & Hc').
  apply Honly in Hxt as ->. done.
Qed.

Lemma duplicated_normalize (a t : string) (df : DataFrame) :
  a ≠ t → rename_label a = t → rename_label t = t →
  (∀ c, rename_label c = t → c = a ∨ c = t) →
  NoDup (columns df) →
  duplicated t (normalize_columns df) = true ↔ a ∈ columns df ∧ t ∈ columns df.
Proof.
  intros Hne Ha Ht Honly Hnd. unfold duplicated, normalize_columns. cbn [columns].
  rewrite bool_decide_eq_true, (renamed_count a t) by done.
  destruct (decide (a ∈ columns df)), (decide (t ∈ columns df)); simpl; split;
    try lia; try tauto.
Qed.

Lemma rename_label_only (t : string) (c : string) :
  rename_label c = t →
  c = t ∨ (c = "gf" ∧ t = "goals_for") ∨ (c = "ga" ∧ t = "goals_against")
  ∨ (c = "wl" ∧ t = "result") ∨ (c = "team" ∧ t = "opponent").
Proof.
  unfold rename_label. repeat (destruct (decide _) as [->|]; [intros <-; tauto|]).
  intros ->. by left.
Qed.

Lemma duplicated_has_column c df : duplicated c df = true → has_column c df = true.
Proof.
  unfold duplicated, has_column. rewrite !bool_decide_eq_true. intros Hlen.
  destruct (filter (fun x => x = c) (columns df)) as [|x l] eqn:Hf; [simpl in Hlen; lia|].
  assert (Hx : x ∈ filter (fun x => x = c) (columns df)) by (rewrite Hf; left).
  by apply list_elem_of_filter in Hx as [-> Hx].
Qed.

Section Aliases.
Context `{Pandas}.

(** A table read with distinct labels that carries a column under both
    an alias and the name the alias is renamed to cannot be cleaned: with
    [gf] beside [goals_for], or [ga] beside [goals_against],
    [clean_filter] raises [TypeError]; failing that, with [wl] beside
    [result], or [team] beside [opponent], it raises [AttributeError].
    Without such a pair every label the coercions read names one
    column. *)
Theorem alias_clash_errors (df : DataFrame) (start end_ : option pystr) :
  NoDup (columns df) →
  let both a t := a ∈ columns df ∧ t ∈ columns df in
  (both "gf" "goals_for" ∨ both "ga" "goals_against" →
   clean_filter df start end_ = Err TypeError)
  ∧ (¬ both "gf" "goals_for" → ¬ both "ga" "goals_against" →
     both "wl" "result" ∨ both "team" "opponent" →
     clean_filter df start end_ = Err AttributeError)
  ∧ (¬ both "gf" "goals_for" → ¬ both "ga" "goals_against" →
     ¬ both "wl" "result" → ¬ both "team" "opponent" →
     single_columns (normalize_columns df) = true).
Proof.
  intros Hnd. cbv zeta.
  assert (Hdup : ∀ a t, a ≠ t → rename_label a = t → rename_label t = t →
            (∀ c, rename_label c = t → c = a ∨ c = t) →
            duplicated t (normalize_columns df) = true
            ↔ a ∈ columns df ∧ t ∈ columns df).
  { intros a t ? ? ? ?. by apply duplicated_normalize. }
  pose proof (Hdup "gf" "goals_for" ltac:(done) eq_refl eq_refl
    ltac:(intros c Hc; apply rename_label_only in Hc;
          destruct Hc as [?|[[? ?]|[[? ?]|[[? ?]|[? ?]]]]]; try discriminate; auto))
    as Hgf.
  pose proof (Hdup "ga" "goals_against" ltac:(done) eq_refl eq_refl
    ltac:(intros c Hc; apply rename_label_only in Hc;
          destruct Hc as [?|[[? ?]|[[? ?]|[[? ?]|[? ?]]]]]; try discriminate; auto))
    as Hga.
  pose proof (Hdup "wl" "result" ltac:(done) eq_refl eq_refl
    ltac:(intros c Hc; apply rename_label_only in Hc;
          destruct Hc as [?|[[? ?]|[[? ?]|[[? ?]|[? ?]]]]]; try discriminate; auto))
    as Hwl.
  pose proof (Hdup "team" "opponent" ltac:(done) eq_refl eq_refl
    ltac:(intros c Hc; apply rename_label_only in Hc;
          destruct Hc as [?|[[? ?]|[[? ?]|[[? ?]|[? ?]]]]]; try discriminate; auto))
    as Hteam.
  clear Hdup.
  assert (Hcf : ∀ e, coerce_types (normalize_columns df) = Err e →
            clean_filter df start end_ = Err e).
  { intros e He. unfold clean_filter. cbv zeta. by rewrite He. }
  rewrite coerce_types_eq in Hcf.
  assert (Hdate : duplicated "date" (normalize_columns df) = false).
  { unfold duplicated, normalize_columns. cbn [columns].
    apply bool_decide_eq_false_2.
    pose proof (unaliased_count "date" (columns df)) as Hle.
    assert (Honly : ∀ c, rename_label c = "date" → c = "date").
    { intros c. unfold rename_label.
      repeat (destruct (decide _); [discriminate|]). done. }
    specialize (Hle Honly Hnd). lia. }
  rewrite Hdate, andb_false_r in Hcf.
  destruct (duplicated "goals_for" (normalize_columns df)) eqn:Egf.
  { rewrite (duplicated_has_column _ _ Egf) in Hcf. cbn in Hcf.
    apply proj1 in Hgf. specialize (Hgf eq_refl).
    split; [intros _; by apply Hcf|]. split; intros Hn; by destruct Hn. }
  rewrite andb_false_r in Hcf.
  destruct (duplicated "goals_against" (normalize_columns df)) eqn:Ega.
  { rewrite (duplicated_has_column _ _ Ega) in Hcf. cbn in Hcf.
    apply proj1 in Hga. specialize (Hga eq_refl).
    split; [intros _; by apply Hcf|]. split; intros _ Hn; by destruct Hn. }
  rewrite andb_false_r in Hcf.
  assert (Hngf : ¬ ("gf" ∈ columns df ∧ "goals_for" ∈ columns df)).
  { intros Hb. apply Hgf in Hb. discriminate Hb. }
  assert (Hnga : ¬ ("ga" ∈ columns df ∧ "goals_against" ∈ columns df)).
  { intros Hb. apply Hga in Hb. discriminate Hb. }
  split; [intros [?|?]; done|].
  destruct (duplicated "result" (normalize_columns df)) eqn:Ewl.
  { rewrite (duplicated_has_column _ _ Ewl) in Hcf. cbn in Hcf.
    apply proj1 in Hwl. specialize (Hwl eq_refl).
    split; [intros _ _ _; by apply Hcf|]. intros _ _ Hn; by destruct Hn. }
  rewrite andb_false_r in Hcf.
  destruct (duplicated "opponent" (normalize_columns df)) eqn:Eteam.
  { rewrite (duplicated_has_column _ _ Eteam) in Hcf. cbn in Hcf.
    apply proj1 in Hteam. specialize (Hteam eq_refl).
    split; [intros _ _ _; by apply Hcf|]. intros _ _ _ Hn; by destruct Hn. }
  split.
  - intros _ _ [Hb|Hb]; [apply Hwl in Hb|apply Hteam in Hb]; discriminate Hb.
  - intros _ _ _ _. unfold single_columns. cbn [forallb].
    by rewrite Egf, Ega, Ewl, Eteam.
Qed.

End Aliases.

(** *** Candidate rows of the schedule parser *)

Lemma search_Some_run r text m :
  search r text = Some m →
  ∃ j st, st ∈ run r text (MState j []) ∧ m = RMatch j (pos st) (caps st).
Proof.
  unfold search. intros Hs. apply search_from_Some in Hs as [j Hm].
  unfold match_at in Hm. destruct (run r text (MState j [])) as [|st l] eqn:Hrun;
    [discriminate|].
  injection Hm as <-. exists j, st. split; [|reflexivity]. rewrite Hrun. left.
Qed.

Lemma elem_of_run_Grp i r text st st' :
  st' ∈ run (Grp i r) text st →
  ∃ s1, s1 ∈ run r text st ∧ st' = MState (pos s1) ((i, (pos st, pos s1)) :: caps s1).
Proof.
  simpl. intros Hs. apply list_elem_of_fmap in Hs as (s1 & -> & Hs1). eauto.
Qed.

Lemma elem_of_run_Alt r1 r2 text st st' :
  st' ∈ run (Alt r1 r2) text st → st' ∈ run r1 text st ∨ st' ∈ run r2 text st.
Proof. simpl. intros Hs. by apply elem_of_app in Hs. Qed.

Lemma elem_of_run_Cls p text st st' :
  st' ∈ run (Cls p) text st →
  at_pos text (pos st) p = true ∧ st' = MState (S (pos st)) (caps st).
Proof.
  simpl. destruct (at_pos text (pos st) p); intros Hs; [|by apply elem_of_nil in Hs].
  apply list_elem_of_singleton in Hs. done.
Qed.

Lemma elem_of_run_Chr c text st st' :
  st' ∈ run (Chr c) text st →
  text !! pos st = Some c ∧ st' = MState (S (pos st)) (caps st).
Proof.
  simpl. unfold at_pos. destruct (text !! pos st) as [d|] eqn:Hd;
    [|intros Hs; by apply elem_of_nil in Hs].
  destruct (N.eqb_spec c d) as [->|]; intros Hs; [|by apply elem_of_nil in Hs].
  apply list_elem_of_singleton in Hs. done.
Qed.

Lemma elem_of_run_WordB text st st' : st' ∈ run WordB text st → st' = st.
Proof.
  simpl. destruct (xorb _ _); intros Hs; [|by apply elem_of_nil in Hs].
  by apply list_elem_of_singleton in Hs.
Qed.

Lemma elem_of_run_Eps text st st' : st' ∈ run Eps text st → st' = st.
Proof. simpl. intros Hs. by apply list_elem_of_singleton in Hs. Qed.

Lemma elem_of_rep_ends start lo n e :
  e ∈ rep_ends start lo n → ∃ k, e = (start + k)%nat ∧ (lo ≤ k ≤ n)%nat.
Proof.
  induction n as [|n IH]; simpl.
  - destruct (decide (lo = 0%nat)) as [->|]; intros He; [|by apply elem_of_nil in He].
    apply list_elem_of_singleton in He as ->. exists 0%nat. lia.
  - destruct (decide (lo ≤ S n)%nat); intros He; [|by apply elem_of_nil in He].
    apply elem_of_cons in He as [->|He].
    + exists (S n). lia.
    + destruct (IH He) as (k & -> & Hk). exists k. lia.
Qed.

Lemma elem_of_run_Rep p lo hi text st st' :
  st' ∈ run (Rep p lo hi) text st →
  caps st' = caps st
  ∧ ∃ k, pos st' = (pos st + k)%nat ∧ (lo ≤ k)%nat
         ∧ (k ≤ cap_len hi (length (take_while p (drop (pos st) text))))%nat.
Proof.
  simpl. intros Hs. apply list_elem_of_fmap in Hs as (e & -> & He).
  apply elem_of_rep_ends in He as (k & -> & Hk). simpl. split; [done|].
  exists k. lia.
Qed.

Lemma take_while_Forall p (l : pystr) : Forall (fun c => p c = true) (take_while p l).
Proof.
  induction l as [|c l IH]; simpl; [constructor|].
  destruct (p c) eqn:Hc; constructor; done.
Qed.

Lemma take_take_while p (l : pystr) k :
  (k ≤ length (take_while p l))%nat → take k l = take k (take_while p l).
Proof.
  revert k. induction l as [|c l IH]; intros k; simpl; [done|].
  destruct (p c); simpl.
  - destruct k as [|k]; [done|]. simpl. intros Hk. f_equal. apply IH. lia.
  - intros Hk. by replace k with 0%nat by lia.
Qed.

(** The text a bounded repetition took: its length and its class. *)
Lemma slice_rep p (text : pystr) a k :
  (k ≤ length (take_while p (drop a text)))%nat →
  length (slice text a (a + k)) = k
  ∧ Forall (fun c => p c = true) (slice text a (a + k)).
Proof.
  intros Hk. unfold slice. replace (a + k - a)%nat with k by lia.
  rewrite (take_take_while p) by done. split.
  - rewrite length_take. lia.
  - apply Forall_take, take_while_Forall.
Qed.

Lemma cap_len_le hi n : (cap_len hi n ≤ n)%nat.
Proof. destruct hi; simpl; lia. Qed.

Lemma cap_len_some h n : (cap_len (Some h) n ≤ h)%nat.
Proof. simpl. lia. Qed.

Lemma int_of_digits_two (s : pystr) :
  (length s ≤ 2)%nat → Forall (fun c => is_digit c = true) s →
  0 ≤ int_of_digits s ≤ 99.
Proof.
  intros Hlen Hall. unfold int_of_digits.
  destruct s as [|a [|b [|c s]]]; simpl in *; [lia| | |lia].
  - apply Forall_cons in Hall as [Ha _].
    unfold is_digit, in_range in Ha. apply andb_true_iff in Ha as [Ha1 Ha2].
    apply N.leb_le in Ha1, Ha2. lia.
  - apply Forall_cons in Hall as [Ha Hall]. apply Forall_cons in Hall as [Hb _].
    unfold is_digit, in_range in Ha, Hb.
    apply andb_true_iff in Ha as [Ha1 Ha2]. apply andb_true_iff in Hb as [Hb1 Hb2].
    apply N.leb_le in Ha1, Ha2, Hb1, Hb2. lia.
Qed.

(** The result letter of a match of [RX_RES], upper-cased. *)
Lemma res_match_letter text m :
  search OcrAndParse.RX_RES text = Some m →
  upper (group text m 1) ∈ [py "W"; py "L"; py "T"].
Proof.
  intros Hs. apply search_Some_run in Hs as (j & st & Hst & ->).
  unfold OcrAndParse.RX_RES, seqs, alts in Hst. simpl foldr in Hst.
  simpl fold_left in Hst.
  apply elem_of_run_Seq in Hst as (s1 & H1 & Hst).
  apply elem_of_run_WordB in H1 as ->.
  apply elem_of_run_Seq in Hst as (s2 & H2 & Hst).
  apply elem_of_run_Seq in Hst as (s3 & H3 & Hst).
  apply elem_of_run_WordB in H3 as ->. apply elem_of_run_Eps in Hst as ->.
  apply elem_of_run_Grp in H2 as (s & Hs & ->). cbn [pos caps] in *.
  assert (Hlit : ∀ l, s ∈ run (lit_i l) text (MState j []) →
            ∀ c, py l = [c] →
            ∃ d, text !! j = Some d ∧ to_lower d = to_lower c ∧ pos s = S j).
  { intros l Hl c Hc. unfold lit_i, seqs in Hl. rewrite Hc in Hl. simpl foldr in Hl.
    apply elem_of_run_Seq in Hl as (s' & Hl & He). apply elem_of_run_Eps in He as ->.
    apply elem_of_run_Cls in Hl as [Hat ->]. cbn [pos] in *.
    unfold at_pos in Hat. destruct (text !! j) as [d|]; [|discriminate].
    exists d. apply N.eqb_eq in Hat. done. }
  assert (∃ d, text !! j = Some d ∧ pos s = S j
               ∧ (to_lower d = 119 ∨ to_lower d = 108 ∨ to_lower d = 116)%N)
    as (d & Hd & Hpos & Hcase).
  { apply elem_of_run_Alt in Hs as [Hs|Hs]; [apply elem_of_run_Alt in Hs as [Hs|Hs]|].
    - destruct (Hlit "W" Hs 87%N eq_refl) as (d & ? & Hd & ?). exists d.
      rewrite Hd. vm_compute to_lower. auto.
    - destruct (Hlit "L" Hs 76%N eq_refl) as (d & ? & Hd & ?). exists d.
      rewrite Hd. vm_compute to_lower. auto.
    - destruct (Hlit "T" Hs 84%N eq_refl) as (d & ? & Hd & ?). exists d.
      rewrite Hd. vm_compute to_lower. auto. }
  unfold group. cbn [m_caps list_find fst]. rewrite decide_True by done.
  cbn [fmap option_fmap option_map prod_map]. rewrite Hpos. unfold slice.
  replace (S j - j)%nat with 1%nat by lia.
  rewrite (take_S_r _ 0%nat d); [|by rewrite lookup_drop, Nat.add_0_r].
  rewrite take_0. cbn [app upper map].
  assert (Hup : to_upper d = 87%N ∨ to_upper d = 76%N ∨ to_upper d = 84%N).
  { unfold to_lower, to_upper, is_upper, is_lower, in_range in *.
    destruct (65 <=? d)%N eqn:E1, (d <=? 90)%N eqn:E2, (97 <=? d)%N eqn:E3,
      (d <=? 122)%N eqn:E4; simpl in *;
      rewrite ?N.leb_le, ?N.leb_gt in *; lia. }
  destruct Hup as [-> | [-> | ->]]; in_list.
Qed.

(** The two numbers of a match of [RX_SCORE]. *)
Lemma score_match_numbers text m :
  search OcrAndParse.RX_SCORE text = Some m →
  0 ≤ int_of_digits (group text m 1) ≤ 99
  ∧ 0 ≤ int_of_digits (group text m 2) ≤ 99.
Proof.
  intros Hs. apply search_Some_run in Hs as (j & st & Hst & ->).
  unfold OcrAndParse.RX_SCORE, seqs in Hst. simpl foldr in Hst.
  apply elem_of_run_Seq in Hst as (s1 & H1 & Hst).
  apply elem_of_run_NotBehind in H1 as [-> _].
  apply elem_of_run_Seq in Hst as (s2 & H2 & Hst).
  apply elem_of_run_Grp in H2 as (g1 & Hg1 & ->).
  apply elem_of_run_Rep in Hg1 as (Hc1 & k1 & Hp1 & Hlo1 & Hhi1).
  apply elem_of_run_Seq in Hst as (s3 & H3 & Hst).
  apply elem_of_run_Rep in H3 as (Hc3 & _).
  apply elem_of_run_Seq in Hst as (s4 & H4 & Hst).
  apply elem_of_run_Chr in H4 as (_ & ->).
  apply elem_of_run_Seq in Hst as (s5 & H5 & Hst).
  apply elem_of_run_Rep in H5 as (Hc5 & _).
  apply elem_of_run_Seq in Hst as (s6 & H6 & Hst).
  apply elem_of_run_Grp in H6 as (g2 & Hg2 & ->).
  apply elem_of_run_Rep in Hg2 as (Hc2 & k2 & Hp2 & Hlo2 & Hhi2).
  apply elem_of_run_Seq in Hst as (s7 & H7 & Hst).
  apply elem_of_run_NotAhead in H7 as [-> _]. apply elem_of_run_Eps in Hst as ->.
  cbn [pos caps] in *. rewrite Hc2, Hc5, Hc3. cbn [caps].
  unfold group. cbn [m_caps list_find fst].
  rewrite decide_False by done. rewrite decide_True by done.
  cbn [fmap option_fmap option_map prod_map list_find fst].
  rewrite decide_True by done. cbn [fmap option_fmap option_map prod_map].
  rewrite Hp1, Hp2.
  pose proof (cap_len_some 2 (length (take_while is_digit (drop j text)))) as Hb1.
  pose proof (cap_len_le (Some 2%nat) (length (take_while is_digit (drop j text)))) as Hl1.
  pose proof (cap_len_some 2 (length (take_while is_digit (drop (pos s5) text)))) as Hb2.
  pose proof (cap_len_le (Some 2%nat)
                (length (take_while is_digit (drop (pos s5) text)))) as Hl2.
  destruct (slice_rep is_digit text j k1 ltac:(lia)) as [Hlen1 Hall1].
  destruct (slice_rep is_digit text (pos s5) k2 ltac:(lia)) as [Hlen2 Hall2].
  cbn [id snd]. split; apply int_of_digits_two; (lia || done).
Qed.

Lemma venue_of_values text :
  OcrAndParse.venue_of text ∈ [py "Neutral"; py "Away"; py "Home"; []].
Proof.
  unfold OcrAndParse.venue_of. cbv zeta.
  repeat (destruct (contains _ _); [in_list|]).
  destruct (search _ _); [|in_list].
  repeat (destruct (decide _); [in_list|]). in_list.
Qed.

(** Every candidate row the scan appends carries the text it was read
    from and the page number, a result that is W, L or T in upper case,
    both goals between 0 and 99, and a venue that is Neutral, Away, Home
    or empty; the date text and the opponent are strings.  So the result
    filter of [main] keeps every candidate, and the goal filter is the
    only one that looks at the numbers. *)
Theorem parse_text_candidate (pg_idx : Z) (text : pystr) (r : gmap string cell) :
  OcrAndParse.parse_text pg_idx text = Some r →
  text ≠ []
  ∧ get "raw" r = VStr text ∧ get "page" r = VNum pg_idx
  ∧ isin [py "W"; py "L"; py "T"] (get "result" r) = true
  ∧ between 0 99 (get "goals_for" r) = true
  ∧ between 0 99 (get "goals_against" r) = true
  ∧ isin [py "Neutral"; py "Away"; py "Home"; []] (get "venue" r) = true
  ∧ is_str (get "date_raw" r) = true ∧ is_str (get "opponent" r) = true.
Proof.
  unfold OcrAndParse.parse_text. destruct (decide (text = [])) as [|Hne]; [discriminate|].
  cbv zeta.
  destruct (search OcrAndParse.RX_RES text) as [m_res|] eqn:Hres; [|discriminate].
  destruct (search OcrAndParse.RX_SCORE text) as [m_sc|] eqn:Hsc; [|discriminate].
  destruct (match search OcrAndParse.RX_DATE_NUM text with
            | Some m => Some m
            | None => search OcrAndParse.RX_DATE_NAME text
            end) as [m_date|]; [|discriminate].
  intros [= <-]. split; [done|].
  pose proof (res_match_letter _ _ Hres) as Hletter.
  destruct (score_match_numbers _ _ Hsc) as [Hgf Hga].
  pose proof (venue_of_values text) as Hvenue.
  unfold get. cbn [list_to_map foldr uncurry].
  repeat first [rewrite lookup_insert_eq | rewrite lookup_insert_ne by discriminate].
  cbn [default from_option id isin between is_str].
  repeat split.
  - by apply bool_decide_eq_true.
  - apply andb_true_iff. split; apply Z.leb_le; lia.
  - apply andb_true_iff. split; apply Z.leb_le; lia.
  - by apply bool_decide_eq_true.
Qed.

(** *** The outcomes of the extraction [main] *)

Section Extraction.
Context `{Pandas} `{OcrAndParse.Unicodedata}.

Lemma parse_schedule_rows_nil pages :
  rows (OcrAndParse.parse_schedule_from_text pages) = []
  ↔ OcrAndParse.parse_pages 1 pages = [].
Proof.
  unfold OcrAndParse.parse_schedule_from_text.
  destruct (OcrAndParse.parse_pages 1 pages) as [|r l]; [done|].
  split; [|discriminate]. intros Hr. by apply dedup_seen_nil_inv in Hr.
Qed.

Lemma parse_schedule_columns pages :
  OcrAndParse.parse_pages 1 pages ≠ [] →
  columns (OcrAndParse.parse_schedule_from_text pages) = OcrAndParse.candidate_columns.
Proof.
  unfold OcrAndParse.parse_schedule_from_text.
  by destruct (OcrAndParse.parse_pages 1 pages).
Qed.

Lemma parse_text_form pg_idx text r :
  OcrAndParse.parse_text pg_idx text = Some r →
  ∃ a b c d e f g h,
    r = list_to_map [("page", a); ("date_raw", b); ("opponent", c); ("venue", d);
                     ("result", e); ("goals_for", f); ("goals_against", g);
                     ("raw", h)].
Proof.
  unfold OcrAndParse.parse_text. destruct (decide (text = [])); [discriminate|].
  cbv zeta. destruct (search OcrAndParse.RX_RES text); [|discriminate].
  destruct (search OcrAndParse.RX_SCORE text); [|discriminate].
  destruct (match search OcrAndParse.RX_DATE_NUM text with
            | Some m => Some m
            | None => search OcrAndParse.RX_DATE_NAME text
            end); [|discriminate].
  intros [= <-]. by repeat eexists.
Qed.

Lemma parse_text_page_raw pg_idx text r :
  OcrAndParse.parse_text pg_idx text = Some r →
  get "page" r = VNum pg_idx ∧ get "raw" r = VStr text.
Proof.
  unfold OcrAndParse.parse_text. destruct (decide (text = [])); [discriminate|].
  cbv zeta. destruct (search OcrAndParse.RX_RES text); [|discriminate].
  destruct (search OcrAndParse.RX_SCORE text); [|discriminate].
  destruct (match search OcrAndParse.RX_DATE_NUM text with
            | Some m => Some m
            | None => search OcrAndParse.RX_DATE_NAME text
            end); [|discriminate].
  intros [= <-]. unfold get. cbn [list_to_map foldr uncurry].
  repeat first [rewrite lookup_insert_eq | rewrite lookup_insert_ne by discriminate].
  done.
Qed.

Lemma candidate_key_form (a b c d e f g h : cell) :
  key_of OcrAndParse.candidate_columns
    (list_to_map [("page", a); ("date_raw", b); ("opponent", c); ("venue", d);
                  ("result", e); ("goals_for", f); ("goals_against", g);
                  ("raw", h)])
  = [a; b; c; d; e; f; g; h].
Proof.
  unfold key_of, OcrAndParse.candidate_columns, get.
  cbn [map list_to_map foldr uncurry].
  repeat first [rewrite lookup_insert_eq | rewrite lookup_insert_ne by discriminate].
  reflexivity.
Qed.

(** Two candidate rows that agree on all eight fields are one row. *)
Lemma candidate_key_inj pg1 text1 pg2 text2 r1 r2 :
  OcrAndParse.parse_text pg1 text1 = Some r1 →
  OcrAndParse.parse_text pg2 text2 = Some r2 →
  key_of OcrAndParse.candidate_columns r1 = key_of OcrAndParse.candidate_columns r2 →
  r1 = r2.
Proof.
  intros H1 H2 Hk.
  apply parse_text_form in H1 as (a1 & b1 & c1 & d1 & e1 & f1 & g1 & h1 & ->).
  apply parse_text_form in H2 as (a2 & b2 & c2 & d2 & e2 & f2 & g2 & h2 & ->).
  rewrite !candidate_key_form in Hk. by injection Hk as -> -> -> -> -> -> -> ->.
Qed.

(** The rows the scan appends: from the page at position [i] of the
    list, counted from [k], one for each candidate text that parses. *)
Lemma elem_of_parse_pages k pages r :
  r ∈ OcrAndParse.parse_pages k pages ↔
  ∃ (i : nat) pg text,
    pages !! i = Some pg
    ∧ text ∈ OcrAndParse.candidate_texts
               (map (fun x => OcrAndParse.clean (Some x)) (OcrAndParse.splitlines pg))
    ∧ OcrAndParse.parse_text (k + Z.of_nat i) text = Some r.
Proof.
  revert k. induction pages as [|pg pages IH]; intros k.
  - simpl. split; [intros Hr; by apply elem_of_nil in Hr|].
    intros (i & pg & text & Hi & _). by rewrite lookup_nil in Hi.
  - cbn [OcrAndParse.parse_pages]. rewrite elem_of_app, IH.
    unfold OcrAndParse.parse_page. cbv zeta. rewrite list_elem_of_omap. split.
    + intros [(text & Ht & Hp)|(i & pg' & text & Hi & Ht & Hp)].
      * exists 0%nat, pg, text. rewrite Z.add_0_r. done.
      * exists (S i), pg', text. split; [done|]. split; [done|].
        rewrite <- Hp. f_equal. lia.
    + intros (i & pg' & text & Hi & Ht & Hp). destruct i as [|i].
      * left. injection Hi as <-. exists text. rewrite Z.add_0_r in Hp. done.
      * right. exists i, pg', text. split; [done|]. split; [done|].
        rewrite <- Hp. f_equal. lia.
Qed.

(** [parse_schedule_from_text] returns each candidate row once: its rows
    are pairwise distinct, and they are exactly the rows that the
    candidate texts of the pages parse to, a candidate text being a
    cleaned line or a cleaned line joined to the next one.  The page
    field of a row is the position of its page in the list handed over,
    counted from 1.  Rows are removed only when all eight fields agree:
    two candidates that differ in the text they were read from both
    stay. *)
Theorem parse_schedule_rows (pages : list pystr) (r : gmap string cell) :
  NoDup (rows (OcrAndParse.parse_schedule_from_text pages))
  ∧ (r ∈ rows (OcrAndParse.parse_schedule_from_text pages) ↔
     ∃ (i : nat) pg text,
       pages !! i = Some pg
       ∧ text ∈ OcrAndParse.candidate_texts
                  (map (fun x => OcrAndParse.clean (Some x)) (OcrAndParse.splitlines pg))
       ∧ OcrAndParse.parse_text (Z.of_nat i + 1) text = Some r
       ∧ get "page" r = VNum (Z.of_nat i + 1) ∧ get "raw" r = VStr text).
Proof.
  assert (Hrows : rows (OcrAndParse.parse_schedule_from_text pages)
                  = dedup_seen OcrAndParse.candidate_columns []
                      (OcrAndParse.parse_pages 1 pages)).
  { unfold OcrAndParse.parse_schedule_from_text.
    by destruct (OcrAndParse.parse_pages 1 pages). }
  rewrite Hrows. clear Hrows.
  assert (Hparsed : ∀ x, x ∈ OcrAndParse.parse_pages 1 pages →
            ∃ pg text, OcrAndParse.parse_text pg text = Some x).
  { intros x Hx. apply elem_of_parse_pages in Hx as (i & pg & text & _ & _ & Hp). eauto. }
  assert (Hsub : ∀ x, x ∈ dedup_seen OcrAndParse.candidate_columns []
                            (OcrAndParse.parse_pages 1 pages) →
            x ∈ OcrAndParse.parse_pages 1 pages).
  { intros x Hx. by apply elem_of_dedup_seen in Hx as [Hx _]. }
  split.
  - eapply NoDup_fmap_1, dedup_seen_keys_NoDup.
  - transitivity (r ∈ OcrAndParse.parse_pages 1 pages).
    + split; [apply Hsub|]. intros Hr.
      destruct (dedup_seen_complete OcrAndParse.candidate_columns [] _ _ Hr)
        as [Hin|Hin]; [by apply elem_of_nil in Hin|].
      apply list_elem_of_fmap in Hin as (r' & Hk & Hr').
      destruct (Hparsed r Hr) as (pg1 & t1 & Hp1).
      destruct (Hparsed r' (Hsub r' Hr')) as (pg2 & t2 & Hp2).
      by rewrite (candidate_key_inj _ _ _ _ _ _ Hp1 Hp2 Hk).
    + rewrite elem_of_parse_pages. split.
      * intros (i & pg & text & Hi & Ht & Hp). exists i, pg, text.
        replace (Z.of_nat i + 1) with (1 + Z.of_nat i) by lia.
        split; [done|]. split; [done|]. split; [done|].
        by apply parse_text_page_raw.
      * intros (i & pg & text & Hi & Ht & Hp & _). exists i, pg, text.
        replace (1 + Z.of_nat i) with (Z.of_nat i + 1) by lia. done.
Qed.

(** From the page texts on, [main] stops with exit code 2 exactly when
    it is given no page, and with exit code 3 exactly when there are pages
    and the scan finds no candidate in any of them.  With candidates, a
    season start that [pd.Timestamp] rejects raises [ValueError], and so
    does a season end it rejects when no start is set.  With candidates
    and no season bound it returns, also when no candidate passes the
    filters and the table it writes has no row.  Whenever it returns, the
    columns of the table are the eight output columns and its dates are
    the date strings of timestamps in ascending order, all within the
    bounds that are set. *)
Theorem extraction_main_outcomes (pages : list pystr)
    (season_start season_end : option pystr) :
  (OcrAndParse.main pages season_start season_end = Err (SystemExit 2) ↔ pages = [])
  ∧ (OcrAndParse.main pages season_start season_end = Err (SystemExit 3)
     ↔ pages ≠ [] ∧ OcrAndParse.parse_pages 1 pages = [])
  ∧ (pages ≠ [] → OcrAndParse.parse_pages 1 pages ≠ [] →
     (bound_of season_start = Err ValueError →
      OcrAndParse.main pages season_start season_end = Err ValueError)
     ∧ (bound_of season_start = Ok None → bound_of season_end = Err ValueError →
        OcrAndParse.main pages season_start season_end = Err ValueError)
     ∧ (bound_of season_start = Ok None → bound_of season_end = Ok None →
        ∃ out, OcrAndParse.main pages season_start season_end = Ok out))
  ∧ (∀ out, OcrAndParse.main pages season_start season_end = Ok out →
       columns out = OcrAndParse.output_columns
       ∧ ∃ lo hi ts,
           bound_of season_start = Ok lo ∧ bound_of season_end = Ok hi
           ∧ map (get "date") (rows out) = map (fun t => VStr (pd_date_str t)) ts
           ∧ StronglySorted Z.le ts
           ∧ Forall (Readings.within lo hi) ts).
Proof.
  unfold OcrAndParse.main.
  destruct (decide (pages = [])) as [->|Hpages].
  { cbn. split; [done|]. split; [split; [discriminate|by intros [? _]]|].
    split; [done|]. intros out [=]. }
  rewrite (bool_decide_eq_false_2 (pages = [])) by done.
  cbn [negb require mbind res_bind Frame.bind].
  destruct (decide (OcrAndParse.parse_pages 1 pages = [])) as [Hnone|Hsome].
  { rewrite bool_decide_eq_true_2 by (by apply parse_schedule_rows_nil).
    cbn. split; [split; [discriminate|done]|]. split; [done|].
    split; [done|]. intros out [=]. }
  rewrite bool_decide_eq_false_2 by (by rewrite parse_schedule_rows_nil).
  cbn [negb require mbind res_bind Frame.bind].
  rewrite window_after.
  destruct (bound_of season_start) as [lo|e] eqn:Hlo.
  2:{ cbn. split; [split; [intros [= ->]|done]|].
      { destruct season_start as [[|c s]|]; try discriminate Hlo.
        simpl in Hlo. destruct (pd_Timestamp (c :: s)); discriminate Hlo. }
      split.
      { split; [intros [= ->]|by intros [_ ?]].
        destruct season_start as [[|c s]|]; try discriminate Hlo.
        simpl in Hlo. destruct (pd_Timestamp (c :: s)); discriminate Hlo. }
      split; [|intros out [=]]. intros _ _.
      split; [by intros [= ->]|]. split; discriminate. }
  cbn [mbind res_bind Frame.bind]. rewrite window_before.
  destruct (bound_of season_end) as [hi|e] eqn:Hhi.
  2:{ cbn. split; [split; [intros [= ->]|done]|].
      { destruct season_end as [[|c s]|]; try discriminate Hhi.
        simpl in Hhi. destruct (pd_Timestamp (c :: s)); discriminate Hhi. }
      split.
      { split; [intros [= ->]|by intros [_ ?]].
        destruct season_end as [[|c s]|]; try discriminate Hhi.
        simpl in Hhi. destruct (pd_Timestamp (c :: s)); discriminate Hhi. }
      split; [|intros out [=]]. intros _ _.
      split; [discriminate|]. split; [by intros _ [= ->]|discriminate]. }
  cbn [mbind res_bind Frame.bind]. unfold sort_values_date.
  rewrite !has_column_select.
  rewrite (proj2 (has_column_true "date" _)) by (apply elem_of_add_column; by left).
  cbn [mbind res_bind Frame.bind].
  split; [split; [discriminate|done]|].
  split; [split; [discriminate|by intros [_ ?]]|].
  split.
  { intros _ _. split; [discriminate|]. split; [discriminate|]. eauto. }
  intros out [= <-]. split; [reflexivity|].
  set (sorted := sort_by_date _).
  exists lo, hi, (map (fun r => Readings.time_of (get "date" r)) sorted).
  split; [done|]. split; [done|].
  assert (Hrows : ∀ r, r ∈ sorted →
            is_time (get "date" r) = true
            ∧ after lo (get "date" r) = true ∧ before hi (get "date" r) = true).
  { intros r Hr. unfold sorted in Hr. rewrite sort_by_date_Permutation in Hr.
    cbn [rows select] in Hr.
    apply list_elem_of_filter in Hr as [_ Hr].
    apply list_elem_of_filter in Hr as [_ Hr].
    apply list_elem_of_filter in Hr as [Hbefore Hr].
    apply list_elem_of_filter in Hr as [Hafter Hr].
    apply list_elem_of_filter in Hr as [Hnan Hr].
    apply elem_of_zip_with in Hr as (r0 & v & -> & Hr0 & Hv).
    rewrite get_insert_eq in *. split; [|done].
    apply to_datetime_kind in Hv.
    destruct v; try discriminate Hv; [reflexivity|].
    by rewrite bool_decide_eq_true_2 in Hnan. }
  split; [|split].
  - cbn [rows map_column]. rewrite !map_map. apply map_ext_in. intros r Hr.
    apply list_elem_of_In, Hrows in Hr as [Ht _].
    rewrite get_insert_eq.
    rewrite get_project by (unfold OcrAndParse.output_columns; in_list).
    by destruct (get "date" r).
  - apply dates_sorted.
    + apply Forall_forall. intros r Hr. by apply Hrows.
    + apply sort_by_date_sorted.
  - apply Forall_fmap, Forall_forall. intros r Hr. simpl.
    apply Hrows in Hr as (Ht & Hafter & Hbefore).
    unfold after, before, time_ge, time_le in *.
    destruct (get "date" r) as [s|n|t|]; try discriminate Ht. simpl.
    split; intros x ->; [apply Z.leb_le in Hafter|apply Z.leb_le in Hbefore]; done.
Qed.

End Extraction.

(** *** Coercing twice *)

Lemma drop_while_clear p (s : pystr) : Readings.clear_of p (head s) → drop_while p s = s.
Proof. destruct s as [|c s]; simpl; [done|]. by intros ->. Qed.

Lemma clear_head_drop_while p (s : pystr) : Readings.clear_of p (head (drop_while p s)).
Proof.
  induction s as [|c s IH]; simpl; [done|]. by destruct (p c) eqn:Hc; [|simpl].
Qed.

Lemma strip_by_clear p (s : pystr) :
  Readings.clear_of p (head s) → Readings.clear_of p (last s) → strip_by p s = s.
Proof.
  intros Hh Hl. unfold strip_by, lstrip_by, rstrip_by.
  rewrite (drop_while_clear p s) by done.
  rewrite drop_while_clear by (by rewrite head_reverse).
  apply reverse_involutive.
Qed.

Lemma strip_by_ends p (s : pystr) :
  Readings.clear_of p (head (strip_by p s)) ∧ Readings.clear_of p (last (strip_by p s)).
Proof.
  unfold strip_by, lstrip_by. set (t := drop_while p s). split.
  - destruct (rstrip_by_split p t) as [suf Hsuf].
    pose proof (clear_head_drop_while p s) as Hh. fold t in Hh.
    destruct (rstrip_by p t) as [|c w]; [done|]. by rewrite Hsuf in Hh.
  - unfold rstrip_by. rewrite last_reverse. apply clear_head_drop_while.
Qed.

Lemma strip_by_idemp p (s : pystr) : strip_by p (strip_by p s) = strip_by p s.
Proof. destruct (strip_by_ends p s). by apply strip_by_clear. Qed.

Lemma to_upper_idemp c : to_upper (to_upper c) = to_upper c.
Proof.
  unfold to_upper, is_lower, in_range.
  destruct ((97 <=? c)%N && (c <=? 122)%N) eqn:Hc; [|by rewrite Hc].
  apply andb_prop in Hc as [H1 H2]. apply N.leb_le in H1, H2.
  destruct (97 <=? c - 32)%N eqn:H3; [|reflexivity].
  apply N.leb_le in H3. lia.
Qed.

Lemma to_lower_idemp c : to_lower (to_lower c) = to_lower c.
Proof.
  unfold to_lower, is_upper, in_range.
  destruct ((65 <=? c)%N && (c <=? 90)%N) eqn:Hc; [|by rewrite Hc].
  apply andb_prop in Hc as [H1 H2]. apply N.leb_le in H1, H2.
  destruct (c + 32 <=? 90)%N eqn:H3; [|by rewrite andb_false_r].
  apply N.leb_le in H3. lia.
Qed.

(** [result]: upper-casing and stripping again changes nothing. *)
Lemma strip_upper_idemp (s : pystr) :
  strip (upper (strip (upper s))) = strip (upper s).
Proof.
  assert (Hfix : upper (strip (upper s)) = strip (upper s)).
  { unfold upper at 1. rewrite <- (map_id (strip (upper s))) at 2.
    apply map_ext_in. intros c Hc. apply list_elem_of_In, elem_of_strip_by in Hc.
    apply list_elem_of_fmap in Hc as (d & -> & _). apply to_upper_idemp. }
  rewrite Hfix. apply strip_by_idemp.
Qed.

Lemma collapse_fix b (s : pystr) :
  plain_spaces s = true → single_spaced s = true →
  (b = true → open_end (head s) = true) →
  collapse_from b s = s.
Proof.
  revert b. induction s as [|c s IH]; intros b Hp Hs Hb; [reflexivity|].
  cbn [plain_spaces forallb] in Hp. apply andb_prop in Hp as [Hc Hp].
  rewrite single_spaced_cons in Hs. apply andb_prop in Hs as [Hcs Hs].
  cbn [collapse_from]. destruct (is_space c) eqn:Hsp.
  - simpl in Hc, Hcs. apply N.eqb_eq in Hc as ->.
    destruct b; [specialize (Hb eq_refl); vm_compute in Hb; discriminate Hb|].
    f_equal. by apply IH.
  - f_equal. apply IH; [done|done|discriminate].
Qed.

Lemma open_end_clear o : open_end o = true ↔ Readings.clear_of is_space o.
Proof. destruct o as [c|]; simpl; [|done]. by destruct (is_space c). Qed.

(** [opponent]: collapsing the whitespace and stripping again changes
    nothing. *)
Lemma strip_collapse_idemp (s : pystr) :
  strip (sub RX_SPACES (py " ") (strip (sub RX_SPACES (py " ") s)))
  = strip (sub RX_SPACES (py " ") s).
Proof.
  rewrite !sub_spaces. unfold collapse_whitespace.
  pose proof (normalized_strip (collapse_from false s)
                (plain_spaces_collapse _ _) (single_spaced_collapse _ _)) as Hn.
  unfold normalized in Hn. rewrite !andb_true_iff in Hn.
  destruct Hn as (((Hp & Hs) & Hh) & Hl).
  rewrite collapse_fix by (done || discriminate).
  apply strip_by_clear; by apply open_end_clear.
Qed.

Lemma is_alpha_to_upper c : is_alpha c = true → is_alpha (to_upper c) = true.
Proof.
  unfold is_alpha, to_upper, is_upper, is_lower, in_range.
  destruct (65 <=? c)%N eqn:E1, (c <=? 90)%N eqn:E2, (97 <=? c)%N eqn:E3,
    (c <=? 122)%N eqn:E4; simpl; try discriminate; intros _;
    rewrite ?E1, ?E2, ?E3, ?E4; simpl; try reflexivity;
    rewrite ?N.leb_le, ?N.leb_gt in *;
    rewrite orb_true_iff, !andb_true_iff, !N.leb_le; lia.
Qed.

Lemma is_alpha_to_lower c : is_alpha c = true → is_alpha (to_lower c) = true.
Proof.
  unfold is_alpha, to_lower, is_upper, is_lower, in_range.
  destruct (65 <=? c)%N eqn:E1, (c <=? 90)%N eqn:E2, (97 <=? c)%N eqn:E3,
    (c <=? 122)%N eqn:E4; simpl; try discriminate; intros _;
    rewrite ?E1, ?E2, ?E3, ?E4; simpl; try reflexivity;
    rewrite ?N.leb_le, ?N.leb_gt in *;
    rewrite orb_true_iff, !andb_true_iff, !N.leb_le; lia.
Qed.

(** [venue]: title-casing again changes nothing. *)
Lemma title_from_idemp b (s : pystr) :
  title_from b (title_from b s) = title_from b s.
Proof.
  revert b. induction s as [|c s IH]; intros b; [reflexivity|].
  cbn [title_from]. destruct (is_alpha c) eqn:Hc.
  - destruct b; cbn [title_from].
    + rewrite is_alpha_to_lower by done. by rewrite to_lower_idemp, IH.
    + rewrite is_alpha_to_upper by done. by rewrite to_upper_idemp, IH.
  - cbn [title_from]. by rewrite Hc, IH.
Qed.

Section Coercion.
Context `{Pandas}.

Lemma to_numeric_idemp c : to_numeric (to_numeric c) = to_numeric c.
Proof.
  destruct c as [s|n|t|]; simpl; try reflexivity; by destruct (pd_numeric _).
Qed.

Lemma lookup_coerce_cell cols c f c' r :
  coerce_cell cols c f r !! c'
  = if bool_decide (c ∈ cols) && bool_decide (c = c')
    then Some (f (get c r)) else r !! c'.
Proof.
  unfold coerce_cell. destruct (bool_decide (c ∈ cols)); simpl; [|reflexivity].
  destruct (decide (c = c')) as [->|Hne].
  - by rewrite bool_decide_eq_true_2, lookup_insert_eq.
  - by rewrite bool_decide_eq_false_2, lookup_insert_ne.
Qed.

Lemma coerce_cell_idemp cols c f r :
  (∀ x, f (f x) = f x) →
  coerce_cell cols c f (coerce_cell cols c f r) = coerce_cell cols c f r.
Proof.
  intros Hf. apply map_eq. intros k. rewrite !lookup_coerce_cell, get_coerce_cell.
  destruct (bool_decide (c ∈ cols)); simpl; [|reflexivity].
  rewrite (bool_decide_eq_true_2 (c = c)) by done.
  destruct (bool_decide (c = k)); [by rewrite Hf|reflexivity].
Qed.

Lemma coerce_cell_comm cols c1 f1 c2 f2 r :
  c1 ≠ c2 →
  coerce_cell cols c1 f1 (coerce_cell cols c2 f2 r)
  = coerce_cell cols c2 f2 (coerce_cell cols c1 f1 r).
Proof.
  intros Hne. apply map_eq. intros k. rewrite !lookup_coerce_cell, !get_coerce_cell.
  rewrite (bool_decide_eq_false_2 (c2 = c1)) by done.
  rewrite (bool_decide_eq_false_2 (c1 = c2)) by done.
  rewrite !andb_false_r.
  destruct (bool_decide (c1 ∈ cols)), (bool_decide (c2 ∈ cols)); simpl; try reflexivity.
  destruct (decide (c1 = k)) as [->|].
  - rewrite (bool_decide_eq_true_2 (k = k)) by done.
    by rewrite (bool_decide_eq_false_2 (c2 = k)).
  - by rewrite (bool_decide_eq_false_2 (c1 = k)).
Qed.

Lemma coerce_row_idemp cols r :
  coerce_row cols (coerce_row cols r) = coerce_row cols r.
Proof.
  unfold coerce_row.
  set (fv := fun x => VStr (title (astype_str (fillna_empty x)))).
  set (fo := fun x => VStr (strip (sub RX_SPACES (py " ") (astype_str x)))).
  set (fr := fun x => VStr (strip (upper (astype_str x)))).
  assert (Hv : ∀ x, fv (fv x) = fv x).
  { intros x. unfold fv. simpl. f_equal. apply title_from_idemp. }
  assert (Ho : ∀ x, fo (fo x) = fo x).
  { intros x. unfold fo. simpl. f_equal. apply strip_collapse_idemp. }
  assert (Hr : ∀ x, fr (fr x) = fr x).
  { intros x. unfold fr. simpl. f_equal. apply strip_upper_idemp. }
  pose proof to_numeric_idemp as Hn.
  generalize dependent fv. generalize dependent fo. generalize dependent fr.
  generalize to_numeric Hn. clear Hn.
  intros fn Hn fr Hr fo Ho fv Hv.
  rewrite (coerce_cell_comm cols "goals_for" fn "venue" fv) by discriminate.
  rewrite (coerce_cell_comm cols "goals_against" fn "venue" fv) by discriminate.
  rewrite (coerce_cell_comm cols "result" fr "venue" fv) by discriminate.
  rewrite (coerce_cell_comm cols "opponent" fo "venue" fv) by discriminate.
  rewrite (coerce_cell_idemp cols _ _ _ Hv). f_equal.
  rewrite (coerce_cell_comm cols "goals_for" fn "opponent" fo) by discriminate.
  rewrite (coerce_cell_comm cols "goals_against" fn "opponent" fo) by discriminate.
  rewrite (coerce_cell_comm cols "result" fr "opponent" fo) by discriminate.
  rewrite (coerce_cell_idemp cols _ _ _ Ho). f_equal.
  rewrite (coerce_cell_comm cols "goals_for" fn "result" fr) by discriminate.
  rewrite (coerce_cell_comm cols "goals_against" fn "result" fr) by discriminate.
  rewrite (coerce_cell_idemp cols _ _ _ Hr). f_equal.
  rewrite (coerce_cell_comm cols "goals_for" fn "goals_against" fn) by discriminate.
  rewrite (coerce_cell_idemp cols _ _ _ Hn). f_equal.
  apply (coerce_cell_idemp cols _ _ _ Hn).
Qed.

Lemma to_datetime_fix col : forallb is_datetime col = true → to_datetime col = col.
Proof. unfold to_datetime. by intros ->. Qed.

Lemma set_cells_column c (l : list (gmap string cell)) :
  Forall (fun r => is_Some (r !! c)) l → set_cells c l (map (get c) l) = l.
Proof.
  unfold set_cells. induction 1 as [|r l [v Hv] _ IH]; [reflexivity|].
  cbn [map zip_with]. rewrite IH. f_equal.
  apply insert_id. unfold get. by rewrite Hv.
Qed.

(** The dates of a coerced frame are read already. *)
Lemma dated_rows_fix df df1 : coerce_types df = Ok df1 → dated_rows df1 = rows df1.
Proof.
  intros Hco. unfold dated_rows. destruct (has_column "date" df1) eqn:Hd; [|reflexivity].
  apply has_column_true in Hd. unfold column. rewrite to_datetime_fix.
  - apply set_cells_column, Forall_forall. intros r Hr.
    apply coerce_types_Ok in Hco as [Hcols Hrows].
    rewrite Hrows in Hr. apply list_elem_of_fmap in Hr as (r0 & -> & Hr0).
    unfold dated_rows in Hr0.
    rewrite (proj2 (has_column_true "date" df)) in Hr0 by (by rewrite <- Hcols).
    apply elem_of_zip_with in Hr0 as (r1 & v & -> & _ & _).
    unfold coerce_row. rewrite !lookup_coerce_cell.
    rewrite !(bool_decide_eq_false_2 (_ = "date")) by done.
    rewrite !andb_false_r. rewrite lookup_insert_eq. by eexists.
  - apply forallb_forall. intros c Hc. apply list_elem_of_In in Hc.
    apply list_elem_of_fmap in Hc as (r & -> & Hr).
    by apply (coerce_types_dates df df1).
Qed.

(** On a frame whose [venue], [opponent] and [result] cells read, as
    strings, as ASCII text, [coerce_types] changes nothing in a frame it
    has returned: parsed dates and numbers stay, and upper-casing,
    stripping, collapsing the whitespace and title-casing have nothing left
    to do.  What a second cleaning changes comes after the coercion. *)
Theorem coerce_types_idempotent (df df1 : DataFrame) :
  (∀ c r, c ∈ ["venue"; "opponent"; "result"] → c ∈ columns df → r ∈ rows df →
     Forall (fun x => (x < 128)%N) (astype_str (get c r))) →
  coerce_types df = Ok df1 → coerce_types df1 = Ok df1.
Proof.
  intros _ Hco. pose proof (dated_rows_fix _ _ Hco) as Hdates.
  pose proof (coerce_types_Ok _ _ Hco) as [Hcols Hrows].
  rewrite coerce_types_eq in Hco. rewrite coerce_types_eq, Hdates.
  unfold has_column, duplicated in *. rewrite Hcols.
  do 5 (destruct (_ && _); [discriminate Hco|]).
  destruct df1 as [cols1 rows1]. cbn [columns rows] in *. subst cols1. f_equal. f_equal.
  rewrite Hrows, map_map. apply map_ext. intros r. apply coerce_row_idemp.
Qed.

End Coercion.

(** *** A venue prefix in front of the opponent *)














Section VenuePrefix.
Context `{Pandas}.


End VenuePrefix.

(** * The theorems at concrete tables *)


Lemma flipped_iff_loss_and_strictly_ahead_witness :
  cleaned mislabelled = true ∧ 0 ≤ 1 ≤ max_swing ∧ 0 ≤ 0 ≤ max_swing
  ∧ flipped mislabelled 1 0
    = Ok (MkFrame flipped_columns
            (map (project flipped_columns)
                 (filter (fun r => flips 1 0 r = true) (rows mislabelled)))).
Proof.
  split; [reflexivity|]. split; [unfold max_swing; lia|].
  split; [unfold max_swing; lia|].
  exact (proj1 (flipped_iff_loss_and_strictly_ahead mislabelled 1 0
                  eq_refl ltac:(unfold max_swing; lia) ltac:(unfold max_swing; lia))).
Defined.

Lemma flip_count_monotone_witness :
  cleaned mislabelled = true ∧ 1 ≤ 1 ∧ 1 < max_swing
  ∧ ∃ off off' dea dea',
      flip_count mislabelled 1 0 = Ok off ∧ flip_count mislabelled (1 + 1) 0 = Ok off'
      ∧ off ≤ off'
      ∧ flip_count mislabelled 0 1 = Ok dea ∧ flip_count mislabelled 0 (1 + 1) = Ok dea'
      ∧ dea ≤ dea'.
Proof.
  split; [reflexivity|]. split; [lia|]. split; [unfold max_swing; lia|].
  apply (flip_count_monotone mislabelled 1); [reflexivity|lia|unfold max_swing; lia].
Defined.

Lemma contradicting_losses_always_flip_witness :
  cleaned mislabelled = true
  ∧ contradicting_losses mislabelled = 1
  ∧ flip_count mislabelled 0 0 = Ok (contradicting_losses mislabelled)
  ∧ (∀ d, 0 ≤ d ≤ max_swing →
       ∃ f a b, best_split mislabelled d = Ok (f, a, b)
                ∧ contradicting_losses mislabelled ≤ f).
Proof.
  split; [reflexivity|]. split; [reflexivity|].
  destruct (contradicting_losses_always_flip mislabelled eq_refl)
    as (_ & Hzero & _ & Hbest).
  split; [exact Hzero|exact Hbest].
Defined.

Lemma clean_filter_one_record_per_key_witness :
  coerce_types (normalize_columns twice_read)
    = Ok (frame_of (coerce_types (normalize_columns twice_read)))
  ∧ bound_of None = Ok None
  ∧ clean_filter twice_read None None = Ok (frame_of (clean_filter twice_read None None))
  ∧ length (rows (frame_of (coerce_types (normalize_columns twice_read)))) = 2%nat
  ∧ length (rows (frame_of (clean_filter twice_read None None))) = 1%nat
  ∧ NoDup (key_of dedup_subset <$> rows (frame_of (clean_filter twice_read None None))).
Proof.
  split; [vm_compute; reflexivity|]. split; [reflexivity|].
  split; [vm_compute; reflexivity|]. split; [vm_compute; reflexivity|].
  split; [vm_compute; reflexivity|].
  refine (proj1 (clean_filter_one_record_per_key twice_read
                   (frame_of (coerce_types (normalize_columns twice_read)))
                   (frame_of (clean_filter twice_read None None))
                   None None None None _ eq_refl eq_refl _));
    vm_compute; reflexivity.
Defined.


Lemma goals_within_range_witness :
  pipeline_output (frame_of (clean_filter one_game None None))
    (rows (frame_of (coerce_types (normalize_columns one_game))))
  ∧ typed_game "Hawks" "Away" ∈ rows (frame_of (clean_filter one_game None None))
  ∧ ∃ gf ga,
      get "goals_for" (typed_game "Hawks" "Away") = VNum gf
      ∧ get "goals_against" (typed_game "Hawks" "Away") = VNum ga
      ∧ 1 ≤ gf ≤ 35 ∧ 1 ≤ ga ≤ 35
      ∧ ∃ r0, r0 ∈ rows (frame_of (coerce_types (normalize_columns one_game)))
          ∧ get "goals_for" r0 = VNum gf ∧ get "goals_against" r0 = VNum ga.
Proof.
  assert (Hout : pipeline_output (frame_of (clean_filter one_game None None))
                   (rows (frame_of (coerce_types (normalize_columns one_game))))).
  { apply (cleaning_output one_game None None); vm_compute; reflexivity. }
  assert (Hrow : typed_game "Hawks" "Away"
                 ∈ rows (frame_of (clean_filter one_game None None))).
  { vm_compute. left. }
  split; [exact Hout|]. split; [exact Hrow|].
  exact (goals_within_range _ _ _ Hout Hrow).
Defined.

Lemma score_match_guards_witness :
  search OcrAndParse.RX_SCORE (py "10/01/2024 at Hawks L 2-3")
    = Some (RMatch 22 25 [(2%nat, (24%nat, 25%nat)); (1%nat, (22%nat, 23%nat))])
  ∧ at_pos (py "10/01/2024 at Hawks L 2-3") 21 is_digit = false
  ∧ run OcrAndParse.RX_SCORE_TAIL (py "10/01/2024 at Hawks L 2-3")
        (MState 25 [(2%nat, (24%nat, 25%nat)); (1%nat, (22%nat, 23%nat))]) = [].
Proof.
  assert (Hs : search OcrAndParse.RX_SCORE (py "10/01/2024 at Hawks L 2-3")
               = Some (RMatch 22 25 [(2%nat, (24%nat, 25%nat)); (1%nat, (22%nat, 23%nat))]))
    by (vm_compute; reflexivity).
  split; [exact Hs|]. exact (score_match_guards _ _ Hs).
Defined.

Lemma clean_filter_cleaned_witness :
  clean_filter one_game None None = Ok (frame_of (clean_filter one_game None None))
  ∧ has_column "result" (frame_of (clean_filter one_game None None)) = true
  ∧ cleaned (frame_of (clean_filter one_game None None)) = true.
Proof.
  assert (Hcf : clean_filter one_game None None
                = Ok (frame_of (clean_filter one_game None None)))
    by (vm_compute; reflexivity).
  assert (Hres : has_column "result" (frame_of (clean_filter one_game None None)) = true)
    by (vm_compute; reflexivity).
  split; [exact Hcf|]. split; [exact Hres|].
  destruct (clean_filter_cleaned _ _ _ _ Hcf) as (_ & _ & _ & Hcleaned).
  exact (Hcleaned Hres).
Defined.

Lemma flip_count_split_independent_witness :
  cleaned mislabelled = true ∧ 0 ≤ 1 ≤ 2 ∧ 2 ≤ max_swing
  ∧ flip_count mislabelled 1 (2 - 1) = flip_count mislabelled 0 2
  ∧ best_split mislabelled 2 = Ok (2, 0, 2).
Proof.
  split; [reflexivity|]. split; [lia|]. split; [unfold max_swing; lia|].
  destruct (flip_count_split_independent mislabelled 2 1 eq_refl ltac:(lia)
              ltac:(unfold max_swing; lia))
    as (Heq & f & Hf & Hbs).
  split; [exact Heq|]. reflexivity.
Defined.

Lemma clean_filter_sorted_in_window_witness :
  bound_of (Some (py "2024-01-01")) = Ok (read_date (py "2024-01-01"))
  ∧ bound_of None = Ok None
  ∧ clean_filter one_game (Some (py "2024-01-01")) None
    = Ok (frame_of (clean_filter one_game (Some (py "2024-01-01")) None))
  ∧ Readings.dates (frame_of (clean_filter one_game (Some (py "2024-01-01")) None))
    = [1727740800000000000]
  ∧ StronglySorted Z.le
      (Readings.dates (frame_of (clean_filter one_game (Some (py "2024-01-01")) None)))
  ∧ Forall (Readings.within (read_date (py "2024-01-01")) None)
      (Readings.dates (frame_of (clean_filter one_game (Some (py "2024-01-01")) None))).
Proof.
  assert (Hlo : bound_of (Some (py "2024-01-01")) = Ok (read_date (py "2024-01-01")))
    by (vm_compute; reflexivity).
  assert (Hcf : clean_filter one_game (Some (py "2024-01-01")) None
                = Ok (frame_of (clean_filter one_game (Some (py "2024-01-01")) None)))
    by (vm_compute; reflexivity).
  split; [exact Hlo|]. split; [reflexivity|]. split; [exact Hcf|].
  split; [vm_compute; reflexivity|].
  destruct (clean_filter_sorted_in_window one_game _ _ None _ None Hlo eq_refl Hcf)
    as (Hsorted & Hwithin & _).
  split; [exact Hsorted|exact Hwithin].
Defined.

Lemma main_after_clean_filter_witness :
  clean_filter one_game None None = Ok (frame_of (clean_filter one_game None None))
  ∧ 4 ≤ max_swing
  ∧ (∃ wins losses details,
       Report.main one_game None None 4
       = Ok (Report.date_strings (frame_of (clean_filter one_game None None)),
             MkFrame Report.final_columns
               (map (project Report.final_columns)
                    (rows (Report.date_strings (frame_of (clean_filter one_game None None))))),
             (len (frame_of (clean_filter one_game None None)), wins, losses),
             map (Readings.magnitude_line (frame_of (clean_filter one_game None None)))
                 (seqZ 1 4),
             details)
       ∧ wins + losses = len (frame_of (clean_filter one_game None None)))
  ∧ clean_filter (MkFrame ["date"; "opponent"; "venue"; "goals_for"; "goals_against"] [])
      None None
    = Ok (MkFrame ["date"; "opponent"; "venue"; "goals_for"; "goals_against"] [])
  ∧ ∃ c, c ∈ ["venue"; "result"]
         ∧ Report.main
             (MkFrame ["date"; "opponent"; "venue"; "goals_for"; "goals_against"] [])
             None None 4
           = Err (KeyError c).
Proof.
  assert (Hcf : clean_filter one_game None None
                = Ok (frame_of (clean_filter one_game None None)))
    by (vm_compute; reflexivity).
  assert (Hempty :
    clean_filter (MkFrame ["date"; "opponent"; "venue"; "goals_for"; "goals_against"] [])
      None None
    = Ok (MkFrame ["date"; "opponent"; "venue"; "goals_for"; "goals_against"] []))
    by (vm_compute; reflexivity).
  assert (Hdmax : 4 ≤ max_swing) by (unfold max_swing; lia).
  split; [exact Hcf|]. split; [exact Hdmax|]. split; [|split; [exact Hempty|]].
  - destruct (main_after_clean_filter one_game _ None None 4 Hcf Hdmax) as [_ Hmain].
    assert (Hv : has_column "venue" (frame_of (clean_filter one_game None None))
                 && has_column "result" (frame_of (clean_filter one_game None None))
                 = true)
      by (vm_compute; reflexivity).
    rewrite Hv in Hmain. destruct Hmain as (wins & losses & details & Hm & Hsum & _).
    exists wins, losses, details. split; [exact Hm|exact Hsum].
  - exact (proj2 (main_after_clean_filter _ _ None None 4 Hempty Hdmax)).
Defined.


Lemma extract_pages_text_pages_witness :
  Pages.extract_pages_text (Some (py "a" ++ [12%N] ++ py " " ++ [12%N] ++ py "b"))
    (Some (py "2,9"))
  = Pages.Done [py "b"]
  ∧ Pages.extract_pages_text (Some (py "a" ++ [12%N] ++ py " " ++ [12%N] ++ py "b")) None
    = Pages.Done [py "a"; py "b"].
Proof.
  split; [vm_compute; reflexivity|].
  apply (extract_pages_text_pages
           (Some (py "a" ++ [12%N] ++ py " " ++ [12%N] ++ py "b")) None).
  by left.
Defined.

Lemma parse_text_candidate_witness :
  ∃ r, OcrAndParse.parse_text 1 (py "10/01/2024 at Hawks L 2-3") = Some r
       ∧ get "opponent" r = VStr (py "at Hawks")
       ∧ isin [py "W"; py "L"; py "T"] (get "result" r) = true
       ∧ between 0 99 (get "goals_for" r) = true
       ∧ between 0 99 (get "goals_against" r) = true.
Proof.
  exists (list_to_map
            [("page", VNum 1); ("date_raw", VStr (py "10/01/2024"));
             ("opponent", VStr (py "at Hawks")); ("venue", VStr (py "Away"));
             ("result", VStr (py "L")); ("goals_for", VNum 2);
             ("goals_against", VNum 3);
             ("raw", VStr (py "10/01/2024 at Hawks L 2-3"))]).
  assert (Hr : OcrAndParse.parse_text 1 (py "10/01/2024 at Hawks L 2-3")
               = Some (list_to_map
                         [("page", VNum 1); ("date_raw", VStr (py "10/01/2024"));
                          ("opponent", VStr (py "at Hawks")); ("venue", VStr (py "Away"));
                          ("result", VStr (py "L")); ("goals_for", VNum 2);
                          ("goals_against", VNum 3);
                          ("raw", VStr (py "10/01/2024 at Hawks L 2-3"))]))
    by (vm_compute; reflexivity).
  split; [exact Hr|]. split; [vm_compute; reflexivity|].
  destruct (parse_text_candidate 1 _ _ Hr) as (_ & _ & _ & Hres & Hgf & Hga & _).
  split; [exact Hres|]. split; [exact Hgf|exact Hga].
Defined.

Lemma parse_schedule_rows_witness :
  length (rows (OcrAndParse.parse_schedule_from_text wrapped_entry)) = 2%nat
  ∧ NoDup (rows (OcrAndParse.parse_schedule_from_text wrapped_entry)).
Proof.
  split; [vm_compute; reflexivity|].
  exact (proj1 (parse_schedule_rows wrapped_entry ∅)).
Defined.

Lemma extraction_main_outcomes_witness :
  OcrAndParse.main [] None None = Err (SystemExit 2)
  ∧ OcrAndParse.main [py "no game on this page"] None None = Err (SystemExit 3)
  ∧ OcrAndParse.main wrapped_entry (Some (py "next week")) None = Err ValueError
  ∧ OcrAndParse.main [py "13/45/2024 at Hawks L 2-3"] None None
    = Ok (MkFrame OcrAndParse.output_columns []).
Proof.
  split.
  { apply (proj1 (extraction_main_outcomes [] None None)). reflexivity. }
  split.
  { apply (proj1 (proj2 (extraction_main_outcomes [py "no game on this page"] None None))).
    split; [discriminate|vm_compute; reflexivity]. }
  split.
  { destruct (proj1 (proj2 (proj2 (extraction_main_outcomes wrapped_entry
                                      (Some (py "next week")) None)))
                ltac:(discriminate) ltac:(vm_compute; discriminate))
      as (Hstart & _).
    apply Hstart. vm_compute. reflexivity. }
  vm_compute. reflexivity.
Defined.

Lemma alias_clash_errors_witness :
  NoDup ["date"; "gf"; "goals_for"]
  ∧ clean_filter (MkFrame ["date"; "gf"; "goals_for"] []) None None = Err TypeError
  ∧ NoDup ["date"; "goals_for"; "goals_against"; "wl"; "result"]
  ∧ clean_filter (MkFrame ["date"; "goals_for"; "goals_against"; "wl"; "result"] [])
      None None
    = Err AttributeError.
Proof.
  assert (Hnd1 : NoDup ["date"; "gf"; "goals_for"])
    by (apply (bool_decide_unpack _); vm_compute; exact I).
  assert (Hnd2 : NoDup ["date"; "goals_for"; "goals_against"; "wl"; "result"])
    by (apply (bool_decide_unpack _); vm_compute; exact I).
  split; [exact Hnd1|]. split; [|split; [exact Hnd2|]].
  - apply (proj1 (alias_clash_errors (MkFrame ["date"; "gf"; "goals_for"] [])
                    None None Hnd1)).
    left. split; cbn [columns]; in_list.
  - apply (proj1 (proj2 (alias_clash_errors
                    (MkFrame ["date"; "goals_for"; "goals_against"; "wl"; "result"] [])
                    None None Hnd2))).
    + intros [Hin _]. cbn [columns] in Hin.
      apply (bool_decide_pack _) in Hin. vm_compute in Hin. exact Hin.
    + intros [Hin _]. cbn [columns] in Hin.
      apply (bool_decide_pack _) in Hin. vm_compute in Hin. exact Hin.
    + left. split; cbn [columns]; in_list.
Defined.

Lemma coerce_types_idempotent_witness :
  (∀ c r, c ∈ ["venue"; "opponent"; "result"] → c ∈ columns one_game →
     r ∈ rows one_game → Forall (fun x => (x < 128)%N) (astype_str (get c r)))
  ∧ coerce_types one_game = Ok (frame_of (coerce_types one_game))
  ∧ get "date" <$> rows (frame_of (coerce_types one_game)) = [VTime 1727740800000000000]
  ∧ coerce_types (frame_of (coerce_types one_game)) = Ok (frame_of (coerce_types one_game)).
Proof.
  assert (Hascii : ∀ c r, c ∈ ["venue"; "opponent"; "result"] → c ∈ columns one_game →
            r ∈ rows one_game → Forall (fun x => (x < 128)%N) (astype_str (get c r))).
  { intros c r Hc _ Hr. apply list_elem_of_singleton in Hr as ->.
    rewrite !elem_of_cons, elem_of_nil in Hc.
    destruct Hc as [-> | [-> | [-> | []]]]; vm_compute; repeat constructor. }
  assert (Hco : coerce_types one_game = Ok (frame_of (coerce_types one_game)))
    by (vm_compute; reflexivity).
  split; [exact Hascii|]. split; [exact Hco|]. split; [vm_compute; reflexivity|].
  exact (coerce_types_idempotent _ _ Hascii Hco).
Defined.

